(** * AutoML notebooks: a model of the notebook cells and their properties

    The repository holds two Jupyter notebooks:
    - [automl/00.configuration.ipynb]: creates a workspace, writes the local
      configuration file, loads it back and creates the sample folder;
    - the remote-execution notebook: creates an experiment, attaches a remote
      VM, writes [get_data.py], builds the AutoML configuration, submits it,
      collects the metrics of the child runs, cancels and fetches the model.

    Every code cell is embedded as a function of a small state-and-exception
    monad over the state of the notebook kernel: the global variables, the
    local disk, the remote service and the list of SDK calls made so far.
    The remote calls of the Azure ML SDK are the fields of an interface
    ([AzureML]), and so are the calls into pandas and scikit-learn whose
    result the notebooks do not determine ([Libraries]); the cells are
    written against arbitrary implementations of both, and so are the
    file system and the interpreter where the disk and the text of the model
    do not decide what they do.  The two SDK methods that read and write the
    local configuration file are modelled from what the specification says
    about them. *)

From Stdlib Require Import ZArith QArith Ascii String List Lia.
From Stdlib Require Import Floats.SpecFloat.
From stdpp Require Import base option list strings gmap sorting.

Set Warnings "-register-all".
Local Open Scope string_scope.
Local Open Scope Z_scope.

(** ** Python values and exceptions *)

(** The exceptions a cell can end with.  [SdkError] stands for any exception
    class defined by the SDK or by the network layer under it. *)
Inductive exn : Type :=
| NameError (name : string)
| KeyError (key : string)
| AttributeError (what : string)
| TypeError (what : string)
| ValueError (what : string)
| FileExistsError (path : string)
| FileNotFoundError (path : string)
| IsADirectoryError (path : string)
| PermissionError (path : string)
| SdkError (what : string).

(** Python values as the notebooks use them: scalars, lists and dicts.
    A Python [float] is an IEEE-754 double. *)
Inductive pyval : Type :=
| VNone
| VBool (b : bool)
| VInt (z : Z)
| VFloat (f : spec_float)
| VStr (s : string)
| VList (l : list pyval)
| VDict (d : gmap string pyval).

(** [isinstance(v, float)]: [bool] and [int] are not subclasses of [float]. *)
Definition isinstance_float (v : pyval) : bool :=
  match v with
  | VFloat _ => true
  | _ => false
  end.

(** A scalar is a value that is neither a list nor a dict. *)
Definition is_scalar (v : pyval) : bool :=
  match v with
  | VList _ | VDict _ => false
  | _ => true
  end.

(** ** The state-and-exception monad of a cell

    A computation either returns a value or raises; in both cases the state
    is the one reached so far: what a cell did before it raised stays done. *)
Inductive outcome (S A : Type) : Type :=
| Ok (a : A) (s : S)
| Raise (e : exn) (s : S).
Arguments Ok {S A} a s.
Arguments Raise {S A} e s.

Definition M (S A : Type) : Type := S -> outcome S A.

Definition ret {S A} (a : A) : M S A := fun s => Ok a s.

Definition raise {S A} (e : exn) : M S A := fun s => Raise e s.

Definition bind {S A B} (c : M S A) (k : A -> M S B) : M S B :=
  fun s =>
    match c s with
    | Ok a s' => k a s'
    | Raise e s' => Raise e s'
    end.

Declare Scope py_scope.
Delimit Scope py_scope with py.
Notation "x <- c ;; k" := (bind c (fun x => k))
  (at level 100, c at next level, right associativity) : py_scope.
Notation "c ;; k" := (bind c (fun _ => k))
  (at level 100, right associativity) : py_scope.
Local Open Scope py_scope.

(** The state a computation ends in, whether it returned or raised. *)
Definition final {S A} (o : outcome S A) : S :=
  match o with
  | Ok _ s => s
  | Raise _ s => s
  end.

(** [for x in xs: body x], for a body that returns nothing. *)
Fixpoint for_each {S A} (xs : list A) (body : A -> M S unit) : M S unit :=
  match xs with
  | [] => ret tt
  | x :: rest => body x ;; for_each rest body
  end.


(** ** The local disk

    Paths are taken relative to the notebook's working directory.  The disk
    of the model holds the directories and the regular files the process
    sees, through links and with its rights; a JSON file holds an object
    with string values.  What else the file system knows of a path that the
    disk shows as free (a link that leads nowhere, a special file, a parent
    directory that is missing or that the process may not write) is not
    part of the disk: an operation that depends on it takes it as a
    parameter. *)
Inductive node : Type :=
| Dir
| File (content : gmap string string).

(** [os.path.isdir] *)
Definition isdir (d : (gmap string node)) (p : string) : bool :=
  match d !! p with
  | Some Dir => true
  | _ => false
  end.

(** [os.mkdir]: raises [FileExistsError] when the path holds a directory
    or a file.  On a path the disk shows as free the file system decides:
    [refusal d p] is the exception it raises there, if it raises one
    ([FileExistsError] for a link that leads nowhere or a special file,
    [PermissionError] in a directory the process may not write,
    [FileNotFoundError] for a missing parent, and so on); otherwise the
    directory is made. *)
Definition mkdir (refusal : gmap string node -> string -> option exn) (p : string)
  : M (gmap string node) unit :=
  fun d =>
    match d !! p with
    | Some _ => Raise (FileExistsError p) d
    | None =>
        match refusal d p with
        | Some e => Raise e d
        | None => Ok tt (<[p := Dir]> d)
        end
    end.

(** ** Python's [int] on a string

    [int(s)] in base 10, as Python 3.6 reads it, the version of the
    notebooks' kernel.  On ASCII text the white space at both ends is
    dropped (tab, line feed, vertical tab, form feed, carriage return and
    space: the four separators 28 to 31 are white space for [str.strip] but
    not for [int]), a sign may come first, and the digits may be grouped by
    single underscores.  On text with a character that is not ASCII the
    interpreter first turns every Unicode space and every Unicode decimal
    digit into its ASCII counterpart, by tables that depend on its version
    of Unicode: that case is a parameter, [unicode], which gives the
    integer read, if the text reads as one. *)
Definition is_space (a : ascii) : bool :=
  let n := Z.of_N (N_of_ascii a) in
  ((9 <=? n) && (n <=? 13)) || (n =? 32).

Definition is_ascii (a : ascii) : bool := Z.of_N (N_of_ascii a) <? 128.

Definition digit_of (a : ascii) : option Z :=
  let n := Z.of_N (N_of_ascii a) in
  if (48 <=? n) && (n <=? 57) then Some (n - 48) else None.

Fixpoint drop_spaces (l : list ascii) : list ascii :=
  match l with
  | a :: l' => if is_space a then drop_spaces l' else l
  | [] => []
  end.

Definition strip (l : list ascii) : list ascii :=
  rev (drop_spaces (rev (drop_spaces l))).

(** [after_digit] tells whether the previous character was a digit: an
    underscore may only stand between two digits. *)
Fixpoint digits (acc : Z) (after_digit : bool) (l : list ascii) : option Z :=
  match l with
  | [] => if after_digit then Some acc else None
  | a :: l' =>
      if Ascii.eqb a "_"
      then (if after_digit then digits acc false l' else None)
      else
        match digit_of a with
        | Some d => digits (10 * acc + d) true l'
        | None => None
        end
  end.

(** The integer an ASCII text reads as, if it reads as one. *)
Definition int_of_ascii (s : string) : option Z :=
  match strip (list_ascii_of_string s) with
  | a :: l' =>
      if Ascii.eqb a "-" then Z.opp <$> digits 0 false l'
      else if Ascii.eqb a "+" then digits 0 false l'
      else digits 0 false (a :: l')
  | [] => None
  end.

Definition int_of_str (unicode : string -> option Z) (s : string) : exn + Z :=
  let read :=
    if forallb is_ascii (list_ascii_of_string s) then int_of_ascii s
    else unicode s in
  match read with
  | Some z => inr z
  | None => inl (ValueError s)
  end.

(** The text of a number written with the given decimal digits, most
    significant first, and the number it stands for. *)
Definition numeral (ds : list Z) : string :=
  string_of_list_ascii (map (fun d => ascii_of_N (Z.to_N (48 + d))) ds).

Definition number (ds : list Z) : Z := fold_left (fun acc d => 10 * acc + d) ds 0.

(** ** pandas and scikit-learn, as the notebooks use them *)

Module Pandas.

(** A data frame as [pd.read_csv] builds it from a delimited text file: the
    columns in the order of the file, each with its label and its cells.
    [read_csv] gives every column a type: the cells of a column of numbers
    are numbers, an empty cell is the float NaN, and only what is left is
    text.  [read_csv] gives repeated labels distinct names, so a label names
    at most one column. *)
Definition frame : Type := list (string * list pyval).

(** [df[label].values]: [KeyError] when no column has the label. *)
Definition column (df : frame) (label : string) : exn + list pyval :=
  match List.find (fun c => String.eqb c.1 label) df with
  | Some c => inr c.2
  | None => inl (KeyError label)
  end.

(** [df.drop([label], axis=1)]: the frame without the column; [KeyError]
    when no column has the label. *)
Definition drop (df : frame) (label : string) : exn + frame :=
  match List.find (fun c => String.eqb c.1 label) df with
  | Some _ => inr (List.filter (fun c => negb (String.eqb c.1 label)) df)
  | None => inl (KeyError label)
  end.

End Pandas.

(** [LabelEncoder] on labels that are all text.  What the encoder does with
    labels that are numbers, or numbers and text, depends on the versions of
    NumPy and scikit-learn and is left to the libraries, further down. *)
Module Sklearn.

(** [np.unique]: the distinct values in ascending order. *)
Definition np_unique (values : list string) : list string :=
  merge_sort String.le (remove_dups values).

(** [LabelEncoder().fit(values)]: the encoder keeps the classes. *)
Definition LabelEncoder_fit (values : list string) : list string :=
  np_unique values.

(** The code of one label: its position among the classes; [ValueError]
    for a label the encoder has not seen. *)
Definition encode1 (classes : list string) (v : string) : exn + Z :=
  match list_find (fun c => c = v) classes with
  | Some (i, _) => inr (Z.of_nat i)
  | None => inl (ValueError v)
  end.

(** [le.transform(values)] *)
Fixpoint LabelEncoder_transform (classes : list string) (values : list string)
  : exn + list Z :=
  match values with
  | [] => inr []
  | v :: rest =>
      match encode1 classes v with
      | inl e => inl e
      | inr i =>
          match LabelEncoder_transform classes rest with
          | inl e => inl e
          | inr codes => inr (i :: codes)
          end
      end
  end.

(** The label of one code; [ValueError] for a code that is no position
    among the classes. *)
Definition decode1 (classes : list string) (code : Z) : exn + string :=
  if code <? 0 then inl (ValueError "unseen label")
  else
    match classes !! Z.to_nat code with
    | Some v => inr v
    | None => inl (ValueError "unseen label")
    end.

(** [le.inverse_transform(codes)] *)
Fixpoint LabelEncoder_inverse_transform (classes : list string) (codes : list Z)
  : exn + list string :=
  match codes with
  | [] => inr []
  | c :: rest =>
      match decode1 classes c with
      | inl e => inl e
      | inr v =>
          match LabelEncoder_inverse_transform classes rest with
          | inl e => inl e
          | inr labels => inr (v :: labels)
          end
      end
  end.

End Sklearn.

(** The data set of both notebooks and the two characters [read_csv] is
    given: the tabulator as delimiter and the double quote as quote. *)
Definition dataset_url : string :=
  "https://automldemods.blob.core.windows.net/datasets/PlayaEvents2016,_1.6MB,_3.4k-rows.cleaned.2.tsv".

Definition tab : string := String (ascii_of_nat 9) EmptyString.
Definition quote : string := String (ascii_of_nat 34) EmptyString.

(** ** Objects of the Azure ML SDK *)

(** A [Workspace] object with the attributes the notebooks read:
    [ws.name], [ws.subscription_id], [ws.resource_group], [ws.location]. *)
Module Workspace.
Record t : Type := mk {
  name : string;
  subscription_id : string;
  resource_group : string;
  location : string
}.
End Workspace.

(** An [Experiment] object: [experiment.name] is read by the notebook. *)
Module Experiment.
Record t : Type := mk {
  workspace : Workspace.t;
  name : string
}.
End Experiment.

(** Remote resources are known to the client by an opaque identifier. *)
Inductive ComputeTarget : Type := ComputeId (id : string).
Inductive Run : Type := RunId (id : string).
Inductive FittedModel : Type := ModelRef (id : string).

(** An [AutoMLConfig] object: the named arguments of the constructor and the
    remaining keyword arguments. *)
Module AutoMLConfig.
Record t : Type := mk {
  task : string;
  path : string;
  compute_target : ComputeTarget;
  data_script : string;
  kwargs : gmap string pyval
}.
End AutoMLConfig.

(** The names of the constructor's explicit keyword arguments. *)
Definition AutoMLConfig_named : list string :=
  ["task"; "path"; "compute_target"; "data_script"].

(** [AutoMLConfig(task=.., path=.., compute_target=.., data_script=..,
    **settings)].  Python builds a fresh keyword dictionary from [settings]
    and raises [TypeError] when a key repeats an explicit keyword. *)
Definition AutoMLConfig_init (task path : string) (compute_target : ComputeTarget)
    (data_script : string) (settings : gmap string pyval)
  : exn + AutoMLConfig.t :=
  match List.find (fun k => bool_decide (is_Some (settings !! k))) AutoMLConfig_named with
  | Some k => inl (TypeError k)
  | None => inr (AutoMLConfig.mk task path compute_target data_script settings)
  end.

(** The remote calls of the SDK, in the order the notebooks make them. *)
Inductive call : Type :=
| CallWorkspaceCreate (name subscription_id resource_group location : string)
| CallWorkspace (workspace_name subscription_id resource_group : string)
| CallGetDetails (ws : Workspace.t)
| CallExperiment (ws : Workspace.t) (name : string)
| CallAttach (ws : Workspace.t) (name address username password : string) (ssh_port : Z)
| CallSubmit (experiment : Experiment.t) (config : AutoMLConfig.t)
| CallRunDetails (run : Run)
| CallGetChildren (run : Run)
| CallGetProperties (run : Run)
| CallGetMetrics (run : Run)
| CallCancel (run : Run)
| CallGetOutput (run : Run) (iteration : option Z)
| CallRegisterModel (run : Run) (description : string) (tags : pyval).

(** The SDK as the notebooks see it: every remote call acts on the state [C]
    of the remote service and returns or raises.  Nothing is assumed about
    what an implementation does.  [Workspace_fetch] is the request the
    constructor [Workspace(..)] makes for the workspace it is to stand for;
    it returns the region of the workspace.  [get_output] takes the iteration
    asked for, if one is; [register_model] returns the identifier of the
    registered model. *)
Record AzureML (C : Type) : Type := {
  Workspace_create : string -> string -> string -> string -> M C Workspace.t;
  Workspace_fetch : string -> string -> string -> M C string;
  get_details : Workspace.t -> M C pyval;
  Experiment_init : Workspace.t -> string -> M C Experiment.t;
  RemoteCompute_attach :
    Workspace.t -> string -> string -> string -> string -> Z -> M C ComputeTarget;
  submit : Experiment.t -> AutoMLConfig.t -> M C Run;
  RunDetails_show : Run -> M C unit;
  get_children : Run -> M C (list Run);
  get_properties : Run -> M C (gmap string string);
  get_metrics : Run -> M C (gmap string pyval);
  cancel : Run -> M C unit;
  get_output : Run -> option Z -> M C (Run * FittedModel);
  register_model : Run -> string -> pyval -> M C string
}.
Arguments Workspace_create {C} _ _ _ _ _ _.
Arguments Workspace_fetch {C} _ _ _ _ _.
Arguments get_details {C} _ _ _.
Arguments Experiment_init {C} _ _ _ _.
Arguments RemoteCompute_attach {C} _ _ _ _ _ _ _ _.
Arguments submit {C} _ _ _ _.
Arguments RunDetails_show {C} _ _ _.
Arguments get_children {C} _ _ _.
Arguments get_properties {C} _ _ _.
Arguments get_metrics {C} _ _ _.
Arguments cancel {C} _ _ _.
Arguments get_output {C} _ _ _ _.
Arguments register_model {C} _ _ _ _ _.

(** The calls into pandas, scikit-learn and pandas_ml whose result the
    notebooks do not determine: reading the file over the network, on the
    state [W] of what is out there; the seeded split, which gives the four
    parts [(df_train, df_test, y_train, y_test)]; the prediction of a fitted
    model; the confusion matrix of actual against predicted labels, as
    counts by pair of labels; and the three methods of the label encoder on
    labels that are not all text ([fit] gives the classes).  Each returns or
    raises.  The last field is the interpreter's own: what [int] reads from
    a text that is not ASCII. *)
Record Libraries (W : Type) : Type := {
  read_csv : string -> string -> string -> M W Pandas.frame;
  train_test_split :
    Pandas.frame -> list Z -> Q -> Z ->
    exn + (Pandas.frame * Pandas.frame * list Z * list Z);
  predict : FittedModel -> Pandas.frame -> exn + list Z;
  ConfusionMatrix : list pyval -> list pyval -> exn + list (pyval * pyval * Z);
  fit_mixed : list pyval -> exn + list pyval;
  transform_mixed : list pyval -> list pyval -> exn + list Z;
  inverse_transform_mixed : list pyval -> list Z -> exn + list pyval;
  int_unicode : string -> option Z
}.
Arguments read_csv {W} _ _ _ _ _.
Arguments train_test_split {W} _ _ _ _ _.
Arguments predict {W} _ _ _.
Arguments ConfusionMatrix {W} _ _ _.
Arguments fit_mixed {W} _ _.
Arguments transform_mixed {W} _ _ _.
Arguments inverse_transform_mixed {W} _ _ _.
Arguments int_unicode {W} _ _.

(** ** The label encoder on a column of a data frame *)

(** The texts of values that are all text. *)
Definition texts (values : list pyval) : option (list string) :=
  mapM (fun v => match v with VStr s => Some s | _ => None end) values.

Section Encoder.
Context {W : Type} (py : Libraries W).

(** [le.fit(values)]: the classes the encoder keeps. *)
Definition le_fit (values : list pyval) : exn + list pyval :=
  match texts values with
  | Some labels => inr (VStr <$> Sklearn.LabelEncoder_fit labels)
  | None => fit_mixed py values
  end.

(** [le.transform(values)] for an encoder with the given classes. *)
Definition le_transform (classes values : list pyval) : exn + list Z :=
  match texts classes, texts values with
  | Some classes', Some labels => Sklearn.LabelEncoder_transform classes' labels
  | _, _ => transform_mixed py classes values
  end.

(** [le.inverse_transform(codes)] for an encoder with the given classes. *)
Definition le_inverse_transform (classes : list pyval) (codes : list Z)
  : exn + list pyval :=
  match texts classes with
  | Some classes' =>
      match Sklearn.LabelEncoder_inverse_transform classes' codes with
      | inl e => inl e
      | inr labels => inr (VStr <$> labels)
      end
  | None => inverse_transform_mixed py classes codes
  end.

End Encoder.

(** ** The notebook kernel *)

(** What a global variable of a notebook can hold. *)
Inductive obj : Type :=
| OVal (v : pyval)
| OWorkspace (ws : Workspace.t)
| OExperiment (e : Experiment.t)
| OCompute (c : ComputeTarget)
| OConfig (c : AutoMLConfig.t)
| ORun (r : Run)
| ORuns (rs : list Run)
| OModel (m : FittedModel)
| OProperties (p : gmap string string)
| OMetrics (m : gmap Z (gmap string pyval))
| OTable (columns : list Z) (column : gmap Z (gmap string pyval))
| OFrame (df : Pandas.frame)
| OEncoder (classes : option (list pyval))
| OCodes (codes : list Z)
| OLabels (labels : list pyval)
| OConfusion (counts : list (pyval * pyval * Z)).

(** The state of a running notebook: its global variables, the local disk,
    the remote service and the remote calls made so far, oldest first, each
    with the exception it raised, if it raised one. *)
Record kernel (C : Type) : Type := Kernel {
  vars : gmap string obj;
  disk : gmap string node;
  cloud : C;
  calls : list (call * option exn)
}.
Arguments Kernel {C} _ _ _ _.
Arguments vars {C} _.
Arguments disk {C} _.
Arguments cloud {C} _.
Arguments calls {C} _.

(** Reading a global variable: [NameError] when it was never assigned. *)
Definition load {C} (x : string) : M (kernel C) obj :=
  fun k =>
    match vars k !! x with
    | Some o => Ok o k
    | None => Raise (NameError x) k
    end.

(** [x = o] *)
Definition assign {C} (x : string) (o : obj) : M (kernel C) unit :=
  fun k => Ok tt (Kernel (<[x := o]> (vars k)) (disk k) (cloud k) (calls k)).

(** Runs a computation on the local disk. *)
Definition on_disk {C A} (c : M (gmap string node) A) : M (kernel C) A :=
  fun k =>
    match c (disk k) with
    | Ok a d => Ok a (Kernel (vars k) d (cloud k) (calls k))
    | Raise e d => Raise e (Kernel (vars k) d (cloud k) (calls k))
    end.

(** Makes one remote call: the call is recorded, the remote service moves
    to the state the call leaves, and the result or the exception of the
    call is the result or the exception of the computation. *)
Definition remote {C A} (c : call) (op : M C A) : M (kernel C) A :=
  fun k =>
    match op (cloud k) with
    | Ok a w => Ok a (Kernel (vars k) (disk k) w (calls k ++ [(c, None)]))
    | Raise e w => Raise e (Kernel (vars k) (disk k) w (calls k ++ [(c, Some e)]))
    end.

(** Reaches over the network without going through the SDK: what is out
    there moves to the state the computation leaves, and the result or the
    exception of the computation is passed on. *)
Definition network {C A} (op : M C A) : M (kernel C) A :=
  fun k =>
    match op (cloud k) with
    | Ok a w => Ok a (Kernel (vars k) (disk k) w (calls k))
    | Raise e w => Raise e (Kernel (vars k) (disk k) w (calls k))
    end.

(** Lifts a result that is a value or an exception. *)
Definition lift {S A} (r : exn + A) : M S A :=
  match r with
  | inl e => raise e
  | inr a => ret a
  end.

(** Reading a variable where the code needs an object of a given class; an
    object of another class has not the attribute or method used. *)
Definition load_str {C} (x : string) : M (kernel C) string :=
  o <- load x ;;
  match o with
  | OVal (VStr s) => ret s
  | _ => raise (TypeError x)
  end.

Definition load_dict {C} (x : string) : M (kernel C) (gmap string pyval) :=
  o <- load x ;;
  match o with
  | OVal (VDict d) => ret d
  | _ => raise (TypeError x)
  end.

Definition load_workspace {C} (x : string) : M (kernel C) Workspace.t :=
  o <- load x ;;
  match o with
  | OWorkspace ws => ret ws
  | _ => raise (AttributeError x)
  end.

Definition load_experiment {C} (x : string) : M (kernel C) Experiment.t :=
  o <- load x ;;
  match o with
  | OExperiment e => ret e
  | _ => raise (AttributeError x)
  end.

Definition load_compute {C} (x : string) : M (kernel C) ComputeTarget :=
  o <- load x ;;
  match o with
  | OCompute c => ret c
  | _ => raise (AttributeError x)
  end.

Definition load_config {C} (x : string) : M (kernel C) AutoMLConfig.t :=
  o <- load x ;;
  match o with
  | OConfig c => ret c
  | _ => raise (AttributeError x)
  end.

Definition load_run {C} (x : string) : M (kernel C) Run :=
  o <- load x ;;
  match o with
  | ORun r => ret r
  | _ => raise (AttributeError x)
  end.

Definition load_runs {C} (x : string) : M (kernel C) (list Run) :=
  o <- load x ;;
  match o with
  | ORuns rs => ret rs
  | _ => raise (TypeError x)
  end.

Definition load_metrics {C} (x : string) : M (kernel C) (gmap Z (gmap string pyval)) :=
  o <- load x ;;
  match o with
  | OMetrics m => ret m
  | _ => raise (TypeError x)
  end.

Definition load_model {C} (x : string) : M (kernel C) FittedModel :=
  o <- load x ;;
  match o with
  | OModel m => ret m
  | _ => raise (AttributeError x)
  end.

Definition load_frame {C} (x : string) : M (kernel C) Pandas.frame :=
  o <- load x ;;
  match o with
  | OFrame df => ret df
  | _ => raise (TypeError x)
  end.

Definition load_encoder {C} (x : string) : M (kernel C) (option (list pyval)) :=
  o <- load x ;;
  match o with
  | OEncoder classes => ret classes
  | _ => raise (AttributeError x)
  end.

Definition load_codes {C} (x : string) : M (kernel C) (list Z) :=
  o <- load x ;;
  match o with
  | OCodes codes => ret codes
  | _ => raise (TypeError x)
  end.

Definition load_labels {C} (x : string) : M (kernel C) (list pyval) :=
  o <- load x ;;
  match o with
  | OLabels labels => ret labels
  | _ => raise (TypeError x)
  end.

(** The classes of an encoder; an encoder that was not fitted raises. *)
Definition fitted {S} (le : option (list pyval)) : M S (list pyval) :=
  match le with
  | Some classes => ret classes
  | None => raise (ValueError "not fitted")
  end.

(** ** The workspace constructor and the configuration file *)

(** [Workspace(workspace_name=.., subscription_id=.., resource_group=..)]:
    the constructor asks the service for the workspace, which raises when it
    cannot be reached, and keeps the three identifiers it was given next to
    the region the service reports. *)
Definition Workspace_init {C} (az : AzureML C)
    (workspace_name subscription_id resource_group : string)
  : M (kernel C) Workspace.t :=
  location <- remote (CallWorkspace workspace_name subscription_id resource_group)
                (Workspace_fetch az workspace_name subscription_id resource_group) ;;
  ret (Workspace.mk workspace_name subscription_id resource_group location).

Definition config_dir : string := "./aml_config".
Definition config_file : string := "./aml_config/config.json".

(** Modelled from the spec: the workspace descriptor [ws.write_config()]
    gives the configuration file.  The method is part of the SDK and its code
    is not in the repository.  The descriptor is made of the subscription
    identifier, the resource group name, the workspace name and the region.
    The three identifiers are kept under the names of the constructor's
    arguments, under which [from_config] hands them back.  (The notebook's
    comment above the call names the three identifiers only.) *)
Definition descriptor (ws : Workspace.t) : gmap string string :=
  <["subscription_id" := Workspace.subscription_id ws]>
    (<["resource_group" := Workspace.resource_group ws]>
       (<["workspace_name" := Workspace.name ws]>
          (<["region" := Workspace.location ws]> ∅))).

(** Modelled from the spec: [ws.write_config()], missing from the repository
    as part of the SDK.  It makes sure the folder [./aml_config] exists and
    writes the file anew: what the file held before is replaced as a whole. *)
Definition write_config (ws : Workspace.t) : M (gmap string node) unit :=
  fun d =>
    match d !! config_dir with
    | Some (File _) => Raise (FileExistsError config_dir) d
    | _ =>
        let d1 := <[config_dir := Dir]> d in
        match d1 !! config_file with
        | Some Dir => Raise (IsADirectoryError config_file) d1
        | _ => Ok tt (<[config_file := File (descriptor ws)]> d1)
        end
    end.

(** Reading the configuration file. *)
Definition read_config : M (gmap string node) (gmap string string) :=
  fun d =>
    match d !! config_file with
    | Some (File c) => Ok c d
    | Some Dir => Raise (IsADirectoryError config_file) d
    | None => Raise (FileNotFoundError config_file) d
    end.

(** [c[key]] on the object read from the file. *)
Definition field {S} (c : gmap string string) (key : string) : M S string :=
  match c !! key with
  | Some v => ret v
  | None => raise (KeyError key)
  end.

(** Modelled from the spec: [Workspace.from_config()], missing from the
    repository as part of the SDK.  It loads the workspace configuration from
    [./aml_config/config.json] (the notebook's comment) and builds the
    workspace from the three values through the constructor. *)
Definition from_config {C} (az : AzureML C) : M (kernel C) Workspace.t :=
  c <- on_disk read_config ;;
  subscription_id <- field c "subscription_id" ;;
  resource_group <- field c "resource_group" ;;
  workspace_name <- field c "workspace_name" ;;
  Workspace_init az workspace_name subscription_id resource_group.

(** ** The cells of [00.configuration.ipynb]

    The shell cells ([az login] and the like) and the printed output are
    not part of the model. *)
Module Configuration.
Section Cells.
Context {C : Type} (az : AzureML C).
Context (refusal : gmap string node -> string -> option exn).

(** The cell of the four parameters; the user replaces the placeholders. *)
Definition cell_parameters (subscription_id resource_group workspace_name
    workspace_region : string) : M (kernel C) unit :=
  assign "subscription_id" (OVal (VStr subscription_id)) ;;
  assign "resource_group" (OVal (VStr resource_group)) ;;
  assign "workspace_name" (OVal (VStr workspace_name)) ;;
  assign "workspace_region" (OVal (VStr workspace_region)).

(** The values the notebook ships with. *)
Definition cell_parameters_default : M (kernel C) unit :=
  cell_parameters "<subscription_id>" "myrg" "myws" "eastus2".

(** [ws = Workspace.create(name = workspace_name, ...); ws.get_details()] *)
Definition cell_create : M (kernel C) unit :=
  name <- load_str "workspace_name" ;;
  subscription_id <- load_str "subscription_id" ;;
  resource_group <- load_str "resource_group" ;;
  location <- load_str "workspace_region" ;;
  ws <- remote (CallWorkspaceCreate name subscription_id resource_group location)
          (Workspace_create az name subscription_id resource_group location) ;;
  assign "ws" (OWorkspace ws) ;;
  ws <- load_workspace "ws" ;;
  remote (CallGetDetails ws) (get_details az ws) ;;
  ret tt.

(** [ws = Workspace(workspace_name = .., ..); ws.write_config()] *)
Definition cell_write_config : M (kernel C) unit :=
  workspace_name <- load_str "workspace_name" ;;
  subscription_id <- load_str "subscription_id" ;;
  resource_group <- load_str "resource_group" ;;
  ws <- Workspace_init az workspace_name subscription_id resource_group ;;
  assign "ws" (OWorkspace ws) ;;
  ws <- load_workspace "ws" ;;
  on_disk (write_config ws).

(** [my_workspace = Workspace.from_config(); my_workspace.get_details()] *)
Definition cell_from_config : M (kernel C) unit :=
  my_workspace <- from_config az ;;
  assign "my_workspace" (OWorkspace my_workspace) ;;
  my_workspace <- load_workspace "my_workspace" ;;
  remote (CallGetDetails my_workspace) (get_details az my_workspace) ;;
  ret tt.

(** [if not os.path.isdir(sample_projects_folder):
       os.mkdir(sample_projects_folder)] *)
Definition cell_sample_projects : M (kernel C) unit :=
  assign "sample_projects_folder" (OVal (VStr "./sample_projects")) ;;
  sample_projects_folder <- load_str "sample_projects_folder" ;;
  fun k =>
    if negb (isdir (disk k) sample_projects_folder)
    then on_disk (mkdir refusal sample_projects_folder) k
    else Ok tt k.

End Cells.
End Configuration.

(** ** The cells of the remote-execution notebook

    Not modelled: the imports, the telemetry opt-in, what a cell prints or
    plots, and the cells that create the project folder, write [get_data.py]
    into it and view the data.  The function [get_data] itself is modelled
    further down. *)
Module RemoteExecution.
Section Cells.
Context {C : Type} (az : AzureML C) (py : Libraries C).

(** [ws = Workspace.from_config()] and [experiment = Experiment(ws, ..)] *)
Definition cell_experiment : M (kernel C) unit :=
  ws <- from_config az ;;
  assign "ws" (OWorkspace ws) ;;
  assign "experiment_name" (OVal (VStr "automl-remote-dsvm-blobstore")) ;;
  assign "project_folder"
    (OVal (VStr "./sample_projects/automl-remote-dsvm-blobstore")) ;;
  ws <- load_workspace "ws" ;;
  experiment_name <- load_str "experiment_name" ;;
  experiment <- remote (CallExperiment ws experiment_name)
                  (Experiment_init az ws experiment_name) ;;
  assign "experiment" (OExperiment experiment).

(** [dsvm_compute = RemoteCompute.attach(workspace=ws, name=dsvm_name, ..,
    ssh_port=22)]; the user fills in the four values of the VM. *)
Definition cell_attach (dsvm_name dsvm_ip_addr dsvm_username dsvm_password : string)
  : M (kernel C) unit :=
  assign "dsvm_name" (OVal (VStr dsvm_name)) ;;
  assign "dsvm_ip_addr" (OVal (VStr dsvm_ip_addr)) ;;
  assign "dsvm_username" (OVal (VStr dsvm_username)) ;;
  assign "dsvm_password" (OVal (VStr dsvm_password)) ;;
  ws <- load_workspace "ws" ;;
  name <- load_str "dsvm_name" ;;
  address <- load_str "dsvm_ip_addr" ;;
  username <- load_str "dsvm_username" ;;
  password <- load_str "dsvm_password" ;;
  dsvm_compute <- remote (CallAttach ws name address username password 22)
                    (RemoteCompute_attach az ws name address username password 22) ;;
  assign "dsvm_compute" (OCompute dsvm_compute).

(** The dictionary literal of the settings cell. *)
Definition automl_settings : gmap string pyval :=
  list_to_map
    [ ("max_time_sec", VInt 3600);
      ("iterations", VInt 10);
      ("n_cross_validations", VInt 5);
      ("primary_metric", VStr "AUC_weighted");
      ("preprocess", VBool true);
      ("max_cores_per_iteration", VInt 2) ].

(** [automl_settings = {..}] and
    [automl_config = AutoMLConfig(task = 'classification', path=project_folder,
       compute_target = dsvm_compute,
       data_script = project_folder + "/get_data.py", **automl_settings)] *)
Definition cell_automl_config : M (kernel C) unit :=
  assign "automl_settings" (OVal (VDict automl_settings)) ;;
  path <- load "project_folder" ;;
  compute_target <- load "dsvm_compute" ;;
  project_folder <- load_str "project_folder" ;;
  let data_script := project_folder ++ "/get_data.py" in
  settings <- load_dict "automl_settings" ;;
  path <- match path with
          | OVal (VStr s) => ret s
          | _ => raise (TypeError "path")
          end ;;
  compute_target <- match compute_target with
                    | OCompute c => ret c
                    | _ => raise (TypeError "compute_target")
                    end ;;
  automl_config <- lift (AutoMLConfig_init "classification" path compute_target
                           data_script settings) ;;
  assign "automl_config" (OConfig automl_config).

(** [remote_run = experiment.submit(automl_config)] *)
Definition cell_submit : M (kernel C) unit :=
  experiment <- load_experiment "experiment" ;;
  automl_config <- load_config "automl_config" ;;
  remote_run <- remote (CallSubmit experiment automl_config)
                  (submit az experiment automl_config) ;;
  assign "remote_run" (ORun remote_run).

(** [RunDetails(remote_run).show()] *)
Definition cell_run_details : M (kernel C) unit :=
  remote_run <- load_run "remote_run" ;;
  remote (CallRunDetails remote_run) (RunDetails_show az remote_run).

(** [{k: v for k, v in metrics.items() if isinstance(v, float)}] *)
Definition float_metrics (metrics : gmap string pyval) : gmap string pyval :=
  filter (fun kv => isinstance_float kv.2 = true) metrics.

(** The body of [for run in children:]. *)
Definition children_body (run : Run) : M (kernel C) unit :=
  assign "run" (ORun run) ;;
  properties <- remote (CallGetProperties run) (get_properties az run) ;;
  assign "properties" (OProperties properties) ;;
  all_metrics <- remote (CallGetMetrics run) (get_metrics az run) ;;
  let metrics := float_metrics all_metrics in
  assign "metrics" (OVal (VDict metrics)) ;;
  metricslist <- load_metrics "metricslist" ;;
  iteration <- field properties "iteration" ;;
  i <- lift (int_of_str (int_unicode py) iteration) ;;
  assign "metricslist" (OMetrics (<[i := metrics]> metricslist)).

(** [pd.DataFrame(metricslist)]: one column per key of the outer dictionary,
    one row per metric name; a metric a column lacks reads as NaN, here as
    [None].  The order in which the dictionary was filled is not kept, since
    the columns are sorted next. *)
Definition DataFrame (metricslist : gmap Z (gmap string pyval)) : obj :=
  OTable (map fst (map_to_list metricslist)) metricslist.

(** [.sort_index(1)]: the columns in ascending order of their labels. *)
Definition sort_index_1 (t : obj) : obj :=
  match t with
  | OTable columns column => OTable (merge_sort Z.le columns) column
  | _ => t
  end.

(** The cell that collects the metrics of the child runs. *)
Definition cell_children : M (kernel C) unit :=
  remote_run <- load_run "remote_run" ;;
  children <- remote (CallGetChildren remote_run) (get_children az remote_run) ;;
  assign "children" (ORuns children) ;;
  assign "metricslist" (OMetrics ∅) ;;
  children <- load_runs "children" ;;
  for_each children children_body ;;
  metricslist <- load_metrics "metricslist" ;;
  assign "rundata" (sort_index_1 (DataFrame metricslist)).

(** [remote_run.cancel()] *)
Definition cell_cancel : M (kernel C) unit :=
  remote_run <- load_run "remote_run" ;;
  remote (CallCancel remote_run) (cancel az remote_run).

(** [best_run, fitted_model = remote_run.get_output()] *)
Definition cell_best_model : M (kernel C) unit :=
  remote_run <- load_run "remote_run" ;;
  out <- remote (CallGetOutput remote_run None) (get_output az remote_run None) ;;
  assign "best_run" (ORun out.1) ;;
  assign "fitted_model" (OModel out.2).

(** [iteration = 0] and
    [zero_run, zero_model = remote_run.get_output(iteration=iteration)] *)
Definition cell_iteration_model : M (kernel C) unit :=
  assign "iteration" (OVal (VInt 0)) ;;
  remote_run <- load_run "remote_run" ;;
  o <- load "iteration" ;;
  iteration <- match o with
               | OVal (VInt z) => ret z
               | _ => raise (TypeError "iteration")
               end ;;
  out <- remote (CallGetOutput remote_run (Some iteration))
           (get_output az remote_run (Some iteration)) ;;
  assign "zero_run" (ORun out.1) ;;
  assign "zero_model" (OModel out.2).

(** [remote_run.register_model(description=description, tags=tags)] *)
Definition cell_register_model : M (kernel C) unit :=
  assign "description" (OVal (VStr "AutoML Model")) ;;
  assign "tags" (OVal VNone) ;;
  remote_run <- load_run "remote_run" ;;
  description <- load_str "description" ;;
  o <- load "tags" ;;
  tags <- match o with
          | OVal v => ret v
          | _ => raise (TypeError "tags")
          end ;;
  remote (CallRegisterModel remote_run description tags)
    (register_model az remote_run description tags) ;;
  ret tt.

(** The last cell: the fitted model is tried on the test part of the data.
    [df = pd.read_csv(..)], [le = LabelEncoder()], [le.fit(..)],
    [y = le.transform(..)], [df = df.drop(["Label"], axis=1)],
    [_, df_test, _, y_test = train_test_split(..)],
    [ypred = fitted_model.predict(df_test.values)], the two calls of
    [le.inverse_transform] and [cm = ConfusionMatrix(..)]. *)
Definition cell_test_model : M (kernel C) unit :=
  df <- network (read_csv py dataset_url tab quote) ;;
  assign "df" (OFrame df) ;;
  assign "le" (OEncoder None) ;;
  load_encoder "le" ;;
  df <- load_frame "df" ;;
  labels <- lift (Pandas.column df "Label") ;;
  classes <- lift (le_fit py labels) ;;
  assign "le" (OEncoder (Some classes)) ;;
  le <- load_encoder "le" ;;
  df <- load_frame "df" ;;
  labels <- lift (Pandas.column df "Label") ;;
  classes <- fitted le ;;
  y <- lift (le_transform py classes labels) ;;
  assign "y" (OCodes y) ;;
  df <- load_frame "df" ;;
  dropped <- lift (Pandas.drop df "Label") ;;
  assign "df" (OFrame dropped) ;;
  df <- load_frame "df" ;;
  y <- load_codes "y" ;;
  parts <- lift (train_test_split py df y (1 # 10)%Q 42) ;;
  assign "_" (OFrame parts.1.1.1) ;;
  assign "df_test" (OFrame parts.1.1.2) ;;
  assign "_" (OCodes parts.1.2) ;;
  assign "y_test" (OCodes parts.2) ;;
  fitted_model <- load_model "fitted_model" ;;
  df_test <- load_frame "df_test" ;;
  ypred <- lift (predict py fitted_model df_test) ;;
  assign "ypred" (OCodes ypred) ;;
  le <- load_encoder "le" ;;
  ypred <- load_codes "ypred" ;;
  classes <- fitted le ;;
  ypred_strings <- lift (le_inverse_transform py classes ypred) ;;
  assign "ypred_strings" (OLabels ypred_strings) ;;
  le <- load_encoder "le" ;;
  y_test <- load_codes "y_test" ;;
  classes <- fitted le ;;
  ytest_strings <- lift (le_inverse_transform py classes y_test) ;;
  assign "ytest_strings" (OLabels ytest_strings) ;;
  ytest_strings <- load_labels "ytest_strings" ;;
  ypred_strings <- load_labels "ypred_strings" ;;
  cm <- lift (ConfusionMatrix py ytest_strings ypred_strings) ;;
  assign "cm" (OConfusion cm).


End Cells.
End RemoteExecution.

(** ** The script [get_data.py] *)
Module GetData.

(** What the dictionary returned by [get_data] holds. *)
Inductive data : Type :=
| DFrame (df : Pandas.frame)
| DArray (y : list Z).

(** [def get_data():] *)
Definition get_data {W} (py : Libraries W) : M W (gmap string data) :=
  df <- read_csv py dataset_url tab quote ;;
  labels <- lift (Pandas.column df "Label") ;;
  le <- lift (le_fit py labels) ;;
  labels <- lift (Pandas.column df "Label") ;;
  y <- lift (le_transform py le labels) ;;
  df <- lift (Pandas.drop df "Label") ;;
  split <- lift (train_test_split py df y (1 # 10)%Q 42) ;;
  ret (<["X" := DFrame df]> (<["y" := DArray y]> ∅)).

End GetData.

(** ** The workspace service as the notebook describes it *)
Module Documented.

(** The part of the remote service that workspace creation depends on: the
    workspaces that exist, keyed by subscription, resource group and name,
    with their region; the resource groups the caller may create a workspace
    in; the subscriptions the caller owns or contributes to; and the
    subscriptions in which a workspace was created before. *)
Record azure : Type := Azure {
  workspaces : gmap (string * string * string) string;
  may_create : gset (string * string);
  contributor : gset string;
  provisioned : gset string
}.

(** Modelled from the spec: [Workspace.create], missing from the repository
    as part of the SDK.  The inputs are four strings; the result is a
    reference to the remote workspace, or a failure if the workspace already
    exists or permissions are insufficient.  The notebook lists the failures:
    the workspace already exists; no permission to create a workspace in the
    resource group; neither owner nor contributor of a subscription in which
    no workspace was ever created.  Failures of the network are left out. *)
Definition Workspace_create (name subscription_id resource_group location : string)
  : M azure Workspace.t :=
  fun a =>
    let key := (subscription_id, resource_group, name) in
    if bool_decide (is_Some (workspaces a !! key))
    then Raise (SdkError "workspace already exists") a
    else if negb (bool_decide ((subscription_id, resource_group) ∈ may_create a))
    then Raise (SdkError "no permission in the resource group") a
    else if negb (bool_decide (subscription_id ∈ contributor a))
            && negb (bool_decide (subscription_id ∈ provisioned a))
    then Raise (SdkError "not owner or contributor of the subscription") a
    else Ok (Workspace.mk name subscription_id resource_group location)
           (Azure (<[key := location]> (workspaces a)) (may_create a)
              (contributor a) ({[subscription_id]} ∪ provisioned a)).

End Documented.

(** The path of the folder the last cell of [00.configuration.ipynb]
    creates. *)
Definition sample_projects_folder : string := "./sample_projects".

(** ** A service for the examples

    An implementation of the SDK interface that accepts every call: the
    remote state is the list of the workspaces created so far.  A run has
    two children; each reports its iteration, one float metric, and some
    metrics that are not floats. *)
Module Fixture.

(** 0.5 as a double. *)
Definition half : spec_float := S754_finite false 4503599627370496 (-53).

Definition child_metrics : gmap string pyval :=
  list_to_map
    [ ("AUC_weighted", VFloat half);
      ("iteration_count", VInt 3);
      ("pipeline", VStr "LogisticRegression");
      ("confusion_matrix", VList [VInt 1; VInt 0]) ].

Definition sdk : AzureML (list Workspace.t) := {|
  Workspace_create name subscription_id resource_group location :=
    fun w =>
      let ws := Workspace.mk name subscription_id resource_group location in
      Ok ws (ws :: w);
  Workspace_fetch workspace_name subscription_id resource_group := ret "eastus2";
  get_details ws := ret (VDict ∅);
  Experiment_init ws name := ret (Experiment.mk ws name);
  RemoteCompute_attach ws name address username password ssh_port :=
    ret (ComputeId name);
  submit experiment config := ret (RunId "AutoML_1");
  RunDetails_show run := ret tt;
  get_children run := ret [RunId "0"; RunId "1"];
  get_properties run :=
    match run with
    | RunId id => ret (<["iteration" := id]> ∅)
    end;
  get_metrics run := ret child_metrics;
  cancel run := ret tt;
  get_output run iteration := ret (RunId "1", ModelRef "model_1");
  register_model run description tags := ret "model_1"
|}.

(** The same service when the quota of the subscription is used up: it
    refuses every submission. *)
Definition out_of_quota : AzureML (list Workspace.t) := {|
  Workspace_create := Workspace_create sdk;
  Workspace_fetch := Workspace_fetch sdk;
  get_details := get_details sdk;
  Experiment_init := Experiment_init sdk;
  RemoteCompute_attach := RemoteCompute_attach sdk;
  submit experiment config := raise (SdkError "quota exceeded");
  RunDetails_show := RunDetails_show sdk;
  get_children := get_children sdk;
  get_properties := get_properties sdk;
  get_metrics := get_metrics sdk;
  cancel := cancel sdk;
  get_output := get_output sdk;
  register_model := register_model sdk
|}.

(** A kernel that has run nothing yet, in an empty working directory. *)
Definition fresh : kernel (list Workspace.t) := Kernel ∅ ∅ [] [].

(** The kernel after the cell of the four parameters, with the values the
    notebook ships with. *)
Definition with_parameters : kernel (list Workspace.t) :=
  final (Configuration.cell_parameters_default fresh).

(** The kernel after the configuration cell, and after the loading cell. *)
Definition configured : kernel (list Workspace.t) :=
  final (Configuration.cell_write_config sdk with_parameters).

Definition loaded : kernel (list Workspace.t) :=
  final (Configuration.cell_from_config sdk configured).


(** A kernel in which a run was submitted. *)
Definition submitted : kernel (list Workspace.t) :=
  Kernel (<["remote_run" := ORun (RunId "AutoML_1")]> ∅) ∅ [] [].

(** A kernel ready for the submission cell. *)
Definition experiment : Experiment.t :=
  Experiment.mk (Workspace.mk "myws" "<subscription_id>" "myrg" "eastus2")
    "automl-remote-dsvm-blobstore".

Definition config : AutoMLConfig.t :=
  AutoMLConfig.mk "classification" "./sample_projects/automl-remote-dsvm-blobstore"
    (ComputeId "mydsvm1")
    "./sample_projects/automl-remote-dsvm-blobstore/get_data.py"
    RemoteExecution.automl_settings.

Definition ready : kernel (list Workspace.t) :=
  Kernel (<["experiment" := OExperiment experiment]>
            (<["automl_config" := OConfig config]> ∅)) ∅ [] [].

(** A small data set: two columns, three rows. *)
Definition events : Pandas.frame :=
  [ ("Description", [VStr "yoga at dawn"; VStr "fire spinning"; VStr "morning yoga"]);
    ("Label", [VStr "Class/Workshop"; VStr "Fire"; VStr "Class/Workshop"]) ].

(** Libraries for the examples: the file read is the small data set, the
    split keeps the first row for the test and raises on fewer than two
    rows, the model predicts the first class for every row, the confusion
    matrix lists each pair with the count 1, the encoder refuses labels that
    are not all text, and [int] reads no text that is not ASCII. *)
Definition libraries : Libraries (list Workspace.t) := {|
  read_csv url delimiter quotechar := ret events;
  train_test_split df y test_size random_state :=
    match y with
    | _ :: _ :: _ =>
        inr (List.map (fun c => (c.1, List.tl c.2)) df,
             List.map (fun c => (c.1, List.firstn 1 c.2)) df,
             List.tl y, List.firstn 1 y)
    | _ => inl (ValueError "the resulting train set will be empty")
    end;
  predict model df :=
    inr (match df with
         | c :: _ => List.map (fun _ => 0) c.2
         | [] => []
         end);
  ConfusionMatrix actual predicted :=
    inr (List.map (fun pair => (pair, 1)) (zip actual predicted));
  fit_mixed values := inl (TypeError "labels");
  transform_mixed classes values := inl (TypeError "labels");
  inverse_transform_mixed classes codes := inl (TypeError "labels");
  int_unicode s := None
|}.

(** A data set of one row, and the libraries reading it. *)
Definition one_event : Pandas.frame :=
  [ ("Description", [VStr "yoga at dawn"]); ("Label", [VStr "Class/Workshop"]) ].

Definition one_row : Libraries (list Workspace.t) := {|
  read_csv url delimiter quotechar := ret one_event;
  train_test_split := train_test_split libraries;
  predict := predict libraries;
  ConfusionMatrix := ConfusionMatrix libraries;
  fit_mixed := fit_mixed libraries;
  transform_mixed := transform_mixed libraries;
  inverse_transform_mixed := inverse_transform_mixed libraries;
  int_unicode := int_unicode libraries
|}.


Definition read_only : gmap string node -> string -> option exn :=
  fun d p => Some (PermissionError p).

End Fixture.

(** ** Services and kernels at the edges

    Two more implementations of the SDK interface: a run without child
    runs, and child runs that report no [iteration] property.  The kernels
    are those of a notebook that was run up to a given cell. *)
Module Edge.

Definition childless : AzureML (list Workspace.t) := {|
  Workspace_create := Workspace_create Fixture.sdk;
  Workspace_fetch := Workspace_fetch Fixture.sdk;
  get_details := get_details Fixture.sdk;
  Experiment_init := Experiment_init Fixture.sdk;
  RemoteCompute_attach := RemoteCompute_attach Fixture.sdk;
  submit := submit Fixture.sdk;
  RunDetails_show := RunDetails_show Fixture.sdk;
  get_children run := ret [];
  get_properties := get_properties Fixture.sdk;
  get_metrics := get_metrics Fixture.sdk;
  cancel := cancel Fixture.sdk;
  get_output := get_output Fixture.sdk;
  register_model := register_model Fixture.sdk
|}.

Definition unnumbered : AzureML (list Workspace.t) := {|
  Workspace_create := Workspace_create Fixture.sdk;
  Workspace_fetch := Workspace_fetch Fixture.sdk;
  get_details := get_details Fixture.sdk;
  Experiment_init := Experiment_init Fixture.sdk;
  RemoteCompute_attach := RemoteCompute_attach Fixture.sdk;
  submit := submit Fixture.sdk;
  RunDetails_show := RunDetails_show Fixture.sdk;
  get_children := get_children Fixture.sdk;
  get_properties run := ret ∅;
  get_metrics := get_metrics Fixture.sdk;
  cancel := cancel Fixture.sdk;
  get_output := get_output Fixture.sdk;
  register_model := register_model Fixture.sdk
|}.

(** A kernel in which a run was submitted after an earlier run of the
    metrics cell left its table. *)
Definition resubmitted : kernel (list Workspace.t) :=
  Kernel (<["rundata" := OTable [7] ∅]> (vars Fixture.submitted)) ∅ [] [].

(** A kernel in the middle of the loop of the metrics cell. *)
Definition collecting : kernel (list Workspace.t) :=
  Kernel (<["metricslist" := OMetrics ∅]> (vars Fixture.submitted)) ∅ [] [].

(** A kernel after the experiment cell, before the VM is attached. *)
Definition with_experiment : kernel (list Workspace.t) :=
  Kernel (<["experiment" := OExperiment Fixture.experiment]>
            (<["project_folder" :=
                 OVal (VStr "./sample_projects/automl-remote-dsvm-blobstore")]>
               (<["ws" := OWorkspace (Experiment.workspace Fixture.experiment)]> ∅)))
    ∅ [] [].

(** A kernel that holds a fitted model and nothing else. *)
Definition with_model : kernel (list Workspace.t) :=
  Kernel (<["fitted_model" := OModel (ModelRef "model_1")]> ∅) ∅ [] [].

End Edge.

(** ** Vocabulary of the properties *)

(** Every run of [c] relates the state it starts in to the state it ends in,
    whether it returns or raises. *)
Definition respects {S A} (R : S -> S -> Prop) (c : M S A) : Prop :=
  forall s, R s (final (c s)).

(** The global variable [x] holds what it held. *)
Definition same_var {C} (x : string) (k k' : kernel C) : Prop :=
  vars k' !! x = vars k !! x.

(** The calls made in between all satisfy [P]. *)
Definition adds {C} (P : call * option exn -> Prop) (k k' : kernel C) : Prop :=
  exists l, calls k' = (calls k ++ l)%list /\ Forall P l.

(** A remote call returned when it raised nothing. *)
Definition returned (en : call * option exn) : Prop := en.2 = None.

(** A computation is transparent to the failures of the remote calls it
    makes: every call it made returned, except possibly the last one, and if
    the last one raised, nothing was called after it and the computation
    raised that very exception. *)
Definition transparent {C A} (c : M (kernel C) A) : Prop :=
  forall k, exists l,
    calls (final (c k)) = (calls k ++ l)%list
    /\ match c k with
       | Ok _ _ => Forall returned l
       | Raise e _ =>
           Forall returned l
           \/ exists l0 c0, l = (l0 ++ [(c0, Some e)])%list /\ Forall returned l0
       end.


(** Runs the cells one after the other, stopping at the first exception. *)
Definition run_cells {S} (cells : list (M S unit)) : M S unit :=
  for_each cells (fun cell => cell).

(** What the service answered for a child run, as the loop of the metrics
    cell uses it: the integer of the run's [iteration] property and the
    float metrics among the metrics of the run. *)
Definition answered {C} (az : AzureML C) (py : Libraries C) (run : Run)
    (entry : Z * gmap string pyval) : Prop :=
  exists w1 w2 w3 properties iteration metrics,
    get_properties az run w1 = Ok properties w2
    /\ properties !! "iteration" = Some iteration
    /\ int_of_str (int_unicode py) iteration = inr entry.1
    /\ get_metrics az run w2 = Ok metrics w3
    /\ entry.2 = RemoteExecution.float_metrics metrics.

(** [metricslist[i] = metrics] for every entry in turn: a later entry
    replaces an earlier one with the same key. *)
Definition fill (entries : list (Z * gmap string pyval))
    (metricslist : gmap Z (gmap string pyval)) : gmap Z (gmap string pyval) :=
  fold_left (fun m entry => <[entry.1 := entry.2]> m) entries metricslist.

(** * Properties *)

(** ** The monad of a cell *)

Section Monad.
Context {S : Type}.


Lemma for_each_cons {A} (x : A) (xs : list A) (body : A -> M S unit) (s : S) :
  for_each (x :: xs) body s =
  match body x s with
  | Ok _ s' => for_each xs body s'
  | Raise e s' => Raise e s'
  end.
Proof. reflexivity. Qed.

Lemma for_each_app {A} (xs ys : list A) (body : A -> M S unit) (s : S) :
  for_each (xs ++ ys) body s =
  match for_each xs body s with
  | Ok _ s' => for_each ys body s'
  | Raise e s' => Raise e s'
  end.
Proof.
  revert s. induction xs as [|x xs IH]; intros s; [reflexivity|].
  rewrite <- app_comm_cons, !for_each_cons.
  destruct (body x s); [apply IH | reflexivity].
Qed.

End Monad.

Section Bind.
Context {S A B : Type}.

Lemma bind_Ok (c : M S A) (f : A -> M S B) (s s2 : S) (b : B) :
  bind c f s = Ok b s2 ->
  exists a s1, c s = Ok a s1 /\ f a s1 = Ok b s2.
Proof.
  unfold bind. destruct (c s) as [a s1|e s1]; [|discriminate].
  intros H. exists a, s1. split; [reflexivity | exact H].
Qed.

Lemma bind_Raise (c : M S A) (f : A -> M S B) (s s2 : S) (e : exn) :
  bind c f s = Raise e s2 ->
  c s = Raise e s2 \/ exists a s1, c s = Ok a s1 /\ f a s1 = Raise e s2.
Proof.
  unfold bind. destruct (c s) as [a s1|e1 s1].
  - intros H. right. exists a, s1. split; [reflexivity | exact H].
  - intros H. left. injection H as -> ->. reflexivity.
Qed.

End Bind.

(** ** Running a cell step by step *)

Section Steps.
Context {C : Type}.

Lemma bind_assoc {S A B D} (c : M S A) (f : A -> M S B) (g : B -> M S D) (s : S) :
  bind (bind c f) g s = bind c (fun a => bind (f a) g) s.
Proof. unfold bind. destruct (c s); reflexivity. Qed.

Lemma bind_ret {S A B} (a : A) (f : A -> M S B) (s : S) : bind (ret a) f s = f a s.
Proof. reflexivity. Qed.

Lemma bind_raise {S A B} (e : exn) (f : A -> M S B) (s : S) :
  bind (raise e) f s = Raise e s.
Proof. reflexivity. Qed.

Lemma bind_lift {S A B} (r : exn + A) (f : A -> M S B) (s : S) :
  bind (lift r) f s = match r with inl e => Raise e s | inr a => f a s end.
Proof. destruct r; reflexivity. Qed.

Lemma bind_load {B} (x : string) (f : obj -> M (kernel C) B) (k : kernel C) :
  bind (load x) f k =
  match vars k !! x with
  | Some o => f o k
  | None => Raise (NameError x) k
  end.
Proof. unfold bind, load. destruct (vars k !! x); reflexivity. Qed.

Lemma bind_assign {B} (x : string) (o : obj) (f : unit -> M (kernel C) B) (k : kernel C) :
  bind (assign x o) f k =
  f tt (Kernel (<[x := o]> (vars k)) (disk k) (cloud k) (calls k)).
Proof. reflexivity. Qed.

Lemma bind_remote {A B} (c : call) (op : M C A) (f : A -> M (kernel C) B) (k : kernel C) :
  bind (remote c op) f k =
  match op (cloud k) with
  | Ok a w => f a (Kernel (vars k) (disk k) w (calls k ++ [(c, None)]))
  | Raise e w => Raise e (Kernel (vars k) (disk k) w (calls k ++ [(c, Some e)]))
  end.
Proof. unfold bind, remote. destruct (op (cloud k)); reflexivity. Qed.

Lemma bind_network {A B} (op : M C A) (f : A -> M (kernel C) B) (k : kernel C) :
  bind (network op) f k =
  match op (cloud k) with
  | Ok a w => f a (Kernel (vars k) (disk k) w (calls k))
  | Raise e w => Raise e (Kernel (vars k) (disk k) w (calls k))
  end.
Proof. unfold bind, network. destruct (op (cloud k)); reflexivity. Qed.

Lemma bind_on_disk {A B} (c : M (gmap string node) A) (f : A -> M (kernel C) B)
    (k : kernel C) :
  bind (on_disk c) f k =
  match c (disk k) with
  | Ok a d => f a (Kernel (vars k) d (cloud k) (calls k))
  | Raise e d => Raise e (Kernel (vars k) d (cloud k) (calls k))
  end.
Proof. unfold bind, on_disk. destruct (c (disk k)); reflexivity. Qed.

End Steps.

(** One step of a cell started on a state: the first bound operation is
    replaced by what it does. *)
Ltac step :=
  first
    [ rewrite bind_assoc
    | rewrite bind_ret
    | rewrite bind_raise
    | rewrite bind_lift
    | rewrite bind_load
    | rewrite bind_assign
    | rewrite bind_remote
    | rewrite bind_network
    | rewrite bind_on_disk ];
  cbv beta; cbn [vars disk cloud calls].

Ltac step_in H :=
  first
    [ rewrite bind_assoc in H
    | rewrite bind_ret in H
    | rewrite bind_raise in H
    | rewrite bind_lift in H
    | rewrite bind_load in H
    | rewrite bind_assign in H
    | rewrite bind_remote in H
    | rewrite bind_network in H
    | rewrite bind_on_disk in H ];
  cbv beta in H; cbn [vars disk cloud calls] in H.

(** Unfolds the helpers the cells are written with. *)
Ltac open_cell :=
  unfold from_config;
  unfold Workspace_init, field, fitted, load_str, load_dict, load_workspace,
    load_experiment, load_compute, load_config, load_run, load_runs,
    load_metrics, load_model, load_frame, load_encoder, load_codes,
    load_labels;
  cbv zeta.

Ltac open_cell_in H :=
  unfold from_config in H;
  unfold Workspace_init, field, fitted, load_str, load_dict, load_workspace,
    load_experiment, load_compute, load_config, load_run, load_runs,
    load_metrics, load_model, load_frame, load_encoder, load_codes,
    load_labels in H;
  cbv zeta in H.

(** ** What a cell built from the kernel's operations preserves *)

(** A relation between the state before and the state after that holds of
    doing nothing and of doing one thing after another holds of every
    computation whose steps it holds of. *)
Section Respects.
Context {S : Type} (R : S -> S -> Prop) `{!Reflexive R, !Transitive R}.

Lemma respects_ret {A} (a : A) : respects R (ret a).
Proof. intros s. reflexivity. Qed.

Lemma respects_raise {A} (e : exn) : respects R (@raise S A e).
Proof. intros s. reflexivity. Qed.

Lemma respects_lift {A} (r : exn + A) : respects R (lift r).
Proof. destruct r; [apply respects_raise | apply respects_ret]. Qed.

Lemma respects_bind {A B} (c : M S A) (f : A -> M S B) :
  respects R c -> (forall a, respects R (f a)) -> respects R (bind c f).
Proof.
  intros Hc Hf s. unfold bind. specialize (Hc s).
  destruct (c s) as [a s1|e s1]; simpl in *; [|exact Hc].
  etransitivity; [exact Hc | apply Hf].
Qed.

Lemma respects_for_each {A} (xs : list A) (body : A -> M S unit) :
  (forall x, respects R (body x)) -> respects R (for_each xs body).
Proof.
  intros Hbody. induction xs as [|x xs IH]; simpl.
  - apply respects_ret.
  - apply respects_bind; [apply Hbody | intros _; exact IH].
Qed.

End Respects.

(** ** Two relations between kernel states *)

#[global] Instance same_var_refl {C} (x : string) : Reflexive (@same_var C x).
Proof. intros k. reflexivity. Qed.

#[global] Instance same_var_trans {C} (x : string) : Transitive (@same_var C x).
Proof. intros k1 k2 k3 H12 H23. unfold same_var in *. congruence. Qed.

#[global] Instance adds_refl {C} (P : call * option exn -> Prop) : Reflexive (@adds C P).
Proof. intros k. exists []. split; [symmetry; apply app_nil_r | constructor]. Qed.

#[global] Instance adds_trans {C} (P : call * option exn -> Prop) : Transitive (@adds C P).
Proof.
  intros k1 k2 k3 (l1 & E1 & F1) (l2 & E2 & F2). exists (l1 ++ l2)%list. split.
  - rewrite E2, E1. symmetry. apply app_assoc.
  - apply Forall_app. split; assumption.
Qed.

Section Primitives.
Context {C : Type}.

Lemma same_var_load (x y : string) : respects (@same_var C x) (load y).
Proof. intros k. unfold load. destruct (vars k !! y); reflexivity. Qed.

Lemma same_var_assign (x y : string) (o : obj) :
  x <> y -> respects (@same_var C x) (assign y o).
Proof. intros Hne k. unfold same_var. simpl. apply lookup_insert_ne. congruence. Qed.

Lemma same_var_on_disk {A} (x : string) (c : M (gmap string node) A) :
  respects (@same_var C x) (on_disk c).
Proof. intros k. unfold on_disk. destruct (c (disk k)); reflexivity. Qed.

Lemma same_var_remote {A} (x : string) (c : call) (op : M C A) :
  respects (@same_var C x) (remote c op).
Proof. intros k. unfold remote. destruct (op (cloud k)); reflexivity. Qed.

Lemma same_var_network {A} (x : string) (op : M C A) :
  respects (@same_var C x) (network op).
Proof. intros k. unfold network. destruct (op (cloud k)); reflexivity. Qed.

Lemma adds_network {A} (P : call * option exn -> Prop) (op : M C A) :
  respects (@adds C P) (network op).
Proof.
  intros k. unfold network.
  destruct (op (cloud k)); simpl; exists []; (split; [symmetry; apply app_nil_r | constructor]).
Qed.

Lemma adds_load (P : call * option exn -> Prop) (y : string) :
  respects (@adds C P) (load y).
Proof. intros k. unfold load. destruct (vars k !! y); reflexivity. Qed.

Lemma adds_assign (P : call * option exn -> Prop) (y : string) (o : obj) :
  respects (@adds C P) (assign y o).
Proof. intros k. simpl. exists []. split; [symmetry; apply app_nil_r | constructor]. Qed.

Lemma adds_on_disk {A} (P : call * option exn -> Prop) (c : M (gmap string node) A) :
  respects (@adds C P) (on_disk c).
Proof.
  intros k. unfold on_disk.
  destruct (c (disk k)); simpl; exists []; (split; [symmetry; apply app_nil_r | constructor]).
Qed.

Lemma adds_remote {A} (P : call * option exn -> Prop) (c : call) (op : M C A) :
  (forall r, P (c, r)) -> respects (@adds C P) (remote c op).
Proof.
  intros HP k. unfold remote.
  destruct (op (cloud k)) as [a w|e w]; simpl.
  - exists [(c, None)]. split; [reflexivity | repeat constructor; apply HP].
  - exists [(c, Some e)]. split; [reflexivity | repeat constructor; apply HP].
Qed.

End Primitives.

(** Walks through a cell, one bound step after the other. *)
Ltac walk :=
  repeat
    match goal with
    | |- respects _ (bind _ _) => apply respects_bind; [try apply _ | | intros ?]
    | |- respects _ (ret _) => apply respects_ret; apply _
    | |- respects _ (raise _) => apply respects_raise; apply _
    | |- respects _ (lift _) => apply respects_lift; apply _
    | |- respects _ (for_each _ _) => apply respects_for_each; [apply _ .. | intros ?]
    | |- respects _ (load _) => first [apply same_var_load | apply adds_load]
    | |- respects _ (on_disk _) => first [apply same_var_on_disk | apply adds_on_disk]
    | |- respects _ (network _) => first [apply same_var_network | apply adds_network]
    | |- respects _ (assign _ _) =>
        first [apply same_var_assign; discriminate | apply adds_assign]
    | |- respects _ (remote _ _) =>
        first [apply same_var_remote | apply adds_remote; intros ?]
    | |- respects _ (match ?o with _ => _ end) => destruct o
    end.

(** ** No handler stands between a remote call and the user *)

Section Transparent.
Context {C : Type}.

Lemma transparent_quiet {A} (c : M (kernel C) A) :
  (forall k, calls (final (c k)) = calls k) -> transparent c.
Proof.
  intros Hq k. exists []. split.
  - rewrite Hq. symmetry. apply app_nil_r.
  - destruct (c k); [constructor | left; constructor].
Qed.

Lemma transparent_ret {A} (a : A) : transparent (@ret (kernel C) A a).
Proof. apply transparent_quiet. reflexivity. Qed.

Lemma transparent_raise {A} (e : exn) : transparent (@raise (kernel C) A e).
Proof. apply transparent_quiet. reflexivity. Qed.

Lemma transparent_lift {A} (r : exn + A) : transparent (@lift (kernel C) A r).
Proof. destruct r; [apply transparent_raise | apply transparent_ret]. Qed.

Lemma transparent_load (x : string) : transparent (@load C x).
Proof.
  apply transparent_quiet. intros k. unfold load.
  destruct (vars k !! x); reflexivity.
Qed.

Lemma transparent_assign (x : string) (o : obj) : transparent (@assign C x o).
Proof. apply transparent_quiet. reflexivity. Qed.

Lemma transparent_on_disk {A} (c : M (gmap string node) A) :
  transparent (@on_disk C A c).
Proof.
  apply transparent_quiet. intros k. unfold on_disk.
  destruct (c (disk k)); reflexivity.
Qed.

Lemma transparent_network {A} (op : M C A) : transparent (@network C A op).
Proof.
  apply transparent_quiet. intros k. unfold network.
  destruct (op (cloud k)); reflexivity.
Qed.

Lemma transparent_remote {A} (c : call) (op : M C A) : transparent (remote c op).
Proof.
  intros k. unfold remote. destruct (op (cloud k)) as [a w|e w]; simpl.
  - exists [(c, None)]. split; [reflexivity | repeat constructor].
  - exists [(c, Some e)]. split; [reflexivity|].
    right. exists [], c. split; [reflexivity | constructor].
Qed.

Lemma transparent_bind {A B} (c : M (kernel C) A) (f : A -> M (kernel C) B) :
  transparent c -> (forall a, transparent (f a)) -> transparent (bind c f).
Proof.
  intros Hc Hf k. unfold bind. destruct (Hc k) as (l1 & E1 & H1).
  destruct (c k) as [a k1|e k1]; simpl in *.
  - destruct (Hf a k1) as (l2 & E2 & H2). exists (l1 ++ l2)%list. split.
    + rewrite E2, E1. symmetry. apply app_assoc.
    + destruct (f a k1) as [b k2|e k2].
      * apply Forall_app. split; assumption.
      * destruct H2 as [H2|(l0 & c0 & -> & H2)].
        -- left. apply Forall_app. split; assumption.
        -- right. exists (l1 ++ l0)%list, c0. split; [apply app_assoc|].
           apply Forall_app. split; assumption.
  - exists l1. split; assumption.
Qed.

Lemma transparent_for_each {A} (xs : list A) (body : A -> M (kernel C) unit) :
  (forall x, transparent (body x)) -> transparent (for_each xs body).
Proof.
  intros Hbody. induction xs as [|x xs IH]; simpl.
  - apply transparent_ret.
  - apply transparent_bind; [apply Hbody | intros _; exact IH].
Qed.

(** The log tells what the call did: a remote call that raises makes the
    computation raise the same exception, once, in the state the call left. *)
Lemma remote_raises {A} (c : call) (op : M C A) (k : kernel C) (e : exn) (w : C) :
  op (cloud k) = Raise e w ->
  remote c op k = Raise e (Kernel (vars k) (disk k) w (calls k ++ [(c, Some e)])).
Proof. intros H. unfold remote. rewrite H. reflexivity. Qed.

Lemma remote_returns {A} (c : call) (op : M C A) (k : kernel C) (a : A) (w : C) :
  op (cloud k) = Ok a w ->
  remote c op k = Ok a (Kernel (vars k) (disk k) w (calls k ++ [(c, None)])).
Proof. intros H. unfold remote. rewrite H. reflexivity. Qed.

End Transparent.

Ltac walk_transparent :=
  repeat
    match goal with
    | |- transparent (bind _ _) => apply transparent_bind; [|intros ?]
    | |- transparent (ret _) => apply transparent_ret
    | |- transparent (raise _) => apply transparent_raise
    | |- transparent (lift _) => apply transparent_lift
    | |- transparent (for_each _ _) => apply transparent_for_each; intros ?
    | |- transparent (load _) => apply transparent_load
    | |- transparent (on_disk _) => apply transparent_on_disk
    | |- transparent (network _) => apply transparent_network
    | |- transparent (assign _ _) => apply transparent_assign
    | |- transparent (remote _ _) => apply transparent_remote
    | |- transparent (match ?o with _ => _ end) => destruct o
    end.

(** * The configuration notebook *)

(** ** The sample folder *)





(** ** The configuration file: content, round trip and overwriting *)

Lemma config_paths_differ : config_dir <> config_file.
Proof. discriminate. Qed.

(** A call of [write_config] that returns leaves the folder and the file
    with the descriptor of its workspace, and nothing else changed. *)
Lemma write_config_ok (ws : Workspace.t) (d d' : gmap string node) :
  write_config ws d = Ok tt d' ->
  d' = <[config_file := File (descriptor ws)]> (<[config_dir := Dir]> d).
Proof.
  unfold write_config. intros H.
  destruct (d !! config_dir) as [[|c]|];
    try discriminate;
    destruct (<[config_dir := Dir]> d !! config_file) as [[|c']|];
    try discriminate; injection H as <-; reflexivity.
Qed.

(** It returns unless a file has the name of the folder or a directory the
    name of the file. *)
Lemma write_config_returns (ws : Workspace.t) (d : gmap string node) :
  (forall c, d !! config_dir <> Some (File c)) ->
  d !! config_file <> Some Dir ->
  write_config ws d =
  Ok tt (<[config_file := File (descriptor ws)]> (<[config_dir := Dir]> d)).
Proof.
  intros Hdir Hfile. unfold write_config.
  assert (<[config_dir := Dir]> d !! config_file = d !! config_file) as Hlook
    by (apply lookup_insert_ne, config_paths_differ).
  destruct (d !! config_dir) as [[|c]|] eqn:E.
  - rewrite Hlook. destruct (d !! config_file) as [[|c']|]; [congruence|reflexivity..].
  - exfalso. apply (Hdir c). reflexivity.
  - rewrite Hlook. destruct (d !! config_file) as [[|c']|]; [congruence|reflexivity..].
Qed.

Lemma descriptor_subscription_id (ws : Workspace.t) :
  descriptor ws !! "subscription_id" = Some (Workspace.subscription_id ws).
Proof. reflexivity. Qed.

Lemma descriptor_resource_group (ws : Workspace.t) :
  descriptor ws !! "resource_group" = Some (Workspace.resource_group ws).
Proof. reflexivity. Qed.

Lemma descriptor_workspace_name (ws : Workspace.t) :
  descriptor ws !! "workspace_name" = Some (Workspace.name ws).
Proof. reflexivity. Qed.

(** Loading the file [write_config] wrote is constructing the workspace from
    the three identifiers of the workspace written. *)
Lemma from_config_written {C} (az : AzureML C) (ws : Workspace.t)
    (d d' : gmap string node) (v : gmap string obj) (c : C) (l : list (call * option exn)) :
  write_config ws d = Ok tt d' ->
  from_config az (Kernel v d' c l) =
  Workspace_init az (Workspace.name ws) (Workspace.subscription_id ws)
    (Workspace.resource_group ws) (Kernel v d' c l).
Proof.
  intros Hw. apply write_config_ok in Hw. subst d'.
  unfold from_config, bind at 1. unfold on_disk, read_config. simpl.
  rewrite lookup_insert_eq. reflexivity.
Qed.

Lemma descriptor_region (ws : Workspace.t) :
  descriptor ws !! "region" = Some (Workspace.location ws).
Proof. reflexivity. Qed.

Lemma descriptor_dom (ws : Workspace.t) :
  dom (descriptor ws)
  = ({["subscription_id"; "resource_group"; "workspace_name"; "region"]} : gset string).
Proof.
  unfold descriptor. rewrite !dom_insert_L, dom_empty_L.
  apply set_eq. intros key. rewrite !elem_of_union, !elem_of_singleton, elem_of_empty.
  tauto.
Qed.

Lemma descriptor_size (ws : Workspace.t) : size (descriptor ws) = 4%nat.
Proof.
  unfold descriptor.
  rewrite !map_size_insert_None, map_size_empty; [reflexivity|..].
  - apply lookup_empty.
  - rewrite lookup_insert_ne by discriminate. apply lookup_empty.
  - rewrite !lookup_insert_ne by discriminate. apply lookup_empty.
  - rewrite !lookup_insert_ne by discriminate. apply lookup_empty.
Qed.

(** The file [write_config] wrote reads back as the descriptor. *)
Lemma read_config_written (ws : Workspace.t) (d d' : gmap string node) :
  write_config ws d = Ok tt d' ->
  read_config d' = Ok (descriptor ws) d'.
Proof.
  intros Hw. apply write_config_ok in Hw. subst d'.
  unfold read_config. rewrite lookup_insert_eq. reflexivity.
Qed.

(** A run of the configuration cell that returns. *)
Lemma cell_write_config_ok {C} (az : AzureML C) (k k1 : kernel C) :
  Configuration.cell_write_config az k = Ok tt k1 ->
  exists name sub rg loc w,
    vars k !! "workspace_name" = Some (OVal (VStr name))
    /\ vars k !! "subscription_id" = Some (OVal (VStr sub))
    /\ vars k !! "resource_group" = Some (OVal (VStr rg))
    /\ Workspace_fetch az name sub rg (cloud k) = Ok loc w
    /\ write_config (Workspace.mk name sub rg loc) (disk k) = Ok tt (disk k1)
    /\ vars k1 = <["ws" := OWorkspace (Workspace.mk name sub rg loc)]> (vars k)
    /\ cloud k1 = w
    /\ calls k1 = (calls k ++ [(CallWorkspace name sub rg, None)])%list.
Proof.
  unfold Configuration.cell_write_config. open_cell. intros H.
  repeat (step_in H; repeat (case_match; try discriminate)).
  match goal with
  | Hws : <["ws" := _]> (vars k) !! "ws" = Some _ |- _ =>
      rewrite lookup_insert_eq in Hws; injection Hws as <-
  end.
  unfold on_disk in H. cbn [vars disk cloud calls] in H.
  match type of H with
  | context [write_config ?ws (disk k)] =>
      destruct (write_config ws (disk k)) as [[] d1|e d1] eqn:Hw; [|discriminate]
  end.
  injection H as <-. cbn [vars disk cloud calls].
  match goal with
  | Hn : vars k !! "workspace_name" = Some (OVal (VStr ?n)),
    Hs : vars k !! "subscription_id" = Some (OVal (VStr ?s)),
    Hg : vars k !! "resource_group" = Some (OVal (VStr ?g)),
    Hf : Workspace_fetch az ?n ?s ?g (cloud k) = Ok ?l ?w |- _ =>
      exists n, s, g, l, w; repeat split; assumption
  end.
Qed.

(** C2: the descriptor written to the configuration file has exactly four
    fields, the subscription identifier, the resource group name, the
    workspace name and the region, each written whenever the configuration
    cell runs to its end.  For every implementation of the SDK and every run
    of the cell that returns: the variable [ws] holds the workspace named by
    the three variables of the notebook, in the region the service reported
    for it; the file holds the descriptor of that workspace; the descriptor
    has the four keys and no other, the three identifiers each with the
    value of its variable and the region with the region of [ws]; and
    reading the file gives the descriptor back. *)
Theorem config_file_has_four_fields {C} (az : AzureML C) (k k1 : kernel C) :
  Configuration.cell_write_config az k = Ok tt k1 ->
  exists ws w,
    vars k1 !! "ws" = Some (OWorkspace ws)
    /\ vars k !! "subscription_id" = Some (OVal (VStr (Workspace.subscription_id ws)))
    /\ vars k !! "resource_group" = Some (OVal (VStr (Workspace.resource_group ws)))
    /\ vars k !! "workspace_name" = Some (OVal (VStr (Workspace.name ws)))
    /\ Workspace_fetch az (Workspace.name ws) (Workspace.subscription_id ws)
         (Workspace.resource_group ws) (cloud k) = Ok (Workspace.location ws) w
    /\ disk k1 !! config_file = Some (File (descriptor ws))
    /\ dom (descriptor ws)
       = ({["subscription_id"; "resource_group"; "workspace_name"; "region"]}
          : gset string)
    /\ size (descriptor ws) = 4%nat
    /\ descriptor ws !! "subscription_id" = Some (Workspace.subscription_id ws)
    /\ descriptor ws !! "resource_group" = Some (Workspace.resource_group ws)
    /\ descriptor ws !! "workspace_name" = Some (Workspace.name ws)
    /\ descriptor ws !! "region" = Some (Workspace.location ws)
    /\ read_config (disk k1) = Ok (descriptor ws) (disk k1).
Proof.
  intros H.
  destruct (cell_write_config_ok az k k1 H)
    as (name & sub & rg & loc & w & Hn & Hs & Hg & Hfetch & Hw & Hv & _ & _).
  exists (Workspace.mk name sub rg loc), w. cbn [Workspace.name
    Workspace.subscription_id Workspace.resource_group Workspace.location].
  split; [rewrite Hv; apply lookup_insert_eq|].
  do 4 (split; [assumption|]).
  split; [pose proof (write_config_ok _ _ _ Hw) as ->; apply lookup_insert_eq|].
  split; [apply descriptor_dom|]. split; [apply descriptor_size|].
  do 4 (split; [reflexivity|]).
  eapply read_config_written. exact Hw.
Qed.

(** A run of the loading cell that returns. *)
Lemma cell_from_config_ok {C} (az : AzureML C) (k k2 : kernel C) :
  Configuration.cell_from_config az k = Ok tt k2 ->
  exists ws k1,
    from_config az k = Ok ws k1
    /\ vars k2 !! "my_workspace" = Some (OWorkspace ws).
Proof.
  unfold Configuration.cell_from_config. intros H.
  apply bind_Ok in H as (ws & k1 & Hfrom & H).
  exists ws, k1. split; [exact Hfrom|].
  open_cell_in H.
  repeat (step_in H; repeat (case_match; try discriminate)).
  injection H as <-. cbn [vars].
  apply lookup_insert_eq.
Qed.

Lemma Workspace_init_ok {C} (az : AzureML C) (name sub rg : string)
    (k k' : kernel C) (ws : Workspace.t) :
  Workspace_init az name sub rg k = Ok ws k' ->
  Workspace.name ws = name
  /\ Workspace.subscription_id ws = sub
  /\ Workspace.resource_group ws = rg.
Proof.
  unfold Workspace_init. intros H. step_in H.
  destruct (Workspace_fetch az name sub rg (cloud k)); [|discriminate].
  injection H as <- _. repeat split.
Qed.

(** C1: writing the configuration file and loading it back gives the same
    workspace identity.  For every implementation of the SDK: once
    [write_config] has written the descriptor of a workspace, loading the
    configuration is constructing the workspace from the subscription id,
    resource group and name of the workspace written, so that it returns
    whenever the service answers for that workspace, and every workspace it
    returns has these three values; and when the configuration cell and then
    the loading cell of the notebook return, [my_workspace] has the
    subscription id, resource group and name of [ws]. *)
Theorem config_round_trip {C} (az : AzureML C) (ws : Workspace.t)
    (d d' : gmap string node) (k k1 k2 : kernel C) :
  (write_config ws d = Ok tt d' ->
   forall v c l,
     from_config az (Kernel v d' c l)
     = Workspace_init az (Workspace.name ws) (Workspace.subscription_id ws)
         (Workspace.resource_group ws) (Kernel v d' c l)
     /\ forall ws' k',
          from_config az (Kernel v d' c l) = Ok ws' k' ->
          Workspace.subscription_id ws' = Workspace.subscription_id ws
          /\ Workspace.resource_group ws' = Workspace.resource_group ws
          /\ Workspace.name ws' = Workspace.name ws)
  /\ (Configuration.cell_write_config az k = Ok tt k1 ->
      Configuration.cell_from_config az k1 = Ok tt k2 ->
      exists written loaded,
        vars k1 !! "ws" = Some (OWorkspace written)
        /\ vars k2 !! "my_workspace" = Some (OWorkspace loaded)
        /\ Workspace.subscription_id loaded = Workspace.subscription_id written
        /\ Workspace.resource_group loaded = Workspace.resource_group written
        /\ Workspace.name loaded = Workspace.name written).
Proof.
  split.
  - intros Hw v c l. split; [exact (from_config_written az ws d d' v c l Hw)|].
    intros ws' k'. rewrite (from_config_written az ws d d' v c l Hw).
    intros Hinit. apply Workspace_init_ok in Hinit as (-> & -> & ->).
    repeat split.
  - intros Hwrite Hload.
    destruct (cell_write_config_ok az k k1 Hwrite)
      as (name & sub & rg & loc & w & _ & _ & _ & _ & Hw & Hv & _ & _).
    destruct (cell_from_config_ok az k1 k2 Hload) as (loaded & k' & Hfrom & Hmy).
    exists (Workspace.mk name sub rg loc), loaded.
    split; [rewrite Hv; apply lookup_insert_eq|]. split; [exact Hmy|].
    destruct k1 as [v1 d1 c1 l1]. cbn [disk] in Hw.
    rewrite (from_config_written az _ _ _ v1 c1 l1 Hw) in Hfrom.
    apply Workspace_init_ok in Hfrom as (-> & -> & ->). repeat split.
Qed.

(** Writing over a written configuration leaves what writing on the first
    disk would have left. *)
Lemma written_twice (d : gmap string node) (c1 c2 : gmap string string) :
  <[config_file := File c2]>
    (<[config_dir := Dir]> (<[config_file := File c1]> (<[config_dir := Dir]> d)))
  = <[config_file := File c2]> (<[config_dir := Dir]> d).
Proof.
  apply map_eq. intros p.
  destruct (decide (p = config_file)) as [->|Hf].
  - rewrite !lookup_insert_eq. reflexivity.
  - rewrite (lookup_insert_ne _ config_file p) by congruence.
    rewrite (lookup_insert_ne (<[config_dir := Dir]> d) config_file p) by congruence.
    destruct (decide (p = config_dir)) as [->|Hd].
    + rewrite !lookup_insert_eq. reflexivity.
    + rewrite !lookup_insert_ne by congruence. reflexivity.
Qed.

(** A sequence of calls that returns leaves the disk that its last call
    alone would have left. *)
Lemma write_config_sequence (wss : list Workspace.t) (ws : Workspace.t)
    (d d' : gmap string node) :
  for_each (wss ++ [ws]) write_config d = Ok tt d' ->
  d' = <[config_file := File (descriptor ws)]> (<[config_dir := Dir]> d).
Proof.
  revert ws d'. induction wss as [|ws0 wss IH] using rev_ind; intros ws d' H.
  - simpl in H. unfold bind in H.
    destruct (write_config ws d) as [[] d1|e d1] eqn:Hw; [|discriminate].
    injection H as <-. apply write_config_ok. exact Hw.
  - rewrite for_each_app in H.
    destruct (for_each (wss ++ [ws0]) write_config d) as [[] d1|e d1] eqn:Hseq;
      [|discriminate].
    apply IH in Hseq. simpl in H. unfold bind in H.
    destruct (write_config ws d1) as [[] d2|e d2] eqn:Hw; [|discriminate].
    injection H as <-. apply write_config_ok in Hw. subst d2 d1.
    apply written_twice.
Qed.

(** The calls all return when no file has the name of the folder and no
    directory the name of the file. *)
Lemma write_config_sequence_returns (wss : list Workspace.t) (d : gmap string node) :
  (forall c, d !! config_dir <> Some (File c)) ->
  d !! config_file <> Some Dir ->
  exists d', for_each wss write_config d = Ok tt d'
             /\ (forall c, d' !! config_dir <> Some (File c))
             /\ d' !! config_file <> Some Dir.
Proof.
  revert d. induction wss as [|ws wss IH]; intros d Hdir Hfile.
  - exists d. repeat split; assumption.
  - rewrite for_each_cons, (write_config_returns ws d Hdir Hfile).
    apply IH.
    + intros c. rewrite lookup_insert_ne by (symmetry; apply config_paths_differ).
      rewrite lookup_insert_eq. discriminate.
    + rewrite lookup_insert_eq. discriminate.
Qed.

(** C7: every reconfiguration overwrites the configuration file as a whole.
    For every sequence of calls of [write_config] on a disk where no file has
    the name of the folder [./aml_config] and no directory the name of the
    file: the calls all return, and the disk they leave is the first disk
    with the folder and with the file holding exactly the descriptor of the
    workspace of the last call, whatever the earlier calls wrote; no other
    path changes, so the working directory holds one descriptor; and a
    sequence that returns on any disk leaves that same disk. *)
Theorem write_config_overwrites (wss : list Workspace.t) (ws : Workspace.t)
    (d : gmap string node) :
  (forall c, d !! config_dir <> Some (File c)) ->
  d !! config_file <> Some Dir ->
  let last := <[config_file := File (descriptor ws)]> (<[config_dir := Dir]> d) in
  for_each (wss ++ [ws]) write_config d = Ok tt last
  /\ last !! config_file = Some (File (descriptor ws))
  /\ (forall p, p <> config_file -> p <> config_dir -> last !! p = d !! p)
  /\ (forall d0 d', for_each (wss ++ [ws]) write_config d0 = Ok tt d' ->
        d' = <[config_file := File (descriptor ws)]> (<[config_dir := Dir]> d0)).
Proof.
  intros Hdir Hfile last.
  split; [|split; [|split]].
  - destruct (write_config_sequence_returns (wss ++ [ws]) d Hdir Hfile)
      as (d' & Hseq & _).
    rewrite Hseq. f_equal. apply write_config_sequence in Hseq. exact Hseq.
  - apply lookup_insert_eq.
  - intros p Hf Hd. unfold last. rewrite !lookup_insert_ne by congruence.
    reflexivity.
  - intros d0 d'. apply write_config_sequence.
Qed.

(** ** Workspace creation *)

(** The creation cell, when the service refuses to create the workspace. *)
Lemma cell_create_raises {C} (az : AzureML C) (k : kernel C)
    (name subscription_id resource_group region : string) (e : exn) (w : C) :
  vars k !! "workspace_name" = Some (OVal (VStr name)) ->
  vars k !! "subscription_id" = Some (OVal (VStr subscription_id)) ->
  vars k !! "resource_group" = Some (OVal (VStr resource_group)) ->
  vars k !! "workspace_region" = Some (OVal (VStr region)) ->
  Workspace_create az name subscription_id resource_group region (cloud k) = Raise e w ->
  Configuration.cell_create az k =
  Raise e (Kernel (vars k) (disk k) w
             (calls k ++ [(CallWorkspaceCreate name subscription_id resource_group region,
                           Some e)])).
Proof.
  intros Hn Hs Hg Hr Hc. unfold Configuration.cell_create. open_cell.
  do 2 step. rewrite Hn. do 3 step. rewrite Hs. do 3 step. rewrite Hg.
  do 3 step. rewrite Hr. do 2 step. rewrite Hc. reflexivity.
Qed.

(** A run of the creation cell: it calls the service once with the four
    strings of the notebook's variables, and ends as the call ends. *)
Lemma cell_create_calls {C} (az : AzureML C) (k : kernel C)
    (name subscription_id resource_group region : string) :
  vars k !! "workspace_name" = Some (OVal (VStr name)) ->
  vars k !! "subscription_id" = Some (OVal (VStr subscription_id)) ->
  vars k !! "resource_group" = Some (OVal (VStr resource_group)) ->
  vars k !! "workspace_region" = Some (OVal (VStr region)) ->
  match Workspace_create az name subscription_id resource_group region (cloud k) with
  | Ok ws w =>
      exists l,
        vars (final (Configuration.cell_create az k)) !! "ws" = Some (OWorkspace ws)
        /\ calls (final (Configuration.cell_create az k))
           = (calls k
              ++ (CallWorkspaceCreate name subscription_id resource_group region, None)
                 :: l)%list
  | Raise e w =>
      Configuration.cell_create az k
      = Raise e (Kernel (vars k) (disk k) w
                   (calls k ++ [(CallWorkspaceCreate name subscription_id
                                   resource_group region, Some e)]))
  end.
Proof.
  intros Hn Hs Hg Hr.
  destruct (Workspace_create az name subscription_id resource_group region (cloud k))
    as [ws w|e w] eqn:Hc.
  - unfold Configuration.cell_create. open_cell.
    do 2 step. rewrite Hn. do 3 step. rewrite Hs. do 3 step. rewrite Hg.
    do 3 step. rewrite Hr. do 2 step. rewrite Hc. do 3 step.
    rewrite lookup_insert_eq. do 2 step.
    destruct (get_details az ws w) as [details w'|e w'];
      cbn [final vars calls]; eexists;
      (split; [apply lookup_insert_eq | rewrite <- app_assoc; reflexivity]).
  - apply cell_create_raises; assumption.
Qed.

(** C6: workspace creation takes four strings and returns a reference to the
    remote workspace or fails; it fails when the workspace exists already or
    when the caller lacks the permission to create it.  On the service as the
    notebook describes it: the call returns or raises; it raises, leaving the
    service as it was, when a workspace of that name exists in the resource
    group of the subscription, and when the caller may not create a workspace
    there; otherwise it returns the reference made of the four strings and
    the service holds the workspace in the region asked for.  In the
    notebook, for every implementation of the SDK, the creation cell makes
    the call with the four strings of its variables, binds [ws] to the
    reference when the call returns and ends with the exception of the call
    when it raises. *)
Theorem workspace_create_returns_or_fails
    (name subscription_id resource_group location : string) (a : Documented.azure) :
  let key := (subscription_id, resource_group, name) in
  let lacks_permission :=
    ((subscription_id, resource_group) ∉ Documented.may_create a)
    \/ ((subscription_id ∉ Documented.contributor a)
        /\ (subscription_id ∉ Documented.provisioned a)) in
  let result :=
    Documented.Workspace_create name subscription_id resource_group location a in
  ((exists ws a', result = Ok ws a') \/ (exists e, result = Raise e a))
  /\ (is_Some (Documented.workspaces a !! key) -> exists e, result = Raise e a)
  /\ (lacks_permission -> exists e, result = Raise e a)
  /\ (Documented.workspaces a !! key = None -> ~ lacks_permission ->
      exists a',
        result = Ok (Workspace.mk name subscription_id resource_group location) a'
        /\ Documented.workspaces a' !! key = Some location)
  /\ (forall C (az : AzureML C) (k : kernel C),
        vars k !! "workspace_name" = Some (OVal (VStr name)) ->
        vars k !! "subscription_id" = Some (OVal (VStr subscription_id)) ->
        vars k !! "resource_group" = Some (OVal (VStr resource_group)) ->
        vars k !! "workspace_region" = Some (OVal (VStr location)) ->
        match Workspace_create az name subscription_id resource_group location (cloud k) with
        | Ok ws w =>
            exists l,
              vars (final (Configuration.cell_create az k)) !! "ws"
              = Some (OWorkspace ws)
              /\ calls (final (Configuration.cell_create az k))
                 = (calls k
                    ++ (CallWorkspaceCreate name subscription_id resource_group
                          location, None) :: l)%list
        | Raise e w =>
            Configuration.cell_create az k
            = Raise e (Kernel (vars k) (disk k) w
                         (calls k ++ [(CallWorkspaceCreate name subscription_id
                                         resource_group location, Some e)]))
        end).
Proof.
  intros key lacks_permission result.
  assert (is_Some (Documented.workspaces a !! key) -> exists e, result = Raise e a)
    as Hexists.
  { intros Hsome. unfold result, Documented.Workspace_create. fold key.
    rewrite bool_decide_eq_true_2 by exact Hsome. eexists. reflexivity. }
  assert (lacks_permission -> exists e, result = Raise e a) as Hlacks.
  { intros Hl. unfold result, Documented.Workspace_create. fold key.
    case_bool_decide; [eexists; reflexivity|].
    destruct Hl as [Hrg|[Hc Hp]].
    - rewrite (bool_decide_eq_false_2 _ Hrg). eexists. reflexivity.
    - case_bool_decide; simpl; [|eexists; reflexivity].
      rewrite (bool_decide_eq_false_2 _ Hc), (bool_decide_eq_false_2 _ Hp).
      eexists. reflexivity. }
  assert (Documented.workspaces a !! key = None -> ~ lacks_permission ->
          exists a',
            result = Ok (Workspace.mk name subscription_id resource_group location) a'
            /\ Documented.workspaces a' !! key = Some location) as Hok.
  { intros Hnone Hperm. unfold result, Documented.Workspace_create. fold key.
    rewrite bool_decide_eq_false_2 by (rewrite Hnone; apply is_Some_None).
    case_bool_decide as Hrg; simpl; [|exfalso; apply Hperm; left; exact Hrg].
    destruct (bool_decide (subscription_id ∈ Documented.contributor a)) eqn:Hc;
      simpl.
    - eexists. split; [reflexivity|]. apply lookup_insert_eq.
    - destruct (bool_decide (subscription_id ∈ Documented.provisioned a)) eqn:Hp;
        simpl.
      + eexists. split; [reflexivity|]. apply lookup_insert_eq.
      + exfalso. apply Hperm. right.
        apply bool_decide_eq_false in Hc. apply bool_decide_eq_false in Hp.
        split; assumption. }
  split; [|split; [exact Hexists|split; [exact Hlacks|split; [exact Hok|]]]].
  - destruct (Documented.workspaces a !! key) as [l|] eqn:Hkey.
    + right. apply Hexists. eexists. reflexivity.
    + destruct (decide ((subscription_id, resource_group) ∈ Documented.may_create a))
        as [Hrg|Hrg]; [|right; apply Hlacks; left; exact Hrg].
      destruct (decide (subscription_id ∈ Documented.contributor a)) as [Hc|Hc].
      * left. destruct Hok as (a' & Hres & _); [reflexivity| |eauto].
        intros [H|[H _]]; contradiction.
      * destruct (decide (subscription_id ∈ Documented.provisioned a)) as [Hp|Hp].
        -- left. destruct Hok as (a' & Hres & _); [reflexivity| |eauto].
           intros [H|[_ H]]; contradiction.
        -- right. apply Hlacks. right. split; assumption.
  - intros C az k. apply cell_create_calls.
Qed.

(** * The remote-execution notebook *)

(** ** Failures of the remote calls *)

(** The submission cell, when the service refuses the submission. *)
Lemma cell_submit_raises {C} (az : AzureML C) (k : kernel C)
    (experiment : Experiment.t) (config : AutoMLConfig.t) (e : exn) (w : C) :
  vars k !! "experiment" = Some (OExperiment experiment) ->
  vars k !! "automl_config" = Some (OConfig config) ->
  submit az experiment config (cloud k) = Raise e w ->
  RemoteExecution.cell_submit az k =
  Raise e (Kernel (vars k) (disk k) w
             (calls k ++ [(CallSubmit experiment config, Some e)])).
Proof.
  intros He Hc Hs. unfold RemoteExecution.cell_submit. open_cell.
  do 2 step. rewrite He. do 3 step. rewrite Hc. do 2 step.
  rewrite Hs. reflexivity.
Qed.

(** C5: no failure of a remote SDK call is caught, classified or retried.
    For every implementation of the SDK: a remote call that raises makes the
    computation raise the same exception in the state the call left; the
    creation cell and the submission cell end with the exception the service
    raised; and every cell that calls the SDK (workspace creation and
    loading, experiment, compute attachment, submission, run details,
    child runs and their metrics, cancellation, model retrieval and
    registration, and the test of the model, which calls nothing remote) is
    transparent: if one of its calls raised, it was the last call the cell
    made and the cell ended with that very exception. *)
Theorem remote_failures_propagate {C} (az : AzureML C) (py : Libraries C) :
  (forall A (c : call) (op : M C A) (k : kernel C) (e : exn) (w : C),
      op (cloud k) = Raise e w ->
      remote c op k = Raise e (Kernel (vars k) (disk k) w (calls k ++ [(c, Some e)])))
  /\ (forall k name subscription_id resource_group region e w,
        vars k !! "workspace_name" = Some (OVal (VStr name)) ->
        vars k !! "subscription_id" = Some (OVal (VStr subscription_id)) ->
        vars k !! "resource_group" = Some (OVal (VStr resource_group)) ->
        vars k !! "workspace_region" = Some (OVal (VStr region)) ->
        Workspace_create az name subscription_id resource_group region (cloud k)
        = Raise e w ->
        exists k', Configuration.cell_create az k = Raise e k' /\ cloud k' = w)
  /\ (forall k experiment config e w,
        vars k !! "experiment" = Some (OExperiment experiment) ->
        vars k !! "automl_config" = Some (OConfig config) ->
        submit az experiment config (cloud k) = Raise e w ->
        exists k', RemoteExecution.cell_submit az k = Raise e k' /\ cloud k' = w)
  /\ transparent (Configuration.cell_create az)
  /\ transparent (Configuration.cell_write_config az)
  /\ transparent (Configuration.cell_from_config az)
  /\ transparent (RemoteExecution.cell_experiment az)
  /\ (forall name address username password,
        transparent (RemoteExecution.cell_attach az name address username password))
  /\ transparent (RemoteExecution.cell_submit az)
  /\ transparent (RemoteExecution.cell_run_details az)
  /\ transparent (RemoteExecution.cell_children az py)
  /\ transparent (RemoteExecution.cell_cancel az)
  /\ transparent (RemoteExecution.cell_best_model az)
  /\ transparent (RemoteExecution.cell_iteration_model az)
  /\ transparent (RemoteExecution.cell_register_model az)
  /\ transparent (RemoteExecution.cell_test_model py).
Proof.
  split; [intros A c op k e w; apply remote_raises|].
  split.
  { intros k name sub rg region e w Hn Hs Hg Hr Hc. eexists. split.
    - apply cell_create_raises; eassumption.
    - reflexivity. }
  split.
  { intros k experiment config e w He Hc Hs. eexists. split.
    - apply cell_submit_raises; eassumption.
    - reflexivity. }
  repeat split; try intros name address username password;
    unfold Configuration.cell_create, Configuration.cell_write_config,
      Configuration.cell_from_config, RemoteExecution.cell_experiment,
      RemoteExecution.cell_attach, RemoteExecution.cell_submit,
      RemoteExecution.cell_run_details, RemoteExecution.cell_children,
      RemoteExecution.children_body, RemoteExecution.cell_cancel,
      RemoteExecution.cell_best_model, RemoteExecution.cell_iteration_model,
      RemoteExecution.cell_register_model, RemoteExecution.cell_test_model;
    open_cell; walk_transparent.
Qed.

(** ** The settings after the submission *)





(** A run of the submission cell that returns. *)
Lemma cell_submit_ok {C} (az : AzureML C) (k k' : kernel C) :
  RemoteExecution.cell_submit az k = Ok tt k' ->
  exists experiment config run w,
    vars k !! "experiment" = Some (OExperiment experiment)
    /\ vars k !! "automl_config" = Some (OConfig config)
    /\ submit az experiment config (cloud k) = Ok run w
    /\ k' = Kernel (<["remote_run" := ORun run]> (vars k)) (disk k) w
              (calls k ++ [(CallSubmit experiment config, None)]).
Proof.
  unfold RemoteExecution.cell_submit. open_cell. intros H.
  repeat (step_in H; repeat (case_match; try discriminate)).
  unfold assign in H. injection H as <-.
  match goal with
  | He : vars k !! "experiment" = Some (OExperiment ?e),
    Hc : vars k !! "automl_config" = Some (OConfig ?c),
    Hs : submit az ?e ?c (cloud k) = Ok ?r ?w |- _ =>
      exists e, c, r, w; repeat split; assumption
  end.
Qed.


(** A run of the configuration cell that returns: the settings are the
    dictionary of the cell, the configuration holds them as its keyword
    arguments, and no remote call was made. *)
Lemma cell_automl_config_ok {C} (k k' : kernel C) :
  RemoteExecution.cell_automl_config k = Ok tt k' ->
  exists config,
    vars k' !! "automl_settings" = Some (OVal (VDict RemoteExecution.automl_settings))
    /\ vars k' !! "automl_config" = Some (OConfig config)
    /\ AutoMLConfig.kwargs config = RemoteExecution.automl_settings
    /\ calls k' = calls k.
Proof.
  unfold RemoteExecution.cell_automl_config. open_cell. intros H.
  repeat (step_in H; repeat (case_match; try discriminate)).
  unfold assign in H. injection H as <-. simpl.
  match goal with
  | Hs : <["automl_settings" := _]> (vars k) !! "automl_settings" = Some _ |- _ =>
      rewrite lookup_insert_eq in Hs; injection Hs as <-
  end.
  subst.
  match goal with
  | Hi : AutoMLConfig_init _ _ _ _ _ = inr ?c |- _ =>
      exists c; unfold AutoMLConfig_init in Hi;
      destruct (List.find _ AutoMLConfig_named); [discriminate|];
      injection Hi as <-
  end.
  split; [|split; [|split]].
  - rewrite lookup_insert_ne by discriminate. apply lookup_insert_eq.
  - apply lookup_insert_eq.
  - reflexivity.
  - reflexivity.
Qed.


(** ** The settings *)

(** C3: what the settings dictionary of the notebook holds.  It is a flat
    mapping of six option names to scalars: the time budget in seconds, the
    iteration count, the number of cross-validation folds, the primary
    metric, the preprocessing flag and the limit of cores per iteration.  It
    has no [concurrent_iterations] entry, the concurrency limit that the
    notebook's table of properties describes; and for every implementation
    of the SDK the configuration that is submitted holds this dictionary as
    its keyword arguments. *)
Theorem automl_settings_six_options :
  dom RemoteExecution.automl_settings
  = ({["max_time_sec"; "iterations"; "n_cross_validations"; "primary_metric";
       "preprocess"; "max_cores_per_iteration"]} : gset string)
  /\ size RemoteExecution.automl_settings = 6%nat
  /\ RemoteExecution.automl_settings !! "max_time_sec" = Some (VInt 3600)
  /\ RemoteExecution.automl_settings !! "iterations" = Some (VInt 10)
  /\ RemoteExecution.automl_settings !! "n_cross_validations" = Some (VInt 5)
  /\ RemoteExecution.automl_settings !! "primary_metric" = Some (VStr "AUC_weighted")
  /\ RemoteExecution.automl_settings !! "preprocess" = Some (VBool true)
  /\ RemoteExecution.automl_settings !! "max_cores_per_iteration" = Some (VInt 2)
  /\ map_Forall (fun _ v => is_scalar v = true) RemoteExecution.automl_settings
  /\ RemoteExecution.automl_settings !! "concurrent_iterations" = None
  /\ ("concurrent_iterations" ∉ dom RemoteExecution.automl_settings)
  /\ forall C (az : AzureML C) (k0 k1 k2 : kernel C),
       RemoteExecution.cell_automl_config k0 = Ok tt k1 ->
       RemoteExecution.cell_submit az k1 = Ok tt k2 ->
       exists experiment config,
         calls k2 = (calls k0 ++ [(CallSubmit experiment config, None)])%list
         /\ AutoMLConfig.kwargs config = RemoteExecution.automl_settings
         /\ AutoMLConfig.kwargs config !! "concurrent_iterations" = None.
Proof.
  assert (dom RemoteExecution.automl_settings
          = ({["max_time_sec"; "iterations"; "n_cross_validations"; "primary_metric";
               "preprocess"; "max_cores_per_iteration"]} : gset string)) as Hdom.
  { unfold RemoteExecution.automl_settings. simpl list_to_map.
    rewrite !dom_insert_L, dom_empty_L. set_solver. }
  split; [exact Hdom|].
  split; [vm_compute; reflexivity|].
  do 6 (split; [vm_compute; reflexivity|]).
  split.
  { intros name v Hv.
    assert (name ∈ dom RemoteExecution.automl_settings) as Hin
      by (apply elem_of_dom; eexists; exact Hv).
    rewrite Hdom in Hin.
    repeat (apply elem_of_union in Hin as [Hin|Hin]);
      apply elem_of_singleton in Hin; subst name;
      vm_compute in Hv; injection Hv as <-; reflexivity. }
  split; [vm_compute; reflexivity|].
  split; [apply not_elem_of_dom; vm_compute; reflexivity|].
  intros C az k0 k1 k2 Hcfg Hsub.
  destruct (cell_automl_config_ok k0 k1 Hcfg) as (config & _ & Hc & Hkw & Hcalls).
  destruct (cell_submit_ok az k1 k2 Hsub) as (e & c & run & w & _ & Hc' & _ & ->).
  rewrite Hc in Hc'. injection Hc' as <-.
  exists e, config. cbn [calls]. rewrite Hcalls, Hkw.
  repeat split. 
Qed.

(** ** Python's [int] on the text of a number *)

(** [int] raises nothing but [ValueError], on the text it was given. *)
Lemma int_of_str_error (unicode : string -> option Z) (s : string) (e : exn) :
  int_of_str unicode s = inl e -> e = ValueError s.
Proof.
  unfold int_of_str.
  destruct (if forallb is_ascii (list_ascii_of_string s) then int_of_ascii s
            else unicode s);
    intros H; [discriminate | injection H as <-; reflexivity].
Qed.

(** The character of a decimal digit. *)
Lemma digit_character (d : Z) :
  0 <= d <= 9 ->
  let a := ascii_of_N (Z.to_N (48 + d)) in
  is_ascii a = true
  /\ is_space a = false
  /\ Ascii.eqb a "_" = false
  /\ Ascii.eqb a "-" = false
  /\ Ascii.eqb a "+" = false
  /\ digit_of a = Some d.
Proof.
  intros Hd.
  assert (d = 0 \/ d = 1 \/ d = 2 \/ d = 3 \/ d = 4 \/ d = 5 \/ d = 6 \/ d = 7
          \/ d = 8 \/ d = 9) as Hcases by lia.
  repeat destruct Hcases as [->|Hcases]; [..|subst d]; repeat split.
Qed.

(** Reading digits from the left. *)
Lemma digits_numeral (ds : list Z) (acc : Z) (after_digit : bool) :
  Forall (fun d => 0 <= d <= 9) ds ->
  ds <> [] \/ after_digit = true ->
  digits acc after_digit (map (fun d => ascii_of_N (Z.to_N (48 + d))) ds)
  = Some (fold_left (fun acc d => 10 * acc + d) ds acc).
Proof.
  intros Hall. revert acc after_digit.
  induction Hall as [|d ds Hd _ IH]; intros acc after_digit Hne.
  - destruct Hne as [Hne| ->]; [contradiction | reflexivity].
  - destruct (digit_character d Hd) as (_ & _ & Hu & _ & _ & Hdigit).
    cbn [map digits fold_left]. rewrite Hu, Hdigit.
    apply IH. right. reflexivity.
Qed.

(** The text of a number written in decimal digits reads as the number. *)
Lemma int_of_str_numeral (unicode : string -> option Z) (ds : list Z) :
  ds <> [] ->
  Forall (fun d => 0 <= d <= 9) ds ->
  int_of_str unicode (numeral ds) = inr (number ds).
Proof.
  intros Hne Hall. unfold int_of_str, int_of_ascii, numeral, number.
  rewrite list_ascii_of_string_of_list_ascii.
  assert (forallb is_ascii (map (fun d => ascii_of_N (Z.to_N (48 + d))) ds) = true)
    as ->.
  { apply forallb_forall. intros a Ha. apply in_map_iff in Ha as (d & <- & Hd).
    rewrite List.Forall_forall in Hall. apply (digit_character d (Hall d Hd)). }
  assert (forall l : list Z,
            l <> [] -> Forall (fun d => 0 <= d <= 9) l ->
            drop_spaces (map (fun d => ascii_of_N (Z.to_N (48 + d))) l)
            = map (fun d => ascii_of_N (Z.to_N (48 + d))) l) as Hdrop.
  { intros [|d l] Hl Hds; [contradiction|]. apply Forall_cons in Hds as [Hd _].
    destruct (digit_character d Hd) as (_ & Hs & _). cbn [map drop_spaces].
    rewrite Hs. reflexivity. }
  assert (strip (map (fun d => ascii_of_N (Z.to_N (48 + d))) ds)
          = map (fun d => ascii_of_N (Z.to_N (48 + d))) ds) as ->.
  { unfold strip. rewrite (Hdrop ds Hne Hall), <- map_rev.
    rewrite (Hdrop (rev ds)).
    - rewrite map_rev, rev_involutive. reflexivity.
    - intros Hrev. apply Hne. rewrite <- (rev_involutive ds), Hrev. reflexivity.
    - apply Forall_rev. exact Hall. }
  destruct ds as [|d ds]; [contradiction|].
  pose proof Hall as Hall'. apply Forall_cons in Hall' as [Hd _].
  destruct (digit_character d Hd) as (_ & _ & _ & Hm & Hp & _).
  cbn [map]. rewrite Hm, Hp.
  change (ascii_of_N (Z.to_N (48 + d)) :: map (fun d0 => ascii_of_N (Z.to_N (48 + d0))) ds)
    with (map (fun d0 => ascii_of_N (Z.to_N (48 + d0))) (d :: ds)).
  rewrite (digits_numeral (d :: ds) 0 false Hall) by (left; discriminate).
  reflexivity.
Qed.

(** ** The table of the child runs' metrics *)

Lemma float_metrics_lookup (metrics : gmap string pyval) (name : string) (v : pyval) :
  RemoteExecution.float_metrics metrics !! name = Some v
  <-> metrics !! name = Some v /\ isinstance_float v = true.
Proof. unfold RemoteExecution.float_metrics. apply map_lookup_filter_Some. Qed.

Lemma float_metrics_drops (metrics : gmap string pyval) (name : string) (v : pyval) :
  metrics !! name = Some v -> isinstance_float v = false ->
  RemoteExecution.float_metrics metrics !! name = None.
Proof.
  intros Hv Hf.
  destruct (RemoteExecution.float_metrics metrics !! name) as [v'|] eqn:E; [|reflexivity].
  apply float_metrics_lookup in E as [E1 E2]. congruence.
Qed.

Lemma fill_snoc (entries : list (Z * gmap string pyval)) (entry : Z * gmap string pyval)
    (m : gmap Z (gmap string pyval)) :
  fill (entries ++ [entry]) m = <[entry.1 := entry.2]> (fill entries m).
Proof. unfold fill. rewrite fold_left_app. reflexivity. Qed.

Lemma fill_cons (entries : list (Z * gmap string pyval)) (entry : Z * gmap string pyval)
    (m : gmap Z (gmap string pyval)) :
  fill (entry :: entries) m = fill entries (<[entry.1 := entry.2]> m).
Proof. reflexivity. Qed.

(** Every column comes from an entry or was there before. *)
Lemma fill_lookup (entries : list (Z * gmap string pyval))
    (m : gmap Z (gmap string pyval)) (i : Z) (column : gmap string pyval) :
  fill entries m !! i = Some column ->
  (i, column) ∈ entries \/ m !! i = Some column.
Proof.
  revert m. induction entries as [|[j c] entries IH]; intros m H.
  - right. exact H.
  - rewrite fill_cons in H. apply IH in H as [H|H].
    + left. right. exact H.
    + simpl in H. destruct (decide (j = i)) as [->|Hne].
      * rewrite lookup_insert_eq in H. injection H as ->. left. left.
      * rewrite lookup_insert_ne in H by exact Hne. right. exact H.
Qed.

(** Every entry gives a column. *)
Lemma fill_keys (entries : list (Z * gmap string pyval))
    (m : gmap Z (gmap string pyval)) (i : Z) :
  is_Some (fill entries m !! i) <-> i ∈ entries.*1 \/ is_Some (m !! i).
Proof.
  revert m. induction entries as [|[j c] entries IH]; intros m.
  - simpl. split; [intros H; right; exact H | intros [H|H]; [inversion H | exact H]].
  - rewrite fill_cons, IH. simpl. rewrite elem_of_cons.
    destruct (decide (j = i)) as [->|Hne].
    + rewrite lookup_insert_eq. split; [intros _; left; left; reflexivity|].
      intros _. right. eexists. reflexivity.
    + rewrite lookup_insert_ne by exact Hne. split.
      * intros [H|H]; [left; right; exact H | right; exact H].
      * intros [[H|H]|H]; [congruence | left; exact H | right; exact H].
Qed.

(** The last entry with a key is the one the table keeps. *)
Lemma fill_last (before after : list (Z * gmap string pyval))
    (entry : Z * gmap string pyval) (m : gmap Z (gmap string pyval)) :
  entry.1 ∉ after.*1 ->
  fill (before ++ entry :: after) m !! entry.1 = Some entry.2.
Proof.
  intros Hlast. unfold fill. rewrite fold_left_app. simpl.
  fold (fill after (<[entry.1 := entry.2]> (fold_left
         (fun m0 e => <[e.1 := e.2]> m0) before m))).
  generalize (fold_left (fun m0 e => <[e.1 := e.2]> m0) before m) as m1.
  intros m1.
  assert (forall m2, m2 !! entry.1 = Some entry.2 ->
                     fill after m2 !! entry.1 = Some entry.2) as Hkeep.
  { clear m1. induction after as [|[j c] after IH]; intros m2 H2; [exact H2|].
    rewrite fill_cons. simpl in *. apply IH.
    - intros Hin. apply Hlast. right. exact Hin.
    - rewrite lookup_insert_ne; [exact H2|]. intros ->. apply Hlast. left. }
  apply Hkeep. apply lookup_insert_eq.
Qed.

(** One turn of the loop that returns: the service answered for the run and
    the entry went into [metricslist]. *)
Lemma children_body_ok {C} (az : AzureML C) (py : Libraries C)
    (run : Run) (k k' : kernel C)
    (m : gmap Z (gmap string pyval)) :
  vars k !! "metricslist" = Some (OMetrics m) ->
  RemoteExecution.children_body az py run k = Ok tt k' ->
  exists entry,
    answered az py run entry
    /\ vars k' !! "metricslist" = Some (OMetrics (<[entry.1 := entry.2]> m)).
Proof.
  intros Hm. unfold RemoteExecution.children_body. open_cell. intros H.
  repeat (step_in H; repeat (case_match; try discriminate)).
  unfold assign in H. injection H as <-. cbn [vars].
  match goal with
  | Hl : _ !! "metricslist" = Some (OMetrics ?m') |- _ =>
      rewrite !lookup_insert_ne in Hl by discriminate;
      rewrite Hm in Hl; injection Hl as <-
  end.
  match goal with
  | Hp : get_properties az run ?w1 = Ok ?p ?w2,
    Hg : get_metrics az run ?w2 = Ok ?ms ?w3,
    Hi : ?p !! "iteration" = Some ?it,
    Hz : int_of_str _ ?it = inr ?z |- _ =>
      exists (z, RemoteExecution.float_metrics ms); split;
        [exists w1, w2, w3, p, it, ms; repeat split; assumption
        |apply lookup_insert_eq]
  end.
Qed.

(** The loop that returns: one entry per child, in the order of the
    children. *)
Lemma children_loop_ok {C} (az : AzureML C) (py : Libraries C)
    (runs : list Run) (k k' : kernel C)
    (m : gmap Z (gmap string pyval)) :
  vars k !! "metricslist" = Some (OMetrics m) ->
  for_each runs (RemoteExecution.children_body az py) k = Ok tt k' ->
  exists entries,
    Forall2 (answered az py) runs entries
    /\ vars k' !! "metricslist" = Some (OMetrics (fill entries m)).
Proof.
  revert k m. induction runs as [|run runs IH]; intros k m Hm H.
  - injection H as <-. exists []. split; [constructor | exact Hm].
  - rewrite for_each_cons in H.
    destruct (RemoteExecution.children_body az py run k) as [[] k1|e k1] eqn:Hbody;
      [|discriminate].
    destruct (children_body_ok az py run k k1 m Hm Hbody) as (entry & Hans & Hm1).
    destruct (IH k1 _ Hm1 H) as (entries & Hall & Hm').
    exists (entry :: entries). split; [constructor; assumption | exact Hm'].
Qed.

(** A run of the metrics cell that returns. *)
Lemma cell_children_ok {C} (az : AzureML C) (py : Libraries C) (k k' : kernel C) :
  RemoteExecution.cell_children az py k = Ok tt k' ->
  exists remote_run children w entries,
    vars k !! "remote_run" = Some (ORun remote_run)
    /\ get_children az remote_run (cloud k) = Ok children w
    /\ Forall2 (answered az py) children entries
    /\ vars k' !! "rundata"
       = Some (OTable (merge_sort Z.le (map fst (map_to_list (fill entries ∅))))
                 (fill entries ∅)).
Proof.
  unfold RemoteExecution.cell_children. open_cell. intros H.
  do 2 step_in H. destruct (vars k !! "remote_run") as [[]|] eqn:Hrun;
    try discriminate.
  do 2 step_in H.
  destruct (get_children az r (cloud k)) as [children w|] eqn:Hch; [|discriminate].
  do 4 step_in H. rewrite lookup_insert_ne, lookup_insert_eq in H by discriminate.
  step_in H.
  match type of H with
  | bind (for_each _ _) _ ?k1 = _ =>
      unfold bind in H;
      destruct (for_each children (RemoteExecution.children_body az py) k1)
        as [[] k2|e k2] eqn:Hloop; [|discriminate];
      destruct (children_loop_ok az py children k1 k2 ∅) as (entries & Hall & Hm);
        [apply lookup_insert_eq | exact Hloop |]
  end.
  unfold load in H. rewrite Hm in H. unfold assign in H. injection H as <-.
  exists r, children, w, entries. repeat split; try assumption.
  cbn [vars]. apply lookup_insert_eq.
Qed.

(** C9: the table of the child runs' metrics keeps floats only and is keyed
    by the integer of each run's [iteration] property.  For every
    implementation of the SDK and every run of the metrics cell that
    returns, there is one entry per child run, in the order of the
    children, made of the integer [int(properties['iteration'])]
    and of the run's metrics whose value is a [float], such that: the table
    [rundata] has the columns of [metricslist], in ascending order and
    without repetition; its keys are exactly the integers of the entries;
    every column is the float metrics of a child run with that integer, and
    the last such child wins; every value in the table is a float; and a
    metric whose value is not a float is in no entry.  What the integer of
    a property and the float metrics of a run are is part of the statement:
    a property written in decimal digits stands for the number so written,
    and the float metrics of a run are exactly its metrics whose value is a
    [float], each with its value. *)
Theorem metrics_table_keeps_floats {C} (az : AzureML C) (py : Libraries C)
    (k k' : kernel C) :
  RemoteExecution.cell_children az py k = Ok tt k' ->
  exists remote_run children w entries columns,
    vars k !! "remote_run" = Some (ORun remote_run)
    /\ get_children az remote_run (cloud k) = Ok children w
    /\ Forall2 (answered az py) children entries
    /\ vars k' !! "rundata" = Some (OTable columns (fill entries ∅))
    /\ Sorted Z.le columns
    /\ NoDup columns
    /\ (forall i, i ∈ columns <-> i ∈ entries.*1)
    /\ (forall i, i ∈ columns <-> is_Some (fill entries ∅ !! i))
    /\ (forall i column, fill entries ∅ !! i = Some column -> (i, column) ∈ entries)
    /\ (forall before entry after,
          entries = (before ++ entry :: after)%list -> entry.1 ∉ after.*1 ->
          fill entries ∅ !! entry.1 = Some entry.2)
    /\ (forall i column name v,
          fill entries ∅ !! i = Some column -> column !! name = Some v ->
          isinstance_float v = true)
    /\ (forall metrics name v,
          metrics !! name = Some v -> isinstance_float v = false ->
          RemoteExecution.float_metrics metrics !! name = None)
    /\ (forall metrics name v,
          RemoteExecution.float_metrics metrics !! name = Some v
          <-> metrics !! name = Some v /\ exists f, v = VFloat f)
    /\ (forall ds,
          ds <> [] -> Forall (fun d => 0 <= d <= 9) ds ->
          int_of_str (int_unicode py) (numeral ds) = inr (number ds)).
Proof.
  intros H.
  destruct (cell_children_ok az py k k' H)
    as (run & children & w & entries & Hrun & Hch & Hall & Hdata).
  exists run, children, w, entries, (merge_sort Z.le (map fst (map_to_list (fill entries ∅)))).
  assert (forall i, i ∈ merge_sort Z.le (map fst (map_to_list (fill entries ∅)))
                    <-> is_Some (fill entries ∅ !! i)) as Hcols.
  { intros i. rewrite merge_sort_Permutation. split.
    - intros Hin. apply list_elem_of_fmap in Hin as ([j c] & -> & Hin).
      apply elem_of_map_to_list in Hin. eexists. exact Hin.
    - intros [c Hc]. apply list_elem_of_fmap. exists (i, c). split; [reflexivity|].
      apply elem_of_map_to_list. exact Hc. }
  assert (forall i column, fill entries ∅ !! i = Some column -> (i, column) ∈ entries)
    as Hfrom.
  { intros i column Hc. apply fill_lookup in Hc as [Hc|Hc]; [exact Hc|].
    rewrite lookup_empty in Hc. discriminate. }
  repeat match goal with |- _ /\ _ => split end; try assumption.
  - apply Sorted_merge_sort. apply _.
  - rewrite merge_sort_Permutation. apply NoDup_fst_map_to_list.
  - intros i. split.
    + intros Hin. apply Hcols, fill_keys in Hin as [Hin|[c Hc]]; [exact Hin|].
      rewrite lookup_empty in Hc. discriminate.
    + intros Hin. apply Hcols, fill_keys. left. exact Hin.
  - intros before entry after -> Hlast. apply fill_last. exact Hlast.
  - intros i column name v Hc Hv. apply Hfrom in Hc.
    apply list_elem_of_lookup in Hc as (n & Hn).
    destruct (Forall2_lookup_r _ _ _ _ _ Hall Hn) as (run' & _ & Hans).
    destruct Hans as (w1 & w2 & w3 & p & it & ms & _ & _ & _ & _ & Hcol).
    simpl in Hcol. subst column. apply float_metrics_lookup in Hv. apply Hv.
  - intros metrics name v. apply float_metrics_drops.
  - intros metrics name v. rewrite float_metrics_lookup. split.
    + intros [Hv Hf]. split; [exact Hv|].
      destruct v; try discriminate. eexists. reflexivity.
    + intros [Hv [f ->]]. split; [exact Hv | reflexivity].
  - intros ds. apply int_of_str_numeral.
Qed.

(** * The data script *)

Lemma np_unique_elem_of (values : list string) (v : string) :
  v ∈ Sklearn.np_unique values <-> v ∈ values.
Proof.
  unfold Sklearn.np_unique. rewrite merge_sort_Permutation.
  apply elem_of_remove_dups.
Qed.

Lemma np_unique_sorted (values : list string) :
  Sorted String.le (Sklearn.np_unique values).
Proof. apply Sorted_merge_sort. apply _. Qed.

Lemma np_unique_NoDup (values : list string) : NoDup (Sklearn.np_unique values).
Proof.
  unfold Sklearn.np_unique. rewrite merge_sort_Permutation.
  apply NoDup_remove_dups.
Qed.

(** A label among the classes has a code, the position of the label. *)
Lemma encode1_seen (classes : list string) (v : string) :
  v ∈ classes ->
  exists i, Sklearn.encode1 classes v = inr i
            /\ 0 <= i /\ classes !! Z.to_nat i = Some v.
Proof.
  intros Hin. unfold Sklearn.encode1.
  destruct (list_find (fun c => c = v) classes) as [[i c]|] eqn:Hfind.
  - apply list_find_Some in Hfind as (Hi & -> & _).
    exists (Z.of_nat i). split; [reflexivity|]. split; [lia|].
    rewrite Nat2Z.id. exact Hi.
  - apply list_find_None in Hfind. rewrite Forall_forall in Hfind.
    exfalso. apply (Hfind v Hin). reflexivity.
Qed.

(** Labels that are all among the classes are all encoded. *)
Lemma transform_seen (classes values : list string) :
  Forall (fun v => v ∈ classes) values ->
  exists y, Sklearn.LabelEncoder_transform classes values = inr y
            /\ Forall2 (fun v c => 0 <= c /\ classes !! Z.to_nat c = Some v) values y.
Proof.
  induction 1 as [|v values Hv _ (y & Hy & Hall)]; simpl.
  - exists []. split; [reflexivity | constructor].
  - destruct (encode1_seen classes v Hv) as (i & -> & Hi).
    rewrite Hy. exists (i :: y). split; [reflexivity|]. constructor; assumption.
Qed.

(** The encoder fitted on a column encodes the column. *)
Lemma transform_fit (values : list string) :
  exists y,
    Sklearn.LabelEncoder_transform (Sklearn.LabelEncoder_fit values) values = inr y
    /\ Forall2 (fun v c => 0 <= c
                /\ Sklearn.LabelEncoder_fit values !! Z.to_nat c = Some v) values y.
Proof.
  apply transform_seen. apply Forall_forall. intros v Hv.
  apply np_unique_elem_of. exact Hv.
Qed.

Lemma drop_present (df : Pandas.frame) (label : string) (values : list pyval) :
  Pandas.column df label = inr values ->
  Pandas.drop df label
  = inr (List.filter (fun c => negb (String.eqb c.1 label)) df).
Proof.
  unfold Pandas.column, Pandas.drop.
  destruct (List.find _ df); [reflexivity | discriminate].
Qed.

(** Labels that are all text are read as their texts. *)
Lemma texts_fmap (labels : list string) : texts (VStr <$> labels) = Some labels.
Proof.
  unfold texts. induction labels as [|v labels IH]; [reflexivity|].
  cbn. cbn in IH. rewrite IH. reflexivity.
Qed.

Lemma texts_Some (values : list pyval) (labels : list string) :
  texts values = Some labels -> values = VStr <$> labels.
Proof.
  unfold texts. revert labels. induction values as [|v values IH]; intros labels H.
  - cbn in H. injection H as <-. reflexivity.
  - cbn in H. destruct v; try discriminate. cbn in H.
    destruct (mapM _ values) as [labels'|] eqn:Hrest; [|discriminate].
    cbn in H. injection H as <-. cbn. f_equal. apply IH. reflexivity.
Qed.

(** The encoder on a column of text: the classes are the sorted distinct
    labels and each label is encoded as its position among them. *)
Lemma le_fit_texts {W} (py : Libraries W) (labels : list string) :
  le_fit py (VStr <$> labels) = inr (VStr <$> Sklearn.LabelEncoder_fit labels).
Proof. unfold le_fit. rewrite texts_fmap. reflexivity. Qed.

Lemma le_transform_texts {W} (py : Libraries W) (classes labels : list string) :
  le_transform py (VStr <$> classes) (VStr <$> labels)
  = Sklearn.LabelEncoder_transform classes labels.
Proof. unfold le_transform. rewrite !texts_fmap. reflexivity. Qed.

Lemma le_inverse_transform_texts {W} (py : Libraries W) (classes : list string)
    (codes : list Z) :
  le_inverse_transform py (VStr <$> classes) codes
  = match Sklearn.LabelEncoder_inverse_transform classes codes with
    | inl e => inl e
    | inr labels => inr (VStr <$> labels)
    end.
Proof. unfold le_inverse_transform. rewrite texts_fmap. reflexivity. Qed.

Lemma encode_texts {W} (py : Libraries W) (labels : list string) :
  exists classes y,
    le_fit py (VStr <$> labels) = inr (VStr <$> classes)
    /\ le_transform py (VStr <$> classes) (VStr <$> labels) = inr y
    /\ Sorted String.le classes
    /\ NoDup classes
    /\ (forall v, v ∈ classes <-> v ∈ labels)
    /\ Forall2 (fun v c => 0 <= c /\ classes !! Z.to_nat c = Some v) labels y.
Proof.
  destruct (transform_fit labels) as (y & Hy & Hcodes).
  exists (Sklearn.LabelEncoder_fit labels), y.
  split; [apply le_fit_texts|]. split; [rewrite le_transform_texts; exact Hy|].
  split; [apply np_unique_sorted|]. split; [apply np_unique_NoDup|].
  split; [apply np_unique_elem_of | exact Hcodes].
Qed.

(** The script, statement by statement, on a data set with a [Label]
    column. *)
Lemma get_data_steps {W} (py : Libraries W) (w w' : W) (df : Pandas.frame)
    (labels : list pyval) :
  read_csv py dataset_url tab quote w = Ok df w' ->
  Pandas.column df "Label" = inr labels ->
  GetData.get_data py w =
  match le_fit py labels with
  | inl e => Raise e w'
  | inr classes =>
      match le_transform py classes labels with
      | inl e => Raise e w'
      | inr y =>
          match train_test_split py
                  (List.filter (fun c => negb (String.eqb c.1 "Label")) df)
                  y (1 # 10)%Q 42 with
          | inl e => Raise e w'
          | inr _ =>
              Ok (<["X" := GetData.DFrame
                             (List.filter (fun c => negb (String.eqb c.1 "Label")) df)]>
                    (<["y" := GetData.DArray y]> ∅)) w'
          end
      end
  end.
Proof.
  intros Hread Hlabel. unfold GetData.get_data.
  unfold bind at 1. rewrite Hread.
  rewrite bind_lift, Hlabel, bind_lift.
  destruct (le_fit py labels) as [e|classes]; [reflexivity|].
  rewrite bind_lift, bind_lift.
  destruct (le_transform py classes labels) as [e|y]; [reflexivity|].
  rewrite bind_lift, (drop_present df "Label" labels Hlabel), bind_lift.
  destruct (train_test_split py _ y (1 # 10)%Q 42); reflexivity.
Qed.

(** C4: [get_data] returns the whole frame without the [Label] column and
    the encoded whole [Label] column, unless one of its steps raises; the
    parts of the split are not in what is returned.  For every
    implementation of the libraries and every data set [read_csv] fetched
    that has a [Label] column: dropping the column succeeds; the call ends
    with the exception of the encoder or of [train_test_split] if one of
    them raises, and otherwise returns the dictionary with the full frame
    without the column under [X] and the full encoded column under [y],
    whatever parts the split produced.  When the labels are all text the
    encoder does not raise: the classes are the distinct labels in ascending
    order and every label is encoded as its position among them. *)
Theorem get_data_returns_full_data {W} (py : Libraries W) (w w' : W)
    (df : Pandas.frame) (labels : list pyval) :
  read_csv py dataset_url tab quote w = Ok df w' ->
  Pandas.column df "Label" = inr labels ->
  let X := List.filter (fun c => negb (String.eqb c.1 "Label")) df in
  Pandas.drop df "Label" = inr X
  /\ GetData.get_data py w
     = match le_fit py labels with
       | inl e => Raise e w'
       | inr classes =>
           match le_transform py classes labels with
           | inl e => Raise e w'
           | inr y =>
               match train_test_split py X y (1 # 10)%Q 42 with
               | inl e => Raise e w'
               | inr _ =>
                   Ok (<["X" := GetData.DFrame X]> (<["y" := GetData.DArray y]> ∅)) w'
               end
           end
       end
  /\ (forall labels' : list string,
        labels = VStr <$> labels' ->
        exists classes y,
          le_fit py labels = inr (VStr <$> classes)
          /\ le_transform py (VStr <$> classes) labels = inr y
          /\ Sorted String.le classes
          /\ NoDup classes
          /\ (forall v, v ∈ classes <-> v ∈ labels')
          /\ Forall2 (fun v c => 0 <= c /\ classes !! Z.to_nat c = Some v) labels' y
          /\ GetData.get_data py w
             = match train_test_split py X y (1 # 10)%Q 42 with
               | inl e => Raise e w'
               | inr _ =>
                   Ok (<["X" := GetData.DFrame X]> (<["y" := GetData.DArray y]> ∅)) w'
               end).
Proof.
  intros Hread Hlabel X.
  split; [eapply drop_present; exact Hlabel|].
  split; [apply get_data_steps; assumption|].
  intros labels' ->.
  destruct (encode_texts py labels') as (classes & y & Hfit & Hy & Hs & Hn & Hin & Hc).
  exists classes, y. repeat (split; [assumption|]).
  rewrite (get_data_steps py w w' df _ Hread Hlabel), Hfit, Hy. reflexivity.
Qed.

(** * The label encoder of [get_data.py] and of the test cell *)

Lemma np_unique_strongly_sorted (values : list string) :
  StronglySorted String.le (Sklearn.np_unique values).
Proof. apply StronglySorted_merge_sort; apply _. Qed.

(** In a sorted list without repetition the order of two elements is the
    order of their positions. *)
Lemma sorted_positions (classes : list string) (i j : nat) (a b : string) :
  StronglySorted String.le classes -> NoDup classes ->
  classes !! i = Some a -> classes !! j = Some b ->
  ((i <= j)%nat <-> String.le a b).
Proof.
  intros Hsorted Hnodup Hi Hj.
  assert (forall i j a b, classes !! i = Some a -> classes !! j = Some b ->
                          (i < j)%nat -> String.le a b) as Hup.
  { clear i j a b Hi Hj. intros i j a b Hi Hj Hlt.
    destruct (take_drop_middle classes i a Hi) as [].
    rewrite <- (take_drop_middle classes i a Hi) in Hsorted, Hj.
    apply StronglySorted_app in Hsorted as (_ & _ & Htail).
    apply StronglySorted_cons in Htail as (Hall & _).
    rewrite Forall_forall in Hall. apply Hall.
    rewrite lookup_app_r in Hj by (rewrite length_take; lia).
    rewrite length_take in Hj.
    assert (length classes > i)%nat by (apply lookup_lt_Some in Hi; lia).
    replace (j - i `min` length classes)%nat with (S (j - i - 1)) in Hj by lia.
    simpl in Hj. apply list_elem_of_lookup. eexists. exact Hj. }
  split.
  - intros Hle. destruct (decide (i = j)) as [->|Hne].
    + rewrite Hi in Hj. injection Hj as ->. reflexivity.
    + apply (Hup i j); [assumption..|lia].
  - intros Hab. destruct (decide (i <= j)%nat) as [|Hgt]; [assumption|].
    assert (String.le b a) as Hba by (apply (Hup j i); [assumption..|lia]).
    assert (a = b) as -> by (apply (anti_symm String.le); assumption).
    assert (i = j) by (eapply NoDup_lookup; eassumption). lia.
Qed.

Lemma encode1_ok (classes : list string) (v : string) (c : Z) :
  Sklearn.encode1 classes v = inr c ->
  0 <= c < Z.of_nat (length classes) /\ classes !! Z.to_nat c = Some v.
Proof.
  unfold Sklearn.encode1.
  destruct (list_find (fun x => x = v) classes) as [[i x]|] eqn:Hfind; [|discriminate].
  intros H. injection H as <-. apply list_find_Some in Hfind as (Hi & -> & _).
  rewrite Nat2Z.id. split; [|exact Hi]. apply lookup_lt_Some in Hi. lia.
Qed.

Lemma decode1_ok (classes : list string) (v : string) (c : Z) :
  Sklearn.decode1 classes c = inr v <->
  0 <= c /\ classes !! Z.to_nat c = Some v.
Proof.
  unfold Sklearn.decode1. destruct (Z.ltb_spec c 0).
  - split; [discriminate | intros [? _]; lia].
  - destruct (classes !! Z.to_nat c) as [x|].
    + split; [intros [= ->]; split; [lia | reflexivity]|].
      intros [_ [= ->]]. reflexivity.
    + split; [discriminate | intros [_ ?]; discriminate].
Qed.

(** A code that was given to a label decodes to the label. *)
Lemma inverse_of_transform (classes values : list string) (codes : list Z) :
  Sklearn.LabelEncoder_transform classes values = inr codes ->
  Sklearn.LabelEncoder_inverse_transform classes codes = inr values.
Proof.
  revert codes. induction values as [|v values IH]; intros codes H; simpl in H.
  - injection H as <-. reflexivity.
  - destruct (Sklearn.encode1 classes v) as [|c] eqn:Hc; [discriminate|].
    destruct (Sklearn.LabelEncoder_transform classes values) as [|cs]; [discriminate|].
    injection H as <-. simpl.
    apply encode1_ok in Hc as ([Hc0 _] & Hc).
    rewrite (proj2 (decode1_ok classes v c) (conj Hc0 Hc)).
    rewrite (IH cs eq_refl). reflexivity.
Qed.

(** Among classes without repetition, a label that a code stands for is
    given that code. *)
Lemma transform_of_inverse (classes labels : list string) (codes : list Z) :
  NoDup classes ->
  Sklearn.LabelEncoder_inverse_transform classes codes = inr labels ->
  Sklearn.LabelEncoder_transform classes labels = inr codes.
Proof.
  intros Hnodup. revert labels.
  induction codes as [|c codes IH]; intros labels H; simpl in H.
  - injection H as <-. reflexivity.
  - destruct (Sklearn.decode1 classes c) as [|v] eqn:Hv; [discriminate|].
    destruct (Sklearn.LabelEncoder_inverse_transform classes codes) as [|vs];
      [discriminate|].
    injection H as <-. simpl. rewrite (IH vs eq_refl).
    apply decode1_ok in Hv as (Hc0 & Hv).
    unfold Sklearn.encode1.
    destruct (list_find (fun x => x = v) classes) as [[i x]|] eqn:Hfind.
    + apply list_find_Some in Hfind as (Hi & -> & _).
      assert (i = Z.to_nat c) as -> by (eapply NoDup_lookup; eassumption).
      rewrite Z2Nat.id by lia. reflexivity.
    + apply list_find_None in Hfind. rewrite Forall_forall in Hfind.
      exfalso. apply (Hfind v); [|reflexivity].
      apply list_elem_of_lookup. eexists. exact Hv.
Qed.

(** X1: the encoder fitted on a column gives the column back.  For every
    column of labels, [le.transform] on the column the encoder was fitted on
    returns one code per label, and [le.inverse_transform] on these codes
    returns the labels of the column, in order. *)
Theorem label_encoder_round_trip (values : list string) :
  exists codes,
    Sklearn.LabelEncoder_transform (Sklearn.LabelEncoder_fit values) values = inr codes
    /\ length codes = length values
    /\ Sklearn.LabelEncoder_inverse_transform (Sklearn.LabelEncoder_fit values) codes
       = inr values.
Proof.
  destruct (transform_fit values) as (codes & Hcodes & Hall).
  exists codes. split; [exact Hcodes|]. split.
  - symmetry. eapply Forall2_length. exact Hall.
  - apply inverse_of_transform. exact Hcodes.
Qed.

(** X2: decoding checks the bounds, and what it decodes encodes back.  For
    the encoder fitted on any column: [le.inverse_transform] returns exactly
    when every code is a position among the classes, from 0 up to the number
    of classes; it raises [ValueError] otherwise; and the labels it returns
    are encoded back to the same codes by [le.transform]. *)
Theorem label_decoding_bounds (values : list string) (codes : list Z) :
  let classes := Sklearn.LabelEncoder_fit values in
  ((exists labels, Sklearn.LabelEncoder_inverse_transform classes codes = inr labels)
   <-> Forall (fun c => 0 <= c < Z.of_nat (length classes)) codes)
  /\ (forall e, Sklearn.LabelEncoder_inverse_transform classes codes = inl e ->
        e = ValueError "unseen label")
  /\ (forall labels,
        Sklearn.LabelEncoder_inverse_transform classes codes = inr labels ->
        Sklearn.LabelEncoder_transform classes labels = inr codes).
Proof.
  intros classes. split; [|split].
  - induction codes as [|c codes IH]; simpl.
    + split; [constructor | intros _; eexists; reflexivity].
    + split.
      * intros (labels & H).
        destruct (Sklearn.decode1 classes c) as [|v] eqn:Hv; [discriminate|].
        destruct (Sklearn.LabelEncoder_inverse_transform classes codes) as [|vs];
          [discriminate|].
        apply decode1_ok in Hv as (Hc0 & Hv). apply lookup_lt_Some in Hv.
        constructor; [lia|]. apply IH. eexists. reflexivity.
      * intros H. apply Forall_cons in H as (Hc & Hrest).
        apply IH in Hrest as (vs & ->).
        destruct (lookup_lt_is_Some_2 classes (Z.to_nat c)) as (v & Hv); [lia|].
        rewrite (proj2 (decode1_ok classes v c) (conj (proj1 Hc) Hv)).
        eexists. reflexivity.
  - induction codes as [|c codes IH]; simpl; [discriminate|].
    intros e H. unfold Sklearn.decode1 in H.
    destruct (c <? 0); [injection H as <-; reflexivity|].
    destruct (classes !! Z.to_nat c); [|injection H as <-; reflexivity].
    destruct (Sklearn.LabelEncoder_inverse_transform classes codes) as [e'|];
      [|discriminate].
    injection H as <-. apply IH. reflexivity.
  - intros labels. apply transform_of_inverse, np_unique_NoDup.
Qed.

(** X3: the codes tell the labels apart and keep their order.  For two labels
    of the column the encoder was fitted on: each has a code, the codes are
    positions among the classes, of which there are no more than labels in
    the column; the codes are equal exactly when the labels are; and the
    codes are ordered as the labels are. *)
Theorem label_codes_order (values : list string) (a b : string) :
  a ∈ values -> b ∈ values ->
  exists ca cb,
    Sklearn.encode1 (Sklearn.LabelEncoder_fit values) a = inr ca
    /\ Sklearn.encode1 (Sklearn.LabelEncoder_fit values) b = inr cb
    /\ 0 <= ca < Z.of_nat (length (Sklearn.LabelEncoder_fit values))
    /\ 0 <= cb < Z.of_nat (length (Sklearn.LabelEncoder_fit values))
    /\ (length (Sklearn.LabelEncoder_fit values) <= length values)%nat
    /\ (ca = cb <-> a = b)
    /\ (ca <= cb <-> String.le a b).
Proof.
  intros Ha Hb. set (classes := Sklearn.LabelEncoder_fit values).
  destruct (encode1_seen classes a) as (ca & Hca & _);
    [apply np_unique_elem_of; exact Ha|].
  destruct (encode1_seen classes b) as (cb & Hcb & _);
    [apply np_unique_elem_of; exact Hb|].
  exists ca, cb. split; [exact Hca|]. split; [exact Hcb|].
  apply encode1_ok in Hca as (Hra & Hla). apply encode1_ok in Hcb as (Hrb & Hlb).
  split; [exact Hra|]. split; [exact Hrb|].
  split.
  { apply submseteq_length, NoDup_submseteq; [apply np_unique_NoDup|].
    intros x. apply np_unique_elem_of. }
  split.
  - split; [intros ->; congruence|].
    intros ->. assert (Z.to_nat ca = Z.to_nat cb)
      by (eapply NoDup_lookup; [apply np_unique_NoDup|eassumption..]). lia.
  - rewrite <- (sorted_positions classes (Z.to_nat ca) (Z.to_nat cb) a b
                  (np_unique_strongly_sorted values) (np_unique_NoDup values) Hla Hlb).
    lia.
Qed.

(** X4: the classes depend on the set of the labels only.  Two columns with
    the same labels, in whatever order and however often, are fitted to the
    same classes, so that the script run remotely and the test cell run
    locally encode alike. *)
Theorem label_classes_of_same_labels (values1 values2 : list string) :
  (forall v, v ∈ values1 <-> v ∈ values2) ->
  Sklearn.LabelEncoder_fit values1 = Sklearn.LabelEncoder_fit values2.
Proof.
  intros Hsame. unfold Sklearn.LabelEncoder_fit.
  apply (Sorted_unique String.le); [apply np_unique_sorted..|].
  apply NoDup_Permutation; [apply np_unique_NoDup..|].
  intros v. rewrite !np_unique_elem_of. apply Hsame.
Qed.

(** * The remote-execution notebook, cell by cell *)

(** Reads through the assignments made before a variable is read. *)
Ltac look :=
  repeat first
    [ rewrite lookup_insert_eq
    | rewrite lookup_insert_ne by discriminate ].

Ltac look_in H :=
  repeat first
    [ rewrite lookup_insert_eq in H
    | rewrite lookup_insert_ne in H by discriminate ].


(** The settings cell on a kernel that holds the project folder and the
    compute target. *)
Lemma cell_automl_config_run {C} (k : kernel C) (folder : string)
    (target : ComputeTarget) :
  vars k !! "project_folder" = Some (OVal (VStr folder)) ->
  vars k !! "dsvm_compute" = Some (OCompute target) ->
  RemoteExecution.cell_automl_config k
  = Ok tt (Kernel
             (<["automl_config" :=
                  OConfig (AutoMLConfig.mk "classification" folder target
                             (folder ++ "/get_data.py")
                             RemoteExecution.automl_settings)]>
                (<["automl_settings" := OVal (VDict RemoteExecution.automl_settings)]>
                   (vars k)))
             (disk k) (cloud k) (calls k)).
Proof.
  intros Hf Ht. unfold RemoteExecution.cell_automl_config. open_cell.
  repeat first [step | progress look | rewrite Hf | rewrite Ht].
  reflexivity.
Qed.

(** X5: what the settings cell builds, and what it needs.  On a kernel
    that holds the project folder and the compute target the cell returns,
    and [automl_config] is the classification task on that folder and
    target, with the data script [get_data.py] of the folder and the
    settings of the cell as its other options.  Without [project_folder],
    or with it but without [dsvm_compute], the cell raises [NameError] for
    that name; the settings are assigned by then, the configuration is
    not. *)
Theorem automl_config_outcomes {C} (k : kernel C) :
  let k1 :=
    Kernel (<["automl_settings" := OVal (VDict RemoteExecution.automl_settings)]>
              (vars k)) (disk k) (cloud k) (calls k) in
  (forall folder target,
     vars k !! "project_folder" = Some (OVal (VStr folder)) ->
     vars k !! "dsvm_compute" = Some (OCompute target) ->
     RemoteExecution.cell_automl_config k
     = Ok tt (Kernel
                (<["automl_config" :=
                     OConfig (AutoMLConfig.mk "classification" folder target
                                (folder ++ "/get_data.py")
                                RemoteExecution.automl_settings)]> (vars k1))
                (disk k) (cloud k) (calls k)))
  /\ (vars k !! "project_folder" = None ->
      RemoteExecution.cell_automl_config k = Raise (NameError "project_folder") k1)
  /\ (forall folder,
        vars k !! "project_folder" = Some (OVal (VStr folder)) ->
        vars k !! "dsvm_compute" = None ->
        RemoteExecution.cell_automl_config k = Raise (NameError "dsvm_compute") k1).
Proof.
  intros k1. split; [|split].
  - intros folder target Hf Ht. apply cell_automl_config_run; assumption.
  - intros Hf. unfold RemoteExecution.cell_automl_config. open_cell.
    repeat first [step | progress look | rewrite Hf]. reflexivity.
  - intros folder Hf Ht. unfold RemoteExecution.cell_automl_config. open_cell.
    repeat first [step | progress look | rewrite Hf | rewrite Ht]. reflexivity.
Qed.

(** ** The cells that need the submitted run *)

(** X6: the cells that use the submitted run cannot run before the
    submission.  On a kernel in which [remote_run] was never assigned, the
    cell of the run details, the metrics cell, the cancelling cell, the two
    cells that retrieve a model and the registering cell each raise
    [NameError] for [remote_run]; none of them has called the service or
    touched the disk by then. *)
Theorem cells_need_the_run {C} (az : AzureML C) (py : Libraries C) (k : kernel C) :
  vars k !! "remote_run" = None ->
  Forall (fun cell : M (kernel C) unit =>
            exists k', cell k = Raise (NameError "remote_run") k'
                       /\ disk k' = disk k /\ cloud k' = cloud k
                       /\ calls k' = calls k)
    [ RemoteExecution.cell_run_details az; RemoteExecution.cell_children az py;
      RemoteExecution.cell_cancel az; RemoteExecution.cell_best_model az;
      RemoteExecution.cell_iteration_model az;
      RemoteExecution.cell_register_model az ].
Proof.
  intros Hrun.
  repeat apply List.Forall_cons; try apply List.Forall_nil;
    unfold RemoteExecution.cell_run_details, RemoteExecution.cell_children,
      RemoteExecution.cell_cancel, RemoteExecution.cell_best_model,
      RemoteExecution.cell_iteration_model, RemoteExecution.cell_register_model;
    open_cell; repeat step; look; rewrite Hrun;
    eexists; (split; [reflexivity|]); cbn [disk cloud calls]; repeat split.
Qed.

(** ** The two retrieved models *)

(** X7: retrieving the model of an iteration leaves the best model in
    place.  When the cell of the best model and the cell of iteration 0 are
    run in a row on a submitted run, the service is asked twice for the
    output of that run, first without an iteration and then for iteration
    0; [best_run] and [fitted_model] hold the first answer, [zero_run] and
    [zero_model] the second.  If the second request raises, the cell ends
    with that exception and the first answer stays in the two variables. *)
Theorem iteration_model_keeps_best_model {C} (az : AzureML C) (k : kernel C)
    (run : Run) (best : Run * FittedModel) (w1 : C) :
  vars k !! "remote_run" = Some (ORun run) ->
  get_output az run None (cloud k) = Ok best w1 ->
  let v1 := <["iteration" := OVal (VInt 0)]>
              (<["fitted_model" := OModel best.2]>
                 (<["best_run" := ORun best.1]> (vars k))) in
  match get_output az run (Some 0) w1 with
  | Ok zero w2 =>
      run_cells [ RemoteExecution.cell_best_model az;
                  RemoteExecution.cell_iteration_model az ] k
      = Ok tt (Kernel (<["zero_model" := OModel zero.2]>
                         (<["zero_run" := ORun zero.1]> v1))
                 (disk k) w2
                 (calls k ++ [ (CallGetOutput run None, None);
                               (CallGetOutput run (Some 0), None) ]))
  | Raise e w2 =>
      run_cells [ RemoteExecution.cell_best_model az;
                  RemoteExecution.cell_iteration_model az ] k
      = Raise e (Kernel v1 (disk k) w2
                   (calls k ++ [ (CallGetOutput run None, None);
                                 (CallGetOutput run (Some 0), Some e) ]))
  end.
Proof.
  intros Hrun Hbest v1. unfold run_cells.
  assert (RemoteExecution.cell_best_model az k
          = Ok tt (Kernel (<["fitted_model" := OModel best.2]>
                             (<["best_run" := ORun best.1]> (vars k)))
                     (disk k) w1 (calls k ++ [(CallGetOutput run None, None)])))
    as Hfirst.
  { unfold RemoteExecution.cell_best_model. open_cell.
    repeat step. rewrite Hrun. repeat step. rewrite Hbest. repeat step.
    reflexivity. }
  rewrite for_each_cons, Hfirst, for_each_cons.
  match goal with
  | |- context [RemoteExecution.cell_iteration_model az ?k1] =>
      assert (RemoteExecution.cell_iteration_model az k1
              = match get_output az run (Some 0) w1 with
                | Ok zero w2 =>
                    Ok tt (Kernel (<["zero_model" := OModel zero.2]>
                                     (<["zero_run" := ORun zero.1]> v1))
                             (disk k) w2
                             ((calls k ++ [(CallGetOutput run None, None)])
                              ++ [(CallGetOutput run (Some 0), None)]))
                | Raise e w2 =>
                    Raise e (Kernel v1 (disk k) w2
                               ((calls k ++ [(CallGetOutput run None, None)])
                                ++ [(CallGetOutput run (Some 0), Some e)]))
                end) as Hsecond
  end.
  { unfold RemoteExecution.cell_iteration_model. open_cell.
    repeat step. look. rewrite Hrun. repeat step. look. repeat step.
    destruct (get_output az run (Some 0) w1) as [zero w2|e w2]; [|reflexivity].
    repeat step. reflexivity. }
  rewrite Hsecond.
  destruct (get_output az run (Some 0) w1) as [zero w2|e w2];
    rewrite <- app_assoc; reflexivity.
Qed.

(** ** The metrics cell at its edges *)

(** X8: a run without children gives an empty table.  When the service
    reports no child run, the metrics cell returns after that one call:
    [children] is the empty list, [metricslist] the empty dictionary and
    [rundata] a table without columns. *)
Theorem metrics_table_without_children {C} (az : AzureML C) (py : Libraries C)
    (k : kernel C)
    (run : Run) (w : C) :
  vars k !! "remote_run" = Some (ORun run) ->
  get_children az run (cloud k) = Ok [] w ->
  RemoteExecution.cell_children az py k
  = Ok tt (Kernel (<["rundata" := OTable [] ∅]>
                     (<["metricslist" := OMetrics ∅]>
                        (<["children" := ORuns []]> (vars k))))
             (disk k) w (calls k ++ [(CallGetChildren run, None)])).
Proof.
  intros Hrun Hch. unfold RemoteExecution.cell_children. open_cell.
  repeat step. rewrite Hrun. repeat step. rewrite Hch. repeat step. look.
  repeat step. simpl (for_each [] _). repeat step. look. repeat step.
  unfold assign, RemoteExecution.DataFrame. rewrite map_to_list_empty.
  reflexivity.
Qed.

(** X9: one pass of the loop over the child runs, by the [iteration]
    property of the run.  Once the service has answered the two requests
    for the properties and the metrics of a child run, the loop body
    returns exactly when the run has an [iteration] property that reads
    as an integer, and then stores the float metrics of the run under that
    integer in [metricslist]; a run without the property makes it raise
    [KeyError] and a property that is no integer [ValueError], in both cases
    after both requests were made and with [metricslist] as it was. *)
Theorem child_run_by_iteration {C} (az : AzureML C) (py : Libraries C)
    (run : Run) (k : kernel C)
    (m : gmap Z (gmap string pyval)) (properties : gmap string string)
    (metrics : gmap string pyval) (w1 w2 : C) :
  vars k !! "metricslist" = Some (OMetrics m) ->
  get_properties az run (cloud k) = Ok properties w1 ->
  get_metrics az run w1 = Ok metrics w2 ->
  let floats := RemoteExecution.float_metrics metrics in
  let k1 :=
    Kernel (<["metrics" := OVal (VDict floats)]>
              (<["properties" := OProperties properties]>
                 (<["run" := ORun run]> (vars k))))
      (disk k) w2
      (calls k ++ [(CallGetProperties run, None); (CallGetMetrics run, None)]) in
  vars k1 !! "metricslist" = Some (OMetrics m)
  /\ RemoteExecution.children_body az py run k
     = match properties !! "iteration" with
       | None => Raise (KeyError "iteration") k1
       | Some iteration =>
           match int_of_str (int_unicode py) iteration with
           | inl _ => Raise (ValueError iteration) k1
           | inr i =>
               Ok tt (Kernel (<["metricslist" := OMetrics (<[i := floats]> m)]> (vars k1))
                        (disk k) w2 (calls k1))
           end
       end.
Proof.
  intros Hm Hp Hg floats k1. split.
  - unfold k1. cbn [vars]. look. exact Hm.
  - unfold RemoteExecution.children_body. open_cell.
    repeat step. rewrite Hp. repeat step. rewrite Hg. repeat step. look.
    rewrite Hm. repeat step. unfold k1. rewrite <- app_assoc. simpl app.
    destruct (properties !! "iteration") as [iteration|]; [|reflexivity].
    repeat step.
    destruct (int_of_str (int_unicode py) iteration) as [e|i] eqn:Hint.
    + apply int_of_str_error in Hint. subst e. reflexivity.
    + reflexivity.
Qed.

(** A pass of the loop that returns made the two requests for its run and
    nothing else. *)
Lemma children_body_calls {C} (az : AzureML C) (py : Libraries C)
    (run : Run) (k k' : kernel C) :
  RemoteExecution.children_body az py run k = Ok tt k' ->
  calls k' = (calls k ++ [(CallGetProperties run, None); (CallGetMetrics run, None)])%list.
Proof.
  unfold RemoteExecution.children_body. open_cell. intros H.
  repeat (step_in H; repeat (case_match; try discriminate)).
  unfold assign in H. injection H as <-. cbn [calls].
  rewrite <- app_assoc. reflexivity.
Qed.

Lemma children_loop_calls {C} (az : AzureML C) (py : Libraries C)
    (runs : list Run) (k k' : kernel C) :
  for_each runs (RemoteExecution.children_body az py) k = Ok tt k' ->
  calls k'
  = (calls k
     ++ flat_map (fun run => [(CallGetProperties run, None); (CallGetMetrics run, None)])
          runs)%list.
Proof.
  revert k. induction runs as [|run runs IH]; intros k H.
  - injection H as <-. simpl. symmetry. apply app_nil_r.
  - rewrite for_each_cons in H.
    destruct (RemoteExecution.children_body az py run k) as [[] k1|e k1] eqn:Hbody;
      [|discriminate].
    apply children_body_calls in Hbody. apply IH in H.
    rewrite H, Hbody, <- app_assoc. reflexivity.
Qed.

(** The table has at most one column for each entry added. *)
Lemma fill_size (entries : list (Z * gmap string pyval))
    (m : gmap Z (gmap string pyval)) :
  (size (fill entries m) <= size m + length entries)%nat.
Proof.
  revert m. induction entries as [|entry entries IH]; intros m.
  - simpl. lia.
  - rewrite fill_cons. etransitivity; [apply IH|]. simpl.
    destruct (m !! entry.1) eqn:Hl.
    + rewrite map_size_insert_Some by (eexists; exact Hl). lia.
    + rewrite map_size_insert_None by exact Hl. lia.
Qed.

(** The metrics cell that returns, up to its loop. *)
Lemma cell_children_run {C} (az : AzureML C) (py : Libraries C) (k k' : kernel C) :
  RemoteExecution.cell_children az py k = Ok tt k' ->
  exists run children w k2 m,
    vars k !! "remote_run" = Some (ORun run)
    /\ get_children az run (cloud k) = Ok children w
    /\ for_each children (RemoteExecution.children_body az py)
         (Kernel (<["metricslist" := OMetrics ∅]>
                    (<["children" := ORuns children]> (vars k)))
            (disk k) w (calls k ++ [(CallGetChildren run, None)]))
       = Ok tt k2
    /\ vars k2 !! "metricslist" = Some (OMetrics m)
    /\ k' = Kernel (<["rundata" := RemoteExecution.sort_index_1
                                   (RemoteExecution.DataFrame m)]> (vars k2))
              (disk k2) (cloud k2) (calls k2).
Proof.
  unfold RemoteExecution.cell_children. open_cell. intros H.
  do 2 step_in H. destruct (vars k !! "remote_run") as [[]|] eqn:Hrun;
    try discriminate.
  do 2 step_in H.
  destruct (get_children az r (cloud k)) as [children w|] eqn:Hch; [|discriminate].
  do 4 step_in H. rewrite lookup_insert_ne, lookup_insert_eq in H by discriminate.
  step_in H.
  match type of H with
  | bind (for_each _ _) _ ?k1 = _ =>
      unfold bind in H;
      destruct (for_each children (RemoteExecution.children_body az py) k1)
        as [[] k2|e k2] eqn:Hloop; [|discriminate]
  end.
  unfold load in H.
  destruct (vars k2 !! "metricslist") as [[]|] eqn:Hm; try discriminate.
  unfold ret, assign in H. injection H as <-.
  exists r, children, w, k2, m. repeat split; assumption.
Qed.

(** X10: what the metrics cell asks of the service.  A run of the metrics
    cell that returns has asked for the children of the submitted run and
    then, child by child in the order the service listed them, for the
    properties and the metrics of the child: one request and two per child,
    all answered, none else.  The table [rundata] has at most as many
    columns as the run has children. *)
Theorem metrics_cell_requests {C} (az : AzureML C) (py : Libraries C) (k k' : kernel C) :
  RemoteExecution.cell_children az py k = Ok tt k' ->
  exists run children w columns table,
    vars k !! "remote_run" = Some (ORun run)
    /\ get_children az run (cloud k) = Ok children w
    /\ calls k'
       = (calls k
          ++ (CallGetChildren run, None)
             :: flat_map (fun child => [ (CallGetProperties child, None);
                                         (CallGetMetrics child, None) ])
                  children)%list
    /\ vars k' !! "rundata" = Some (OTable columns table)
    /\ (length columns <= length children)%nat.
Proof.
  intros H.
  destruct (cell_children_run az py k k' H)
    as (run & children & w & k2 & m & Hrun & Hch & Hloop & Hm & ->).
  pose proof (children_loop_calls az py children _ k2 Hloop) as Hcalls.
  destruct (children_loop_ok az py children _ k2 ∅ (lookup_insert_eq _ _ _) Hloop)
    as (entries & Hall & Hm').
  rewrite Hm in Hm'. injection Hm' as ->.
  exists run, children, w,
    (merge_sort Z.le (map fst (map_to_list (fill entries ∅)))), (fill entries ∅).
  split; [exact Hrun|]. split; [exact Hch|]. split; [|split].
  - cbn [calls]. rewrite Hcalls. cbn [calls]. rewrite <- app_assoc. reflexivity.
  - cbn [vars]. apply lookup_insert_eq.
  - rewrite merge_sort_Permutation, length_map, length_map_to_list.
    pose proof (fill_size entries ∅) as Hsize. rewrite map_size_empty in Hsize.
    rewrite (Forall2_length _ _ _ Hall). exact Hsize.
Qed.

(** X11: a metrics cell that fails leaves the table of an earlier run in
    place.  [rundata] is assigned last, and only from a loop that went
    through every child: a run of the cell that raises, for whatever reason,
    ends with [rundata] holding what it held before, assigned or not. *)
Theorem failed_metrics_cell_keeps_table {C} (az : AzureML C) (py : Libraries C)
    (k k' : kernel C)
    (e : exn) :
  RemoteExecution.cell_children az py k = Raise e k' ->
  vars k' !! "rundata" = vars k !! "rundata".
Proof.
  unfold RemoteExecution.cell_children. open_cell. intros H.
  do 2 step_in H.
  destruct (vars k !! "remote_run") as [[]|] eqn:Hrun;
    try (injection H as _ <-; reflexivity).
  do 2 step_in H.
  destruct (get_children az r (cloud k)) as [children w|e0 w] eqn:Hch;
    [|injection H as _ <-; reflexivity].
  do 4 step_in H. rewrite lookup_insert_ne, lookup_insert_eq in H by discriminate.
  step_in H.
  match type of H with
  | bind (for_each _ _) _ ?k1 = _ =>
      assert (respects (same_var "rundata")
                (for_each children (RemoteExecution.children_body az py))) as Hvar
        by (unfold RemoteExecution.children_body; open_cell; walk);
      specialize (Hvar k1);
      unfold bind in H;
      destruct (for_each children (RemoteExecution.children_body az py) k1)
        as [[] k2|e2 k2] eqn:Hloop
  end;
    unfold same_var in Hvar; cbn [final vars] in Hvar;
    rewrite !lookup_insert_ne in Hvar by discriminate.
  - unfold load in H.
    destruct (vars k2 !! "metricslist") as [[]|] eqn:Hm;
      try (injection H as _ <-; assumption).
    discriminate.
  - injection H as _ <-. assumption.
Qed.

(** ** From the compute target to the submission *)

(** The attaching cell when the service accepts the VM. *)
Lemma cell_attach_run {C} (az : AzureML C) (k : kernel C) (ws : Workspace.t)
    (name address username password : string) (target : ComputeTarget) (w : C) :
  vars k !! "ws" = Some (OWorkspace ws) ->
  RemoteCompute_attach az ws name address username password 22 (cloud k) = Ok target w ->
  RemoteExecution.cell_attach az name address username password k
  = Ok tt (Kernel (<["dsvm_compute" := OCompute target]>
                     (<["dsvm_password" := OVal (VStr password)]>
                        (<["dsvm_username" := OVal (VStr username)]>
                           (<["dsvm_ip_addr" := OVal (VStr address)]>
                              (<["dsvm_name" := OVal (VStr name)]> (vars k))))))
             (disk k) w
             (calls k ++ [(CallAttach ws name address username password 22, None)])).
Proof.
  intros Hws Hattach. unfold RemoteExecution.cell_attach. open_cell.
  repeat step. look. rewrite Hws. repeat step. look. repeat step. look.
  repeat step. look. repeat step. look. repeat step. rewrite Hattach.
  repeat step. reflexivity.
Qed.

(** The submission cell, by what the service answers. *)
Lemma cell_submit_run {C} (az : AzureML C) (k : kernel C)
    (experiment : Experiment.t) (config : AutoMLConfig.t) :
  vars k !! "experiment" = Some (OExperiment experiment) ->
  vars k !! "automl_config" = Some (OConfig config) ->
  RemoteExecution.cell_submit az k
  = match submit az experiment config (cloud k) with
    | Ok run w =>
        Ok tt (Kernel (<["remote_run" := ORun run]> (vars k)) (disk k) w
                 (calls k ++ [(CallSubmit experiment config, None)]))
    | Raise e w =>
        Raise e (Kernel (vars k) (disk k) w
                   (calls k ++ [(CallSubmit experiment config, Some e)]))
    end.
Proof.
  intros He Hc. unfold RemoteExecution.cell_submit. open_cell.
  repeat step. rewrite He. repeat step. rewrite Hc. repeat step.
  destruct (submit az experiment config (cloud k)); reflexivity.
Qed.

(** X12: what is submitted is the configuration built on the attached
    target.  On a kernel that holds the workspace, the project folder and
    the experiment, when the service accepts the VM, the three cells that
    attach the VM, build the configuration and submit it make two requests:
    the attachment of the VM on port 22 with the four values of the user,
    and the submission, to the experiment, of the classification task on
    the project folder with the compute target the attachment returned, the
    script [get_data.py] of the folder and the settings of the settings
    cell.  If the submission returns, [remote_run] holds the run it
    returned; if it raises, the cells end with its exception and
    [remote_run] holds what it held. *)
Theorem submission_uses_attached_target {C} (az : AzureML C) (k : kernel C)
    (ws : Workspace.t) (folder : string) (experiment : Experiment.t)
    (name address username password : string) (target : ComputeTarget) (w1 : C) :
  vars k !! "ws" = Some (OWorkspace ws) ->
  vars k !! "project_folder" = Some (OVal (VStr folder)) ->
  vars k !! "experiment" = Some (OExperiment experiment) ->
  RemoteCompute_attach az ws name address username password 22 (cloud k) = Ok target w1 ->
  let config :=
    AutoMLConfig.mk "classification" folder target (folder ++ "/get_data.py")
      RemoteExecution.automl_settings in
  let cells :=
    [ RemoteExecution.cell_attach az name address username password;
      RemoteExecution.cell_automl_config;
      RemoteExecution.cell_submit az ] in
  vars (final (run_cells cells k)) !! "dsvm_compute" = Some (OCompute target)
  /\ vars (final (run_cells cells k)) !! "automl_config" = Some (OConfig config)
  /\ match submit az experiment config w1 with
     | Ok run w2 =>
         (exists k', run_cells cells k = Ok tt k')
         /\ vars (final (run_cells cells k)) !! "remote_run" = Some (ORun run)
         /\ cloud (final (run_cells cells k)) = w2
         /\ calls (final (run_cells cells k))
            = (calls k
               ++ [ (CallAttach ws name address username password 22, None);
                    (CallSubmit experiment config, None) ])%list
     | Raise e w2 =>
         (exists k', run_cells cells k = Raise e k')
         /\ vars (final (run_cells cells k)) !! "remote_run" = vars k !! "remote_run"
         /\ cloud (final (run_cells cells k)) = w2
         /\ calls (final (run_cells cells k))
            = (calls k
               ++ [ (CallAttach ws name address username password 22, None);
                    (CallSubmit experiment config, Some e) ])%list
     end.
Proof.
  intros Hws Hfolder Hexp Hattach config cells. unfold cells, run_cells.
  rewrite for_each_cons, (cell_attach_run az k ws _ _ _ _ target w1 Hws Hattach).
  rewrite for_each_cons.
  rewrite (cell_automl_config_run _ folder target)
    by (cbn [vars]; look; first [exact Hfolder | reflexivity]).
  cbn [vars disk cloud calls]. rewrite for_each_cons.
  rewrite (cell_submit_run az _ experiment config)
    by (cbn [vars]; look; first [exact Hexp | reflexivity]).
  cbn [vars disk cloud calls]. fold config.
  destruct (submit az experiment config w1) as [run w2|e w2];
    cbn [for_each ret final vars cloud calls]; look;
    (split; [reflexivity|]); (split; [reflexivity|]);
    (split; [eexists; reflexivity|]); (split; [reflexivity|]);
    (split; [reflexivity|]); rewrite <- app_assoc; reflexivity.
Qed.

(** * The data of the script and of the test cell *)

(** The script on a data set the libraries accept. *)
Lemma get_data_run {W} (py : Libraries W) (w w' : W) (df X : Pandas.frame)
    (labels classes : list pyval) (y : list Z)
    (parts : Pandas.frame * Pandas.frame * list Z * list Z) :
  read_csv py dataset_url tab quote w = Ok df w' ->
  Pandas.column df "Label" = inr labels ->
  le_fit py labels = inr classes ->
  le_transform py classes labels = inr y ->
  Pandas.drop df "Label" = inr X ->
  train_test_split py X y (1 # 10)%Q 42 = inr parts ->
  GetData.get_data py w
  = Ok (<["X" := GetData.DFrame X]> (<["y" := GetData.DArray y]> ∅)) w'.
Proof.
  intros Hread Hlabel Hfit Hy Hdrop Hsplit.
  rewrite (drop_present df "Label" labels Hlabel) in Hdrop. injection Hdrop as <-.
  rewrite (get_data_steps py w w' df labels Hread Hlabel), Hfit, Hy, Hsplit.
  reflexivity.
Qed.

(** A run of the test cell that returns, step by step. *)
Lemma cell_test_model_run {C} (py : Libraries C) (k k' : kernel C) :
  RemoteExecution.cell_test_model py k = Ok tt k' ->
  exists df w labels classes y X parts model ypred ypred_strings ytest_strings cm,
    read_csv py dataset_url tab quote (cloud k) = Ok df w
    /\ Pandas.column df "Label" = inr labels
    /\ le_fit py labels = inr classes
    /\ le_transform py classes labels = inr y
    /\ Pandas.drop df "Label" = inr X
    /\ train_test_split py X y (1 # 10)%Q 42 = inr parts
    /\ vars k !! "fitted_model" = Some (OModel model)
    /\ predict py model parts.1.1.2 = inr ypred
    /\ le_inverse_transform py classes ypred = inr ypred_strings
    /\ le_inverse_transform py classes parts.2 = inr ytest_strings
    /\ ConfusionMatrix py ytest_strings ypred_strings = inr cm
    /\ k' = Kernel
              (<["cm" := OConfusion cm]>
                 (<["ytest_strings" := OLabels ytest_strings]>
                    (<["ypred_strings" := OLabels ypred_strings]>
                       (<["ypred" := OCodes ypred]>
                          (<["y_test" := OCodes parts.2]>
                             (<["_" := OCodes parts.1.2]>
                                (<["df_test" := OFrame parts.1.1.2]>
                                   (<["_" := OFrame parts.1.1.1]>
                                      (<["df" := OFrame X]>
                                         (<["y" := OCodes y]>
                                            (<["le" := OEncoder (Some classes)]>
                                               (<["le" := OEncoder None]>
                                                  (<["df" := OFrame df]> (vars k))))))))))))))
              (disk k) w (calls k).
Proof.
  unfold RemoteExecution.cell_test_model. open_cell. intros H.
  repeat (step_in H; look_in H; repeat (case_match; try discriminate)).
  unfold assign in H. injection H as <-. simplify_eq.
  do 12 eexists. repeat split; first [eassumption | reflexivity].
Qed.

(** Codes that decode are positions among the classes, label by label. *)
Lemma inverse_transform_ok (classes labels : list string) (codes : list Z) :
  Sklearn.LabelEncoder_inverse_transform classes codes = inr labels ->
  Forall2 (fun c v => 0 <= c /\ classes !! Z.to_nat c = Some v) codes labels.
Proof.
  revert labels. induction codes as [|c codes IH]; intros labels H; simpl in H.
  - injection H as <-. constructor.
  - destruct (Sklearn.decode1 classes c) as [|v] eqn:Hv; [discriminate|].
    destruct (Sklearn.LabelEncoder_inverse_transform classes codes) as [|vs];
      [discriminate|].
    injection H as <-. constructor; [|apply IH; reflexivity].
    apply decode1_ok. exact Hv.
Qed.

(** Decoding with classes that are all text gives text, the label at the
    position of each code. *)
Lemma le_inverse_transform_ok {W} (py : Libraries W) (classes : list string)
    (codes : list Z) (decoded : list pyval) :
  le_inverse_transform py (VStr <$> classes) codes = inr decoded ->
  exists labels,
    decoded = VStr <$> labels
    /\ Forall2 (fun c v => 0 <= c /\ classes !! Z.to_nat c = Some v) codes labels.
Proof.
  rewrite le_inverse_transform_texts.
  destruct (Sklearn.LabelEncoder_inverse_transform classes codes) as [|labels] eqn:H;
    [discriminate|].
  intros [= <-]. exists labels. split; [reflexivity|].
  apply inverse_transform_ok. exact H.
Qed.

(** X13: the model is tried on the data of the script.  A run of the test
    cell that returns has read, encoded and split the data exactly as
    [get_data] does: on the same state of the network [get_data] returns,
    and the frame and the codes it returns under [X] and [y] are what the
    cell holds in [df] and [y]; the test part [df_test], [y_test] is the
    second and the fourth part of the seeded split of these two, and
    [ypred] is the prediction of the model in [fitted_model] on
    [df_test]. *)
Theorem test_cell_uses_the_script_data {C} (py : Libraries C) (k k' : kernel C) :
  RemoteExecution.cell_test_model py k = Ok tt k' ->
  exists X y parts model ypred,
    GetData.get_data py (cloud k)
    = Ok (<["X" := GetData.DFrame X]> (<["y" := GetData.DArray y]> ∅)) (cloud k')
    /\ vars k' !! "df" = Some (OFrame X)
    /\ vars k' !! "y" = Some (OCodes y)
    /\ train_test_split py X y (1 # 10)%Q 42 = inr parts
    /\ vars k' !! "df_test" = Some (OFrame parts.1.1.2)
    /\ vars k' !! "y_test" = Some (OCodes parts.2)
    /\ vars k !! "fitted_model" = Some (OModel model)
    /\ predict py model parts.1.1.2 = inr ypred
    /\ vars k' !! "ypred" = Some (OCodes ypred).
Proof.
  intros H.
  destruct (cell_test_model_run py k k' H)
    as (df & w & labels & classes & y & X & parts & model & ypred & ypred_strings
        & ytest_strings & cm & Hread & Hlabel & Hfit & Hy & Hdrop & Hsplit & Hmodel
        & Hpred & _ & _ & _ & ->).
  exists X, y, parts, model, ypred. cbn [vars cloud]. look.
  repeat split; try assumption; try reflexivity.
  eapply get_data_run; eassumption.
Qed.

(** X14: on a data set with text labels the confusion matrix is over labels
    of the data set.  In a run of the test cell that returns, on a data set
    whose [Label] column is all text: the encoder [le] holds the distinct
    labels of the column in ascending order; the predicted and the actual
    codes all decode, [ypred_strings] and [ytest_strings] having one label
    for each code of [ypred] and of [y_test], the class at the position of
    the code; so every label the confusion matrix [cm] is built from occurs
    in that column. *)
Theorem test_cell_decodes_to_labels {C} (py : Libraries C) (k k' : kernel C)
    (df : Pandas.frame) (w : C) (labels : list string) :
  RemoteExecution.cell_test_model py k = Ok tt k' ->
  read_csv py dataset_url tab quote (cloud k) = Ok df w ->
  Pandas.column df "Label" = inr (VStr <$> labels) ->
  exists classes ypred y_test ypred_strings ytest_strings cm,
    Sorted String.le classes
    /\ NoDup classes
    /\ (forall v, v ∈ classes <-> v ∈ labels)
    /\ vars k' !! "le" = Some (OEncoder (Some (VStr <$> classes)))
    /\ vars k' !! "ypred" = Some (OCodes ypred)
    /\ vars k' !! "y_test" = Some (OCodes y_test)
    /\ vars k' !! "ypred_strings" = Some (OLabels (VStr <$> ypred_strings))
    /\ vars k' !! "ytest_strings" = Some (OLabels (VStr <$> ytest_strings))
    /\ Forall2 (fun c v => 0 <= c /\ classes !! Z.to_nat c = Some v) ypred ypred_strings
    /\ Forall2 (fun c v => 0 <= c /\ classes !! Z.to_nat c = Some v) y_test ytest_strings
    /\ Forall (fun v => v ∈ labels) (ypred_strings ++ ytest_strings)
    /\ ConfusionMatrix py (VStr <$> ytest_strings) (VStr <$> ypred_strings) = inr cm
    /\ vars k' !! "cm" = Some (OConfusion cm).
Proof.
  intros H Hread Hlabel.
  destruct (cell_test_model_run py k k' H)
    as (df' & w' & labels' & classes & y & X & parts & model & ypred & decoded_pred
        & decoded_test & cm & Hread' & Hlabel' & Hfit & Hy & Hdrop & Hsplit & Hmodel
        & Hpred & Hps & Hts & Hcm & ->).
  rewrite Hread in Hread'. injection Hread' as <- <-.
  rewrite Hlabel in Hlabel'. injection Hlabel' as <-.
  rewrite le_fit_texts in Hfit. injection Hfit as <-.
  apply le_inverse_transform_ok in Hps as (ypred_strings & -> & Hps).
  apply le_inverse_transform_ok in Hts as (ytest_strings & -> & Hts).
  exists (Sklearn.LabelEncoder_fit labels), ypred, parts.2, ypred_strings,
    ytest_strings, cm.
  cbn [vars]. look.
  split; [apply np_unique_sorted|]. split; [apply np_unique_NoDup|].
  split; [apply np_unique_elem_of|].
  repeat (split; [first [reflexivity | assumption]|]).
  split; [|split; [exact Hcm | reflexivity]].
  apply Forall_app. split; apply Forall_forall; intros v Hv;
    apply list_elem_of_lookup in Hv as (i & Hi).
  - destruct (Forall2_lookup_r _ _ _ _ _ Hps Hi) as (c & _ & _ & Hc).
    apply np_unique_elem_of. apply list_elem_of_lookup. eexists. exact Hc.
  - destruct (Forall2_lookup_r _ _ _ _ _ Hts Hi) as (c & _ & _ & Hc).
    apply np_unique_elem_of. apply list_elem_of_lookup. eexists. exact Hc.
Qed.

(** ** What [get_data] hands to the training *)

(** The columns of a frame a column was dropped from. *)
Lemma column_after_drop (df : Pandas.frame) (dropped label : string) :
  Pandas.column (List.filter (fun c => negb (String.eqb c.1 dropped)) df) label
  = if String.eqb label dropped then inl (KeyError label)
    else Pandas.column df label.
Proof.
  unfold Pandas.column. induction df as [|c df IH]; simpl.
  - destruct (String.eqb label dropped); reflexivity.
  - destruct (String.eqb c.1 dropped) eqn:Hd; simpl.
    + apply String.eqb_eq in Hd.
      destruct (String.eqb c.1 label) eqn:Hl; [|exact IH].
      apply String.eqb_eq in Hl. rewrite <- Hl, Hd, String.eqb_refl.
      rewrite <- Hl, Hd, String.eqb_refl in IH. exact IH.
    + destruct (String.eqb c.1 label) eqn:Hl; [|exact IH].
      apply String.eqb_eq in Hl. rewrite <- Hl, Hd. reflexivity.
Qed.

(** A column there is, or [KeyError] and no column of that label. *)
Lemma column_missing (df : Pandas.frame) (label : string) (e : exn) :
  Pandas.column df label = inl e ->
  e = KeyError label /\ forall c, c ∈ df -> c.1 <> label.
Proof.
  unfold Pandas.column. destruct (find _ df) eqn:Hfind; [discriminate|].
  intros [= <-]. split; [reflexivity|].
  intros c Hc Heq. apply list_elem_of_In in Hc.
  apply (find_none _ _ Hfind) in Hc. apply String.eqb_neq in Hc.
  contradiction.
Qed.

Lemma column_present (df : Pandas.frame) (label : string) (values : list pyval) :
  Pandas.column df label = inr values ->
  exists c, c ∈ df /\ c.1 = label.
Proof.
  unfold Pandas.column. destruct (find _ df) as [c|] eqn:Hfind; [|discriminate].
  intros _. apply find_some in Hfind as [Hin Heq]. exists c.
  split; [apply list_elem_of_In; exact Hin | apply String.eqb_eq; exact Heq].
Qed.

(** A call of the script that returns, step by step. *)
Lemma get_data_ok {W} (py : Libraries W) (w w' : W) (d : gmap string GetData.data) :
  GetData.get_data py w = Ok d w' ->
  exists df labels classes y parts,
    read_csv py dataset_url tab quote w = Ok df w'
    /\ Pandas.column df "Label" = inr labels
    /\ le_fit py labels = inr classes
    /\ le_transform py classes labels = inr y
    /\ train_test_split py (List.filter (fun c => negb (String.eqb c.1 "Label")) df)
         y (1 # 10)%Q 42 = inr parts
    /\ d = <["X" := GetData.DFrame
                      (List.filter (fun c => negb (String.eqb c.1 "Label")) df)]>
             (<["y" := GetData.DArray y]> ∅).
Proof.
  intros H.
  destruct (read_csv py dataset_url tab quote w) as [df w1|e w1] eqn:Hread;
    [|unfold GetData.get_data, bind in H; rewrite Hread in H; discriminate].
  destruct (Pandas.column df "Label") as [e|labels] eqn:Hlabel.
  { unfold GetData.get_data in H. unfold bind at 1 in H. rewrite Hread in H.
    rewrite bind_lift, Hlabel in H. discriminate. }
  rewrite (get_data_steps py w w1 df labels Hread Hlabel) in H.
  destruct (le_fit py labels) as [|classes] eqn:Hfit; [discriminate|].
  destruct (le_transform py classes labels) as [|y] eqn:Hy; [discriminate|].
  destruct (train_test_split py _ y (1 # 10)%Q 42) as [|parts] eqn:Hsplit;
    [discriminate|].
  injection H as <- <-.
  exists df, labels, classes, y, parts. repeat split; assumption.
Qed.

(** X15: the features [get_data] returns do not hold the label.  When
    [get_data] returns, its dictionary has the two keys [X] and [y]; the
    frame under [X] has no [Label] column and every other column of the
    data set with the cells it had; and when the labels of the data set are
    all text, the array under [y] has one code for each row of the [Label]
    column, the position of the row's label among the distinct labels in
    ascending order. *)
Theorem get_data_features_exclude_label {W} (py : Libraries W) (w w' : W)
    (d : gmap string GetData.data) :
  GetData.get_data py w = Ok d w' ->
  exists df labels X y,
    read_csv py dataset_url tab quote w = Ok df w'
    /\ Pandas.column df "Label" = inr labels
    /\ d !! "X" = Some (GetData.DFrame X)
    /\ d !! "y" = Some (GetData.DArray y)
    /\ dom d = {["X"; "y"]}
    /\ Pandas.column X "Label" = inl (KeyError "Label")
    /\ (forall label, label <> "Label" -> Pandas.column X label = Pandas.column df label)
    /\ (forall labels' : list string,
          labels = VStr <$> labels' ->
          exists classes,
            Sorted String.le classes
            /\ NoDup classes
            /\ (forall v, v ∈ classes <-> v ∈ labels')
            /\ Forall2 (fun v c => 0 <= c < Z.of_nat (length classes)
                                   /\ classes !! Z.to_nat c = Some v)
                 labels' y).
Proof.
  intros H.
  destruct (get_data_ok py w w' d H)
    as (df & labels & classes & y & parts & Hread & Hlabel & Hfit & Hy & _ & ->).
  exists df, labels, (List.filter (fun c => negb (String.eqb c.1 "Label")) df), y.
  split; [exact Hread|]. split; [exact Hlabel|].
  split; [apply lookup_insert_eq|].
  split; [rewrite lookup_insert_ne by discriminate; apply lookup_insert_eq|].
  split; [rewrite !dom_insert_L, dom_empty_L; set_solver|].
  split; [rewrite column_after_drop; reflexivity|].
  split.
  - intros label Hne. rewrite column_after_drop.
    destruct (String.eqb label "Label") eqn:Heq; [|reflexivity].
    apply String.eqb_eq in Heq. contradiction.
  - intros labels' ->.
    destruct (encode_texts py labels')
      as (classes' & y' & Hfit' & Hy' & Hs & Hn & Hin & Hall).
    rewrite Hfit in Hfit'. injection Hfit' as ->.
    rewrite Hy in Hy'. injection Hy' as <-.
    exists classes'. repeat (split; [assumption|]).
    eapply Forall2_impl; [exact Hall|]. intros v c [Hc Hv].
    split; [|exact Hv]. apply lookup_lt_Some in Hv. lia.
Qed.

(** X16: the ways [get_data] fails.  [get_data] raises in these cases and
    no other: reading the file raises; the data set read has no [Label]
    column, which gives [KeyError]; the encoder raises on the labels, when
    it is fitted or when it encodes them; or the split of the features and
    the codes raises, although its parts are not used.  Dropping the column
    never fails once the column is there, and on labels that are all text
    the encoder does not fail either, so that on such a data set [get_data]
    raises exactly when the split does, and what the split raises. *)
Theorem get_data_failures {W} (py : Libraries W) (w w' : W) (e : exn) :
  (GetData.get_data py w = Raise e w'
   <-> read_csv py dataset_url tab quote w = Raise e w'
       \/ exists df,
            read_csv py dataset_url tab quote w = Ok df w'
            /\ ((e = KeyError "Label"
                 /\ forall c, c ∈ df -> c.1 <> "Label")
                \/ exists labels,
                     Pandas.column df "Label" = inr labels
                     /\ (le_fit py labels = inl e
                         \/ exists classes,
                              le_fit py labels = inr classes
                              /\ (le_transform py classes labels = inl e
                                  \/ exists y,
                                       le_transform py classes labels = inr y
                                       /\ train_test_split py
                                            (List.filter
                                               (fun c => negb (String.eqb c.1 "Label")) df)
                                            y (1 # 10)%Q 42 = inl e))))
  /\ (forall df (labels : list string),
        read_csv py dataset_url tab quote w = Ok df w' ->
        Pandas.column df "Label" = inr (VStr <$> labels) ->
        exists y,
          le_transform py (VStr <$> Sklearn.np_unique labels) (VStr <$> labels) = inr y
          /\ (GetData.get_data py w = Raise e w'
              <-> train_test_split py
                    (List.filter (fun c => negb (String.eqb c.1 "Label")) df)
                    y (1 # 10)%Q 42 = inl e)).
Proof.
  split.
  - destruct (read_csv py dataset_url tab quote w) as [df w1|e1 w1] eqn:Hread.
    + destruct (Pandas.column df "Label") as [e1|labels] eqn:Hlabel.
      * destruct (column_missing df "Label" e1 Hlabel) as [-> Hnone].
        assert (GetData.get_data py w = Raise (KeyError "Label") w1) as ->.
        { unfold GetData.get_data. unfold bind at 1. rewrite Hread.
          rewrite bind_lift, Hlabel. reflexivity. }
        split.
        -- intros [= <- <-]. right. exists df. split; [reflexivity|]. left.
           split; [reflexivity | exact Hnone].
        -- intros [Hr|(df' & Hr & [[-> _]|(labels & Hl & _)])]; [discriminate| |].
           ++ injection Hr as _ <-. reflexivity.
           ++ injection Hr as <- _. rewrite Hlabel in Hl. discriminate.
      * destruct (column_present df "Label" labels Hlabel) as (c0 & Hc0 & Hname).
        rewrite (get_data_steps py w w1 df labels Hread Hlabel).
        split.
        -- intros Hraise. right. exists df.
           destruct (le_fit py labels) as [e1|classes] eqn:Hfit.
           { injection Hraise as <- <-. split; [reflexivity|]. right.
             exists labels. split; [exact Hlabel|]. left. exact Hfit. }
           destruct (le_transform py classes labels) as [e1|y] eqn:Hy.
           { injection Hraise as <- <-. split; [reflexivity|]. right.
             exists labels. split; [exact Hlabel|]. right. exists classes.
             split; [exact Hfit|]. left. exact Hy. }
           destruct (train_test_split py _ y (1 # 10)%Q 42) as [e1|parts] eqn:Hsplit;
             [|discriminate].
           injection Hraise as <- <-. split; [reflexivity|]. right.
           exists labels. split; [exact Hlabel|]. right. exists classes.
           split; [exact Hfit|]. right. exists y. split; [exact Hy | exact Hsplit].
        -- intros [Hr|(df' & Hr & [[_ Hnone]|(labels' & Hl & Hcases)])];
             [discriminate| |].
           ++ injection Hr as <- _. exfalso. apply (Hnone c0 Hc0 Hname).
           ++ injection Hr as <- <-. rewrite Hlabel in Hl. injection Hl as <-.
              destruct Hcases as [Hfit|(classes & Hfit & [Hy|(y & Hy & Hsplit)])];
                rewrite Hfit; [reflexivity|..]; rewrite Hy; [reflexivity|].
              rewrite Hsplit. reflexivity.
    + assert (GetData.get_data py w = Raise e1 w1) as ->
        by (unfold GetData.get_data, bind; rewrite Hread; reflexivity).
      split.
      * intros [= <- <-]. left. reflexivity.
      * intros [Hr|(df & Hr & _)]; [|discriminate].
        injection Hr as <- <-. reflexivity.
  - intros df labels Hread Hlabel.
    destruct (transform_fit labels) as (y & Hy & _).
    exists y. split; [rewrite le_transform_texts; exact Hy|].
    rewrite (get_data_steps py w w' df _ Hread Hlabel), le_fit_texts.
    rewrite le_transform_texts, Hy.
    destruct (train_test_split py _ y (1 # 10)%Q 42) as [e1|parts].
    + split; [intros [= <-]; reflexivity | intros [= <-]; reflexivity].
    + split; discriminate.
Qed.

(** * Examples on the fixture service *)



(** In a working directory the process may not write, the folder cell ends
    with what [os.mkdir] raises, and the disk is as it was. *)
Example sample_projects_read_only :
  Configuration.cell_sample_projects Fixture.read_only Fixture.fresh
  = Raise (PermissionError sample_projects_folder)
      (Kernel (<["sample_projects_folder" := OVal (VStr sample_projects_folder)]> ∅)
         ∅ [] []).
Proof. reflexivity. Qed.

(** The configuration cell on the fixture: the file has the four fields of
    the workspace [myws], the region among them. *)
Lemma config_file_has_four_fields_witness :
  exists ws,
    vars Fixture.configured !! "ws" = Some (OWorkspace ws)
    /\ disk Fixture.configured !! config_file = Some (File (descriptor ws))
    /\ size (descriptor ws) = 4%nat
    /\ descriptor ws !! "region" = Some "eastus2".
Proof.
  destruct (config_file_has_four_fields Fixture.sdk Fixture.with_parameters
              Fixture.configured)
    as (ws & w & Hws & _ & _ & _ & Hfetch & Hfile & _ & Hsize & _ & _ & _ & Hregion & _).
  - vm_compute. reflexivity.
  - exists ws. injection Hfetch as Hloc _. rewrite <- Hloc in Hregion.
    repeat split; assumption.
Defined.

(** The configuration cell and then the loading cell on the fixture. *)
Lemma config_round_trip_witness :
  exists written loaded,
    vars Fixture.configured !! "ws" = Some (OWorkspace written)
    /\ vars Fixture.loaded !! "my_workspace" = Some (OWorkspace loaded)
    /\ Workspace.subscription_id loaded = Workspace.subscription_id written
    /\ Workspace.resource_group loaded = Workspace.resource_group written
    /\ Workspace.name loaded = Workspace.name written.
Proof.
  apply (proj2 (config_round_trip Fixture.sdk
                  (Workspace.mk "myws" "<subscription_id>" "myrg" "eastus2") ∅ ∅
                  Fixture.with_parameters Fixture.configured Fixture.loaded)).
  - vm_compute. reflexivity.
  - vm_compute. reflexivity.
Defined.

(** Two reconfigurations of a working directory that holds another file. *)
Lemma write_config_overwrites_witness :
  let d : gmap string node := <["notes.json" := File ∅]> ∅ in
  let first := Workspace.mk "myws" "<subscription_id>" "myrg" "eastus2" in
  let second := Workspace.mk "teamws" "<subscription_id>" "teamrg" "westeurope" in
  exists d',
    for_each [first; second] write_config d = Ok tt d'
    /\ d' !! config_file = Some (File (descriptor second))
    /\ d' !! "notes.json" = Some (File ∅).
Proof.
  intros d first second.
  destruct (write_config_overwrites [first] second d) as (Hrun & Hfile & Hrest & _).
  - intros c. vm_compute. discriminate.
  - vm_compute. discriminate.
  - eexists. split; [exact Hrun|]. split; [exact Hfile|].
    rewrite Hrest by discriminate. reflexivity.
Defined.

(** The submission cell when the service refuses the submission. *)
Lemma remote_failures_propagate_witness :
  exists k',
    RemoteExecution.cell_submit Fixture.out_of_quota Fixture.ready
    = Raise (SdkError "quota exceeded") k'
    /\ cloud k' = [].
Proof.
  destruct (remote_failures_propagate Fixture.out_of_quota Fixture.libraries)
    as (_ & _ & Hsubmit & _).
  apply (Hsubmit Fixture.ready Fixture.experiment Fixture.config).
  - vm_compute. reflexivity.
  - vm_compute. reflexivity.
  - reflexivity.
Defined.

(** The metrics cell on the fixture: two columns, 0 and 1, each with the one
    float metric of its run. *)
Lemma metrics_table_keeps_floats_witness :
  exists entries columns,
    vars (final (RemoteExecution.cell_children Fixture.sdk Fixture.libraries
                        Fixture.submitted))
      !! "rundata" = Some (OTable columns (fill entries ∅))
    /\ Sorted Z.le columns
    /\ forall i column name v,
         fill entries ∅ !! i = Some column -> column !! name = Some v ->
         isinstance_float v = true.
Proof.
  destruct (metrics_table_keeps_floats Fixture.sdk Fixture.libraries Fixture.submitted
              (final (RemoteExecution.cell_children Fixture.sdk Fixture.libraries
                        Fixture.submitted)))
    as (run & children & w & entries & columns & _ & _ & _ & Hdata & Hsorted
        & _ & _ & _ & _ & _ & Hfloat & _).
  - vm_compute. reflexivity.
  - exists entries, columns. repeat split; assumption.
Defined.

(** The fixture's table, computed. *)
Example metrics_table_on_fixture :
  vars (final (RemoteExecution.cell_children Fixture.sdk Fixture.libraries
                 Fixture.submitted)) !! "rundata"
  = Some (OTable [0; 1]
            (<[0 := {["AUC_weighted" := VFloat Fixture.half]}]>
               (<[1 := {["AUC_weighted" := VFloat Fixture.half]}]> ∅))).
Proof. vm_compute. reflexivity. Qed.

(** [get_data] on the small data set. *)
Lemma get_data_returns_full_data_witness :
  GetData.get_data Fixture.libraries []
  = Ok (<["X" := GetData.DFrame
                   [("Description",
                     [VStr "yoga at dawn"; VStr "fire spinning"; VStr "morning yoga"])]]>
          (<["y" := GetData.DArray [0; 1; 0]]> ∅)) [].
Proof.
  destruct (get_data_returns_full_data Fixture.libraries [] [] Fixture.events
              [VStr "Class/Workshop"; VStr "Fire"; VStr "Class/Workshop"])
    as (_ & Hrun & _).
  - reflexivity.
  - reflexivity.
  - rewrite Hrun. reflexivity.
Defined.

(** C4: [get_data] does not return on every data set.  On a data set of
    one row, with its [Label] column, the libraries read the file and encode
    the label, the split of one row in ten parts raises, and so does
    [get_data], although nothing of the split would be returned. *)
Lemma get_data_one_row_counterexample :
  read_csv Fixture.one_row dataset_url tab quote [] = Ok Fixture.one_event []
  /\ Pandas.column Fixture.one_event "Label" = inr [VStr "Class/Workshop"]
  /\ le_transform Fixture.one_row [VStr "Class/Workshop"] [VStr "Class/Workshop"] = inr [0]
  /\ GetData.get_data Fixture.one_row []
     = Raise (ValueError "the resulting train set will be empty") [].
Proof. repeat split. Qed.

(** C3: no concurrency limit is submitted.  The settings dictionary has six
    entries and none under [concurrent_iterations], and the configuration the
    submission cell hands to the service on the fixture has none either. *)
Lemma automl_settings_concurrency_counterexample :
  size RemoteExecution.automl_settings = 6%nat
  /\ RemoteExecution.automl_settings !! "concurrent_iterations" = None
  /\ exists experiment config,
       calls (final (RemoteExecution.cell_submit Fixture.sdk Fixture.ready))
       = [(CallSubmit experiment config, None)]
       /\ AutoMLConfig.kwargs config = RemoteExecution.automl_settings
       /\ AutoMLConfig.kwargs config !! "concurrent_iterations" = None.
Proof.
  split; [vm_compute; reflexivity|]. split; [vm_compute; reflexivity|].
  exists Fixture.experiment, Fixture.config.
  split; [vm_compute; reflexivity|]. split; [reflexivity | vm_compute; reflexivity].
Qed.

(** The last cell on the fixture: the one test row is a workshop, and the
    model says so. *)
Example test_model_on_fixture :
  vars (final (RemoteExecution.cell_test_model Fixture.libraries
                 (Kernel (<["fitted_model" := OModel (ModelRef "model_1")]> ∅) ∅ [] [])))
    !! "cm"
  = Some (OConfusion [((VStr "Class/Workshop", VStr "Class/Workshop"), 1)]).
Proof. vm_compute. reflexivity. Qed.

(** Python's [int] on some strings; the last two begin with the file
    separator (code 28), which [int] does not drop, and with a byte that is
    not ASCII. *)
Example int_of_str_examples (unicode : string -> option Z) :
  int_of_str unicode "7" = inr 7
  /\ int_of_str unicode " 12 " = inr 12
  /\ int_of_str unicode "-3" = inr (-3)
  /\ int_of_str unicode "1_000" = inr 1000
  /\ int_of_str unicode "1__0" = inl (ValueError "1__0")
  /\ int_of_str unicode "" = inl (ValueError "")
  /\ int_of_str unicode "3.0" = inl (ValueError "3.0")
  /\ int_of_str unicode (String (ascii_of_nat 28) "7")
     = inl (ValueError (String (ascii_of_nat 28) "7"))
  /\ int_of_str unicode (String (ascii_of_nat 160) "7")
     = match unicode (String (ascii_of_nat 160) "7") with
       | Some z => inr z
       | None => inl (ValueError (String (ascii_of_nat 160) "7"))
       end.
Proof. repeat split. Qed.

(** The encoder on the labels of the small data set. *)
Example label_encoder_example :
  Sklearn.LabelEncoder_fit ["Fire"; "Class/Workshop"; "Fire"] = ["Class/Workshop"; "Fire"]
  /\ Sklearn.LabelEncoder_transform ["Class/Workshop"; "Fire"]
       ["Fire"; "Class/Workshop"; "Fire"] = inr [1; 0; 1]
  /\ Sklearn.LabelEncoder_inverse_transform ["Class/Workshop"; "Fire"] [1; 0]
     = inr ["Fire"; "Class/Workshop"]
  /\ Sklearn.LabelEncoder_transform ["Class/Workshop"; "Fire"] ["Art"]
     = inl (ValueError "Art").
Proof. repeat split. Qed.

(** Workspace creation on the service as the notebook describes it: a first
    creation returns, a creation of a workspace that exists fails, and so
    does a creation without permission. *)
Example create_examples :
  let permitted := Documented.Azure ∅ {[("sub", "myrg")]} {["sub"]} ∅ in
  let taken :=
    Documented.Azure {[("sub", "myrg", "myws") := "eastus2"]} {[("sub", "myrg")]}
      {["sub"]} {["sub"]} in
  let stranger := Documented.Azure ∅ ∅ ∅ ∅ in
  (exists a',
     Documented.Workspace_create "myws" "sub" "myrg" "eastus2" permitted
     = Ok (Workspace.mk "myws" "sub" "myrg" "eastus2") a')
  /\ Documented.Workspace_create "myws" "sub" "myrg" "eastus2" taken
     = Raise (SdkError "workspace already exists") taken
  /\ Documented.Workspace_create "myws" "sub" "myrg" "eastus2" stranger
     = Raise (SdkError "no permission in the resource group") stranger.
Proof.
  split; [eexists; reflexivity|]. split; reflexivity.
Qed.

(** * Examples at the edges *)

(** The codes of two labels of a column, in the order of the labels. *)
Lemma label_codes_order_witness :
  exists ca cb,
    Sklearn.encode1 (Sklearn.LabelEncoder_fit ["Fire"; "Class/Workshop"; "Fire"])
      "Class/Workshop" = inr ca
    /\ Sklearn.encode1 (Sklearn.LabelEncoder_fit ["Fire"; "Class/Workshop"; "Fire"])
         "Fire" = inr cb
    /\ (ca = cb <-> "Class/Workshop" = "Fire")
    /\ (ca <= cb <-> String.le "Class/Workshop" "Fire").
Proof.
  destruct (label_codes_order ["Fire"; "Class/Workshop"; "Fire"] "Class/Workshop" "Fire")
    as (ca & cb & Ha & Hb & _ & _ & _ & Heq & Hle).
  - set_solver.
  - set_solver.
  - exists ca, cb. repeat split; first [assumption | apply Heq | apply Hle].
Defined.

(** Two columns with the same labels, in another order and number. *)
Lemma label_classes_of_same_labels_witness :
  Sklearn.LabelEncoder_fit ["Fire"; "Class/Workshop"; "Fire"]
  = Sklearn.LabelEncoder_fit ["Class/Workshop"; "Fire"].
Proof.
  apply (label_classes_of_same_labels ["Fire"; "Class/Workshop"; "Fire"]
           ["Class/Workshop"; "Fire"]).
  intros v. rewrite !elem_of_cons, !elem_of_nil. tauto.
Defined.

(** The cells of a notebook in which nothing was submitted. *)
Lemma cells_need_the_run_witness :
  Forall (fun cell : M (kernel (list Workspace.t)) unit =>
            exists k', cell Fixture.fresh = Raise (NameError "remote_run") k'
                       /\ disk k' = disk Fixture.fresh
                       /\ cloud k' = cloud Fixture.fresh
                       /\ calls k' = calls Fixture.fresh)
    [ RemoteExecution.cell_run_details Fixture.sdk;
      RemoteExecution.cell_children Fixture.sdk Fixture.libraries;
      RemoteExecution.cell_cancel Fixture.sdk;
      RemoteExecution.cell_best_model Fixture.sdk;
      RemoteExecution.cell_iteration_model Fixture.sdk;
      RemoteExecution.cell_register_model Fixture.sdk ].
Proof.
  apply (cells_need_the_run Fixture.sdk Fixture.libraries Fixture.fresh).
  reflexivity.
Defined.

(** The two model cells on the fixture. *)
Lemma iteration_model_keeps_best_model_witness :
  exists k',
    run_cells [ RemoteExecution.cell_best_model Fixture.sdk;
                RemoteExecution.cell_iteration_model Fixture.sdk ] Fixture.submitted
    = Ok tt k'
    /\ calls k' = [ (CallGetOutput (RunId "AutoML_1") None, None);
                    (CallGetOutput (RunId "AutoML_1") (Some 0), None) ].
Proof.
  eexists. split.
  - exact (iteration_model_keeps_best_model Fixture.sdk Fixture.submitted
             (RunId "AutoML_1") (RunId "1", ModelRef "model_1") []
             eq_refl eq_refl).
  - reflexivity.
Defined.

(** The metrics cell on a run without children. *)
Lemma metrics_table_without_children_witness :
  exists k',
    RemoteExecution.cell_children Edge.childless Fixture.libraries Fixture.submitted = Ok tt k'
    /\ vars k' !! "rundata" = Some (OTable [] ∅).
Proof.
  eexists. split.
  - exact (metrics_table_without_children Edge.childless Fixture.libraries Fixture.submitted
             (RunId "AutoML_1") [] eq_refl eq_refl).
  - reflexivity.
Defined.

(** One pass of the loop on a child without an [iteration] property. *)
Lemma child_run_by_iteration_witness :
  exists k1,
    RemoteExecution.children_body Edge.unnumbered Fixture.libraries (RunId "0") Edge.collecting
    = Raise (KeyError "iteration") k1
    /\ vars k1 !! "metricslist" = Some (OMetrics ∅).
Proof.
  destruct (child_run_by_iteration Edge.unnumbered Fixture.libraries (RunId "0") Edge.collecting
              ∅ ∅ Fixture.child_metrics [] [] eq_refl eq_refl eq_refl)
    as [Hlist Hbody].
  eexists. split; [exact Hbody | exact Hlist].
Defined.

(** The requests of the metrics cell on the fixture. *)
Lemma metrics_cell_requests_witness :
  exists columns table,
    calls (final (RemoteExecution.cell_children Fixture.sdk Fixture.libraries
                        Fixture.submitted))
    = [ (CallGetChildren (RunId "AutoML_1"), None);
        (CallGetProperties (RunId "0"), None); (CallGetMetrics (RunId "0"), None);
        (CallGetProperties (RunId "1"), None); (CallGetMetrics (RunId "1"), None) ]
    /\ vars (final (RemoteExecution.cell_children Fixture.sdk Fixture.libraries
                        Fixture.submitted))
         !! "rundata" = Some (OTable columns table)
    /\ (length columns <= 2)%nat.
Proof.
  destruct (metrics_cell_requests Fixture.sdk Fixture.libraries Fixture.submitted
              (final (RemoteExecution.cell_children Fixture.sdk Fixture.libraries
                        Fixture.submitted)))
    as (run & children & w & columns & table & Hrun & Hch & Hcalls & Hdata & Hlen).
  - vm_compute. reflexivity.
  - injection Hrun as <-. injection Hch as <- _.
    exists columns, table. repeat split; assumption.
Defined.

(** The metrics cell that fails on its first child keeps the earlier
    table. *)
Lemma failed_metrics_cell_keeps_table_witness :
  exists k',
    RemoteExecution.cell_children Edge.unnumbered Fixture.libraries Edge.resubmitted
    = Raise (KeyError "iteration") k'
    /\ vars k' !! "rundata" = Some (OTable [7] ∅).
Proof.
  exists (final (RemoteExecution.cell_children Edge.unnumbered Fixture.libraries
                        Edge.resubmitted)).
  assert (RemoteExecution.cell_children Edge.unnumbered Fixture.libraries Edge.resubmitted
          = Raise (KeyError "iteration")
              (final (RemoteExecution.cell_children Edge.unnumbered Fixture.libraries
                        Edge.resubmitted)))
    as Hraise by (vm_compute; reflexivity).
  split; [exact Hraise|].
  rewrite (failed_metrics_cell_keeps_table Edge.unnumbered Fixture.libraries
             Edge.resubmitted _ _ Hraise).
  reflexivity.
Defined.

(** The three cells up to the submission, on the fixture. *)
Lemma submission_uses_attached_target_witness :
  calls (final (run_cells
                  [ RemoteExecution.cell_attach Fixture.sdk "mydsvm1" "10.0.0.4"
                      "azureuser" "secret";
                    RemoteExecution.cell_automl_config;
                    RemoteExecution.cell_submit Fixture.sdk ] Edge.with_experiment))
  = [ (CallAttach (Experiment.workspace Fixture.experiment) "mydsvm1" "10.0.0.4"
         "azureuser" "secret" 22, None);
      (CallSubmit Fixture.experiment Fixture.config, None) ].
Proof.
  destruct (submission_uses_attached_target Fixture.sdk Edge.with_experiment
              (Experiment.workspace Fixture.experiment)
              "./sample_projects/automl-remote-dsvm-blobstore" Fixture.experiment
              "mydsvm1" "10.0.0.4" "azureuser" "secret" (ComputeId "mydsvm1") []
              eq_refl eq_refl eq_refl eq_refl)
    as (_ & _ & _ & _ & _ & Hcalls).
  exact Hcalls.
Defined.

(** The test cell and the script on the small data set. *)
Lemma test_cell_uses_the_script_data_witness :
  exists X y,
    GetData.get_data Fixture.libraries []
    = Ok (<["X" := GetData.DFrame X]> (<["y" := GetData.DArray y]> ∅)) []
    /\ vars (final (RemoteExecution.cell_test_model Fixture.libraries Edge.with_model))
         !! "df" = Some (OFrame X)
    /\ vars (final (RemoteExecution.cell_test_model Fixture.libraries Edge.with_model))
         !! "y" = Some (OCodes y).
Proof.
  destruct (test_cell_uses_the_script_data Fixture.libraries Edge.with_model
              (final (RemoteExecution.cell_test_model Fixture.libraries Edge.with_model)))
    as (X & y & parts & model & ypred & Hdata & HX & Hy & _).
  - vm_compute. reflexivity.
  - exists X, y. repeat split; assumption.
Defined.

(** The labels the test cell decodes on the small data set. *)
Lemma test_cell_decodes_to_labels_witness :
  exists classes ypred_strings ytest_strings,
    vars (final (RemoteExecution.cell_test_model Fixture.libraries Edge.with_model))
      !! "le" = Some (OEncoder (Some (VStr <$> classes)))
    /\ Sorted String.le classes
    /\ vars (final (RemoteExecution.cell_test_model Fixture.libraries Edge.with_model))
         !! "ypred_strings" = Some (OLabels (VStr <$> ypred_strings))
    /\ vars (final (RemoteExecution.cell_test_model Fixture.libraries Edge.with_model))
         !! "ytest_strings" = Some (OLabels (VStr <$> ytest_strings))
    /\ Forall (fun v => v ∈ ["Class/Workshop"; "Fire"; "Class/Workshop"])
         (ypred_strings ++ ytest_strings).
Proof.
  destruct (test_cell_decodes_to_labels Fixture.libraries Edge.with_model
              (final (RemoteExecution.cell_test_model Fixture.libraries Edge.with_model))
              Fixture.events [] ["Class/Workshop"; "Fire"; "Class/Workshop"])
    as (classes & ypred & y_test & ypred_strings & ytest_strings & cm
        & Hsorted & _ & _ & Hle & _ & _ & Hp & Ht & _ & _ & Hin & _).
  - vm_compute. reflexivity.
  - reflexivity.
  - reflexivity.
  - exists classes, ypred_strings, ytest_strings. repeat split; assumption.
Defined.

(** The features of the small data set. *)
Lemma get_data_features_exclude_label_witness :
  exists X,
    Pandas.column X "Label" = inl (KeyError "Label")
    /\ Pandas.column X "Description" = Pandas.column Fixture.events "Description".
Proof.
  destruct (get_data_features_exclude_label Fixture.libraries [] []
              (<["X" := GetData.DFrame
                          [("Description",
                            [VStr "yoga at dawn"; VStr "fire spinning";
                             VStr "morning yoga"])]]>
                 (<["y" := GetData.DArray [0; 1; 0]]> ∅)))
    as (df & labels & X & y & Hread & _ & _ & _ & _ & Hnone & Hother & _).
  - reflexivity.
  - injection Hread as <-. exists X. split; [exact Hnone|].
    apply Hother. discriminate.
Defined.
